(** * VolunteerConnect Hub

    A shallow embedding of the client-side JavaScript of the site:
    - [assets/js/database.js]: the dual-mode data layer (Supabase client or
      browser storage),
    - [assets/js/auth.js]: the demo sign-in and the auth-state fan-out,
    - [assets/js/app.js]: hours tracking, the calendar export and the letter
      templates.

    JavaScript values are an inductive type; objects are finite maps from
    property names to values.  Every function that can throw returns a
    [result].  The clock, the identifier generator, the backend and the
    static snapshot are inputs of the operations that read them. *)

From Stdlib Require Import ZArith Ascii String List Lia.
From stdpp Require Import gmap strings list fin_maps pretty.

#[local] Set Warnings "-register-all".
#[local] Open Scope Z_scope.

(** ** JavaScript values *)

(** Numbers are the integer-valued doubles ([VNum], whose sums are rounded
    as doubles round them and which print as [Number.prototype.toString]
    prints them) and [NaN].  Fractions and the infinities are not
    represented: what is stated about numbers below is stated for whole
    amounts, among them the timestamps. *)
Inductive value :=
| VUndef
| VNull
| VBool (b : bool)
| VNum (n : Z)
| VNaN
| VStr (s : string)
| VArr (l : list value)
| VObj (m : gmap string value).

Abbreviation obj := (gmap string value).

Inductive js_error :=
| NotAuthenticated            (* new Error('Not authenticated') *)
| BackendError (e : value)    (* the error object reported by the backend *)
| TypeError
| RangeError.

Inductive result (A : Type) :=
| Ok (a : A)
| Throw (e : js_error).
Arguments Ok {A} a.
Arguments Throw {A} e.

#[global] Instance result_ret : MRet result := fun _ a => Ok a.
#[global] Instance result_bind : MBind result := fun _ _ f r =>
  match r with Ok a => f a | Throw e => Throw e end.
#[global] Instance result_fmap : FMap result := fun _ _ f r =>
  match r with Ok a => Ok (f a) | Throw e => Throw e end.

(** [!v] is false exactly for the falsy values. *)
Definition truthy (v : value) : bool :=
  match v with
  | VUndef | VNull | VNaN => false
  | VBool b => b
  | VNum n => negb (n =? 0)
  | VStr s => negb (String.eqb s "")
  | VArr _ | VObj _ => true
  end.

(** [a || b] *)
Definition js_or (a b : value) : value := if truthy a then a else b.

(** The double nearest to the integer [z], ties going to the even
    significand: the value an arithmetic result takes.  Integers of
    magnitude up to 2^53 are doubles themselves.  (A result beyond the
    largest double becomes [Infinity], which the values above do not
    include.) *)
Definition round_double (z : Z) : Z :=
  let a := Z.abs z in
  if a <? 2 ^ 53 then z else
  let e := Z.log2 a - 52 in
  let q := Z.shiftr a e in
  let r := a - Z.shiftl q e in
  let half := Z.shiftl 1 (e - 1) in
  let q' := if (half <? r) || ((r =? half) && Z.odd q) then q + 1 else q in
  Z.sgn z * Z.shiftl q' e.

(** [Number::toString] picks the decimal with the fewest significant digits
    that still reads back as the same double: [shortest_from a d ks] tries
    the digit counts [ks] in turn for the positive double [a] of [d] decimal
    digits and returns that decimal with its zeros. *)
Fixpoint shortest_from (a d : Z) (ks : list Z) : Z :=
  match ks with
  | [] => a
  | k :: ks' =>
      if d <? k then a else
      let unit := 10 ^ (d - k) in
      let lo := a / unit * unit in
      let hi := lo + unit in
      let ok_lo := round_double lo =? a in
      let ok_hi := round_double hi =? a in
      if ok_lo && ok_hi then
        (if a - lo <? hi - a then lo
         else if hi - a <? a - lo then hi
         else if Z.even (lo / unit) then lo else hi)
      else if ok_lo then lo
      else if ok_hi then hi
      else shortest_from a d ks'
  end.

Definition shortest_decimal (a : Z) : Z :=
  if a <? 2 ^ 53 then a
  else shortest_from a (Z.of_nat (String.length (pretty a)))
         [1; 2; 3; 4; 5; 6; 7; 8; 9; 10; 11; 12; 13; 14; 15; 16; 17].

Fixpoint drop_zeros (backwards : list ascii) : list ascii :=
  match backwards with
  | "0"%char :: l => drop_zeros l
  | _ => backwards
  end.

(** [Number::toString] of a non-negative integer-valued double: plain digits
    below 10^21, exponent form from there. *)
Definition nonneg_to_string (a : Z) : string :=
  let c := pretty (shortest_decimal a) in
  if shortest_decimal a <? 10 ^ 21 then c
  else
    match rev (drop_zeros (rev (list_ascii_of_string c))) with
    | [] => c
    | [d1] => String d1 ("e+" +:+ pretty (Z.of_nat (String.length c) - 1))
    | d1 :: ds =>
        String d1 ("." +:+ string_of_list_ascii ds +:+ "e+"
                   +:+ pretty (Z.of_nat (String.length c) - 1))
    end.

Definition number_to_string (n : Z) : string :=
  if n <? 0 then "-" +:+ nonneg_to_string (- n) else nonneg_to_string n.

(** The string conversion applied by template literals and by [+]. *)
Fixpoint ToString (v : value) : string :=
  match v with
  | VUndef => "undefined"
  | VNull => "null"
  | VBool true => "true"
  | VBool false => "false"
  | VNum n => number_to_string n
  | VNaN => "NaN"
  | VStr s => s
  | VArr l =>
      String.concat ","
        (map (fun x => match x with VUndef | VNull => "" | _ => ToString x end) l)
  | VObj _ => "[object Object]"
  end.

(** [a === b].  Objects and arrays are equal only to themselves; the operands
    compared below are a freshly parsed row field and a caller's argument,
    which never alias. *)
Definition strict_eq (a b : value) : bool :=
  match a, b with
  | VUndef, VUndef => true
  | VNull, VNull => true
  | VBool x, VBool y => Bool.eqb x y
  | VNum x, VNum y => x =? y
  | VStr x, VStr y => String.eqb x y
  | _, _ => false
  end.

(** [o.k] on an object: the own property, else [undefined] (none of the
    literal keys read by the code is a member of [Object.prototype]). *)
Definition get (o : obj) (k : string) : value := default VUndef (o !! k).

(** [v.k] on an arbitrary value, for the literal keys the code reads. *)
Definition prop (v : value) (k : string) : result value :=
  match v with
  | VUndef | VNull => Throw TypeError
  | VObj m => Ok (get m k)
  | _ => Ok VUndef
  end.

Definition ToNumber_prim (v : value) : value :=
  match v with
  | VNull => VNum 0
  | VBool true => VNum 1
  | VBool false => VNum 0
  | VNum n => VNum n
  | _ => VNaN
  end.

(** [a + b]: concatenation when either operand is (or converts to) a string,
    numeric addition otherwise, rounded as doubles are. *)
Definition js_add (a b : value) : value :=
  let pa := match a with VArr _ | VObj _ => VStr (ToString a) | _ => a end in
  let pb := match b with VArr _ | VObj _ => VStr (ToString b) | _ => b end in
  match pa, pb with
  | VStr x, y => VStr (x +:+ ToString y)
  | x, VStr y => VStr (ToString x +:+ y)
  | x, y =>
      match ToNumber_prim x, ToNumber_prim y with
      | VNum m, VNum n => VNum (round_double (m + n))
      | _, _ => VNaN
      end
  end.

(** [JSON.parse(JSON.stringify(v))]: properties holding [undefined] are
    dropped, [undefined] array slots and [NaN] become [null]. *)
Fixpoint json_roundtrip (v : value) : value :=
  match v with
  | VNaN => VNull
  | VArr l =>
      VArr (map (fun x => match x with VUndef => VNull | _ => json_roundtrip x end) l)
  | VObj m =>
      VObj (omap (fun x => match x with VUndef => None | _ => Some (json_roundtrip x) end) m)
  | _ => v
  end.

(** Nesting depth, the measure for induction over values. *)
Fixpoint depth (v : value) : nat :=
  match v with
  | VArr l => S (foldr (fun x acc => Nat.max (depth x) acc) 0%nat l)
  | VObj m => S (map_fold (fun _ x acc => Nat.max (depth x) acc) 0%nat m)
  | _ => 0%nat
  end.

(** The slot conversions used by [json_roundtrip], named for the lemmas. *)
Definition json_slot (x : value) : value :=
  match x with VUndef => VNull | _ => json_roundtrip x end.
Definition json_field (x : value) : option value :=
  match x with VUndef => None | _ => Some (json_roundtrip x) end.

(** ** Strings *)

(** Strings are kept as their UTF-8 bytes.  The white space and line
    terminators that [trim] removes are the one-byte characters U+0009 to
    U+000D and U+0020, the two-byte U+00A0, and the three-byte U+1680,
    U+2000 to U+200A, U+2028, U+2029, U+202F, U+205F, U+3000 and U+FEFF. *)
Definition is_space (c : ascii) : bool :=
  match nat_of_ascii c with
  | 9%nat | 10%nat | 11%nat | 12%nat | 13%nat | 32%nat => true
  | _ => false
  end.

Definition is_space2 (c1 c2 : ascii) : bool :=
  (nat_of_ascii c1 =? 194)%nat && (nat_of_ascii c2 =? 160)%nat.

Definition is_space3 (c1 c2 c3 : ascii) : bool :=
  let a := nat_of_ascii c1 in
  let b := nat_of_ascii c2 in
  let c := nat_of_ascii c3 in
  ((a =? 225) && (b =? 154) && (c =? 128)
   || (a =? 226) && (b =? 128)
      && ((128 <=? c) && (c <=? 138) || (c =? 168) || (c =? 169) || (c =? 175))
   || (a =? 226) && (b =? 129) && (c =? 159)
   || (a =? 227) && (b =? 128) && (c =? 128)
   || (a =? 239) && (b =? 187) && (c =? 191))%nat.

(** Drop the white space at the head of a byte sequence; with [backwards]
    the sequence is a reversed string, so each character's bytes come last
    byte first. *)
Fixpoint strip_spaces (backwards : bool) (l : list ascii) : list ascii :=
  match l with
  | c1 :: r1 =>
      if is_space c1 then strip_spaces backwards r1 else
      match r1 with
      | c2 :: r2 =>
          if (if backwards then is_space2 c2 c1 else is_space2 c1 c2)
          then strip_spaces backwards r2 else
          match r2 with
          | c3 :: r3 =>
              if (if backwards then is_space3 c3 c2 c1 else is_space3 c1 c2 c3)
              then strip_spaces backwards r3 else l
          | [] => l
          end
      | [] => l
      end
  | [] => []
  end.

(** [s.trim()] *)
Definition trim (s : string) : string :=
  string_of_list_ascii
    (rev (strip_spaces true (rev (strip_spaces false (list_ascii_of_string s))))).

(** [s.includes(c)] for a one-character needle. *)
Fixpoint includes_char (c : ascii) (s : string) : bool :=
  match s with
  | String c' s' => if Ascii.eqb c' c then true else includes_char c s'
  | EmptyString => false
  end.

(** [s.replace(/[-:]/g, '')] *)
Fixpoint strip_dash_colon (s : string) : string :=
  match s with
  | String c s' =>
      if Ascii.eqb c "-" || Ascii.eqb c ":" then strip_dash_colon s'
      else String c (strip_dash_colon s')
  | EmptyString => EmptyString
  end.

(** [s.split(c)[0]] for a one-character separator *)
Fixpoint before_char (c : ascii) (s : string) : string :=
  match s with
  | String c' s' => if Ascii.eqb c' c then EmptyString else String c' (before_char c s')
  | EmptyString => EmptyString
  end.

(** The UTF-16 code units of a string kept as UTF-8 bytes: one unit for a
    character of one, two or three bytes, a surrogate pair for one of four.
    A byte that starts no well-formed character (it occurs in no string the
    scripts can hold) counts as U+FFFD. *)
Definition byte_value (c : ascii) : Z := Z.of_N (N_of_ascii c).

Definition continuation (b : Z) : bool := (128 <=? b) && (b <? 192).

Fixpoint code_units (l : list ascii) : list Z :=
  match l with
  | [] => []
  | c1 :: r1 =>
      let a := byte_value c1 in
      if a <? 128 then a :: code_units r1 else
      match r1 with
      | c2 :: r2 =>
          let b := byte_value c2 in
          if (194 <=? a) && (a <? 224) && continuation b
          then ((a - 192) * 64 + (b - 128)) :: code_units r2 else
          match r2 with
          | c3 :: r3 =>
              let c := byte_value c3 in
              let cp3 := (a - 224) * 4096 + (b - 128) * 64 + (c - 128) in
              if (224 <=? a) && (a <? 240) && continuation b && continuation c
                 && (2048 <=? cp3)
              then cp3 :: code_units r3 else
              match r3 with
              | c4 :: r4 =>
                  let d := byte_value c4 in
                  let cp4 := (a - 240) * 262144 + (b - 128) * 4096
                             + (c - 128) * 64 + (d - 128) in
                  if (240 <=? a) && (a <? 248) && continuation b && continuation c
                     && continuation d && (65536 <=? cp4) && (cp4 <? 1114112)
                  then (55296 + (cp4 - 65536) / 1024)
                       :: (56320 + (cp4 - 65536) mod 1024) :: code_units r4
                  else 65533 :: code_units r1
              | [] => 65533 :: code_units r1
              end
          | [] => 65533 :: code_units r1
          end
      | [] => 65533 :: code_units r1
      end
  end.

Fixpoint units_ltb (a b : list Z) : bool :=
  match a, b with
  | _, [] => false
  | [], _ :: _ => true
  | x :: a', y :: b' => (x <? y) || ((x =? y) && units_ltb a' b')
  end.

(** [a < b] on two strings: the order of their code units. *)
Definition js_string_lt (a b : string) : bool :=
  units_ltb (code_units (list_ascii_of_string a)) (code_units (list_ascii_of_string b)).

Definition hex_digit (n : nat) : ascii :=
  if (n <? 10)%nat then ascii_of_nat (48 + n) else ascii_of_nat (55 + n).

Definition uri_unreserved (c : ascii) : bool :=
  let n := nat_of_ascii c in
  ((48 <=? n) && (n <=? 57) || (65 <=? n) && (n <=? 90) || (97 <=? n) && (n <=? 122))%nat
  || existsb (Ascii.eqb c) (list_ascii_of_string "-_.!~*'()").

(** [encodeURIComponent(s)] on the UTF-8 bytes of [s]. *)
Fixpoint encodeURIComponent (s : string) : string :=
  match s with
  | String c s' =>
      if uri_unreserved c then String c (encodeURIComponent s')
      else
        let n := nat_of_ascii c in
        String "%" (String (hex_digit (n / 16)) (String (hex_digit (n mod 16))
          (encodeURIComponent s')))
  | EmptyString => EmptyString
  end.

(** ** Dates *)

(** A [Date] holds a time value in milliseconds since the epoch, or is an
    Invalid Date ([None]). *)
Definition msPerDay : Z := 86400000.

Definition TimeClip (t : Z) : option Z :=
  if Z.abs t <=? 8640000000000000 then Some t else None.

(** What the host environment decides: how [Date] parses a string, which
    number a string converts to, and where the local month and year of an
    instant begin (both depend on the time zone). *)
Record Host := {
  Date_parse : string -> option Z;
  StringToNumber : string -> value;
  localMonthStart : Z -> Z;
  localYearStart : Z -> Z
}.

(** [new Date(v)] *)
Definition new_Date (h : Host) (v : value) : option Z :=
  match v with
  | VStr s => Date_parse h s
  | VArr _ | VObj _ => Date_parse h (ToString v)
  | VNum n => TimeClip n
  | VNull | VBool false => Some 0
  | VBool true => Some 1
  | VUndef | VNaN => None
  end.

(** Year, month and day of the proleptic Gregorian calendar for a day number
    counted from 1970-01-01. *)
Definition civil_from_days (days : Z) : Z * Z * Z :=
  let z := days + 719468 in
  let era := z / 146097 in
  let doe := z - era * 146097 in
  let yoe := (doe - doe / 1460 + doe / 36524 - doe / 146096) / 365 in
  let doy := doe - (365 * yoe + yoe / 4 - yoe / 100) in
  let mp := (5 * doy + 2) / 153 in
  let d := doy - (153 * mp + 2) / 5 + 1 in
  let m := if mp <? 10 then mp + 3 else mp - 9 in
  let y := yoe + era * 400 + (if m <=? 2 then 1 else 0) in
  (y, m, d).

Definition YearFromTime (t : Z) : Z := fst (fst (civil_from_days (t / msPerDay))).

Definition digit_char (n : Z) : ascii := ascii_of_nat (48 + Z.to_nat (n mod 10)).

(** The [k] low decimal digits of [n], most significant first. *)
Fixpoint digits (k : nat) (n : Z) : string :=
  match k with
  | O => EmptyString
  | S k' => digits k' (n / 10) +:+ String (digit_char n) EmptyString
  end.

Definition year_string (y : Z) : string :=
  if (0 <=? y) && (y <=? 9999) then digits 4 y
  else (if y <? 0 then "-" else "+") +:+ digits 6 (Z.abs y).

(** [d.toISOString()] for a valid time value [t]. *)
Definition iso_string (t : Z) : string :=
  let '(y, m, d) := civil_from_days (t / msPerDay) in
  let ms := t mod msPerDay in
  year_string y +:+ "-" +:+ digits 2 m +:+ "-" +:+ digits 2 d +:+ "T"
  +:+ digits 2 (ms / 3600000) +:+ ":" +:+ digits 2 (ms / 60000 mod 60) +:+ ":"
  +:+ digits 2 (ms / 1000 mod 60) +:+ "." +:+ digits 3 (ms mod 1000) +:+ "Z".

(** [d.toISOString()]: a [RangeError] on an Invalid Date. *)
Definition toISOString (d : option Z) : result string :=
  match d with
  | Some t => Ok (iso_string t)
  | None => Throw RangeError
  end.

(** [a >= b] on two values: two strings are compared code unit by code
    unit, anything else as numbers, and a comparison involving [NaN] is
    false. *)
Definition js_ge (h : Host) (a b : value) : bool :=
  let pa := match a with VArr _ | VObj _ => VStr (ToString a) | _ => a end in
  let pb := match b with VArr _ | VObj _ => VStr (ToString b) | _ => b end in
  match pa, pb with
  | VStr x, VStr y => negb (js_string_lt x y)
  | x, y =>
      let num v := match v with VStr s => StringToNumber h s | _ => ToNumber_prim v end in
      match num x, num y with
      | VNum m, VNum n => n <=? m
      | _, _ => false
      end
  end.

Definition js_le (h : Host) (a b : value) : bool := js_ge h b a.

(** ** The backend seen from the client *)

(** A query assembled with the Supabase query builder: the table, the verb
    and the chained modifiers in call order. *)
Inductive verb :=
| Select
| Insert (payload : obj)
| Update (payload : obj)
| Delete.

Inductive modifier :=
| EqTo (column : string) (v : value)
| Gte (column : string) (v : value)
| Lte (column : string) (v : value)
| Contains (column : string) (vs : list value)
| Order (column : string) (ascending : bool)
| Limit (n : value)
| Returning          (* [.select()] after a write *)
| Single.

Record query := {
  q_table : string;
  q_verb : verb;
  q_mods : list modifier
}.

(** What awaiting a query resolves to: [{ data, error }]. *)
Record response := {
  r_data : value;
  r_error : option value
}.

(** The constructed client: the user its auth endpoint reports and the
    backend's answer to each query. *)
Record Client := {
  auth_getUser : option obj;
  auth_signInWithOAuth : option string;   (* the error message, if it fails *)
  rest : query -> response
}.

Inductive request :=
| AuthGetUser
| AuthSignInWithOAuth
| AuthSignOut
| FirebaseSignInWithPopup
| FirebaseSignOut
| Rest (q : query)
| Fetch (url : string).

(** A request that writes to the backend. *)
Definition is_mutation (r : request) : bool :=
  match r with
  | Rest q => match q_verb q with Select => false | _ => true end
  | AuthSignInWithOAuth | AuthSignOut | FirebaseSignInWithPopup | FirebaseSignOut => true
  | AuthGetUser | Fetch _ => false
  end.

(** ** The page *)

(** [AppState] of app.js. *)
Record AppState := {
  user : value;
  volunteers : list value;
  opportunities : list value;
  schedule : list value;
  hours : list value;
  currentPage : string
}.

Inductive custom_event :=
| userSignedIn (detail : value)
| userSignedOut.

(** The parts of the document the auth bridge touches.  [demoLoginModal]
    holds the current values of the [demoName] and [demoEmail] inputs while
    the modal is in the document. *)
Record Dom := {
  demoLoginModal : option (string * string);
  focused : option string;
  authErrorAlert : option string;
  authSuccessAlerts : list string;
  signedInView : bool;
  dispatched : list custom_event
}.

(** Everything the scripts read or write.  [localStorage] maps each key to
    the value its stored JSON text parses to; [JSON.stringify] followed by
    [JSON.parse] is [json_roundtrip].  [staticSnapshot] is what fetching and
    decoding the bundled opportunities file yields ([None] when either step
    throws). *)
Record World := {
  dbInitialized : bool;
  supabaseClient : option Client;
  firebaseAuth : bool;
  localStorage : gmap string value;
  staticSnapshot : option value;
  network : list request;
  appState : AppState;
  appExported : bool;        (* window.VolunteerConnect is set *)
  dom : Dom
}.

Definition set_localStorage (f : gmap string value -> gmap string value) (w : World) : World :=
  {| dbInitialized := dbInitialized w; supabaseClient := supabaseClient w;
     firebaseAuth := firebaseAuth w; localStorage := f (localStorage w);
     staticSnapshot := staticSnapshot w; network := network w; appState := appState w;
     appExported := appExported w; dom := dom w |}.

Definition send (r : request) (w : World) : World :=
  {| dbInitialized := dbInitialized w; supabaseClient := supabaseClient w;
     firebaseAuth := firebaseAuth w; localStorage := localStorage w;
     staticSnapshot := staticSnapshot w; network := network w ++ [r]; appState := appState w;
     appExported := appExported w; dom := dom w |}.

Definition set_app (f : AppState -> AppState) (w : World) : World :=
  {| dbInitialized := dbInitialized w; supabaseClient := supabaseClient w;
     firebaseAuth := firebaseAuth w; localStorage := localStorage w;
     staticSnapshot := staticSnapshot w; network := network w; appState := f (appState w);
     appExported := appExported w; dom := dom w |}.

Definition set_dom (f : Dom -> Dom) (w : World) : World :=
  {| dbInitialized := dbInitialized w; supabaseClient := supabaseClient w;
     firebaseAuth := firebaseAuth w; localStorage := localStorage w;
     staticSnapshot := staticSnapshot w; network := network w; appState := appState w;
     appExported := appExported w; dom := f (dom w) |}.

Definition set_user (u : value) (a : AppState) : AppState :=
  {| user := u; volunteers := volunteers a; opportunities := opportunities a;
     schedule := schedule a; hours := hours a; currentPage := currentPage a |}.

Definition set_schedule (f : list value -> list value) (a : AppState) : AppState :=
  {| user := user a; volunteers := volunteers a; opportunities := opportunities a;
     schedule := f (schedule a); hours := hours a; currentPage := currentPage a |}.

Definition set_hours (f : list value -> list value) (a : AppState) : AppState :=
  {| user := user a; volunteers := volunteers a; opportunities := opportunities a;
     schedule := schedule a; hours := f (hours a); currentPage := currentPage a |}.

(** [localStorage.setItem(k, JSON.stringify(v))] *)
Definition setItem (k : string) (v : value) : World -> World :=
  set_localStorage (insert k (json_roundtrip v)).

(** [localStorage.removeItem(k)] *)
Definition removeItem (k : string) : World -> World :=
  set_localStorage (delete k).

(** Operations thread the world and may throw; what was done before a throw
    stays done. *)
Definition M (A : Type) : Type := World -> result A * World.

Definition ret {A} (a : A) : M A := fun w => (Ok a, w).
Definition throw {A} (e : js_error) : M A := fun w => (Throw e, w).
Definition bind {A B} (m : M A) (f : A -> M B) : M B := fun w =>
  match m w with
  | (Ok a, w') => f a w'
  | (Throw e, w') => (Throw e, w')
  end.
Definition act (f : World -> World) : M unit := fun w => (Ok tt, f w).
Definition lift {A} (r : result A) : M A := fun w => (r, w).

Notation "x <- m ;; k" := (bind m (fun x => k))
  (at level 100, m at next level, right associativity).
Notation "m ;;; k" := (bind m (fun _ => k))
  (at level 100, right associativity).

(** ** auth.js *)

(** A property read on a receiver already known to be truthy (so neither
    [null] nor [undefined]): it cannot throw. *)
Definition field (v : value) (k : string) : value :=
  match v with VObj m => get m k | _ => VUndef end.

Definition set_dispatched (e : custom_event) (d : Dom) : Dom :=
  {| demoLoginModal := demoLoginModal d; focused := focused d;
     authErrorAlert := authErrorAlert d; authSuccessAlerts := authSuccessAlerts d;
     signedInView := signedInView d; dispatched := dispatched d ++ [e] |}.

Definition set_signedInView (b : bool) (d : Dom) : Dom :=
  {| demoLoginModal := demoLoginModal d; focused := focused d;
     authErrorAlert := authErrorAlert d; authSuccessAlerts := authSuccessAlerts d;
     signedInView := b; dispatched := dispatched d |}.

Definition set_demoLoginModal (m : option (string * string)) (d : Dom) : Dom :=
  {| demoLoginModal := m; focused := focused d;
     authErrorAlert := authErrorAlert d; authSuccessAlerts := authSuccessAlerts d;
     signedInView := signedInView d; dispatched := dispatched d |}.

Definition set_focused (f : option string) (d : Dom) : Dom :=
  {| demoLoginModal := demoLoginModal d; focused := f;
     authErrorAlert := authErrorAlert d; authSuccessAlerts := authSuccessAlerts d;
     signedInView := signedInView d; dispatched := dispatched d |}.

(** [handleAuthStateChange(user)]: toggle the signed-in view, mirror the user
    into [AppState] when app.js has exported it, and dispatch one of the two
    events. *)
Definition handleAuthStateChange (u : value) (w : World) : World :=
  if truthy u then
    let w1 := set_dom (set_signedInView true) w in
    let w2 :=
      if appExported w1 then
        set_app (set_user (VObj (<["photoURL" := field u "photoURL"]>
                                  (<["email" := field u "email"]>
                                  (<["name" := field u "displayName"]>
                                  (<["uid" := field u "uid"]> ∅)))))) w1
      else w1 in
    set_dom (set_dispatched (userSignedIn u)) w2
  else
    let w1 := set_dom (set_signedInView false) w in
    let w2 := if appExported w1 then set_app (set_user VNull) w1 else w1 in
    set_dom (set_dispatched userSignedOut) w2.

(** [initializeDemoMode()] *)
Definition initializeDemoMode (w : World) : World :=
  match localStorage w !! "volunteerConnectUser" with
  | Some u => handleAuthStateChange u w
  | None => handleAuthStateChange VNull w
  end.

(** [signOut()] of auth.js *)
Definition signOut (w : World) : World :=
  if firebaseAuth w then send FirebaseSignOut w
  else handleAuthStateChange VNull (removeItem "volunteerConnectUser" w).

Definition closeDemoLogin (w : World) : World :=
  set_dom (set_demoLoginModal None) w.

(** [showDemoLogin()]: a fresh modal with both inputs empty. *)
Definition showDemoLogin (w : World) : World :=
  set_dom (set_demoLoginModal (Some (EmptyString, EmptyString))) (closeDemoLogin w).

(** [signInWithGoogle()] of auth.js: the Firebase popup when Firebase is
    configured (its outcome arrives through the auth listener), the demo
    modal otherwise. *)
Definition signInWithGoogle (w : World) : World :=
  if firebaseAuth w then send FirebaseSignInWithPopup w else showDemoLogin w.

(** The visitor typing into the two inputs of the open modal. *)
Definition typeDemoInputs (name email : string) (w : World) : World :=
  match demoLoginModal (dom w) with
  | Some _ => set_dom (set_demoLoginModal (Some (name, email))) w
  | None => w
  end.

Definition showAuthError (message : string) (w : World) : World :=
  set_dom (fun d =>
    {| demoLoginModal := demoLoginModal d; focused := focused d;
       authErrorAlert := Some message; authSuccessAlerts := authSuccessAlerts d;
       signedInView := signedInView d; dispatched := dispatched d |}) w.

Definition showAuthSuccess (message : string) (w : World) : World :=
  set_dom (fun d =>
    {| demoLoginModal := demoLoginModal d; focused := focused d;
       authErrorAlert := authErrorAlert d;
       authSuccessAlerts := authSuccessAlerts d ++ [message];
       signedInView := signedInView d; dispatched := dispatched d |}) w.

(** [el?.focus()] on an input of the modal: nothing when the element is
    missing. *)
Definition focus_input (id : string) (w : World) : World :=
  match demoLoginModal (dom w) with
  | Some _ => set_dom (set_focused (Some id)) w
  | None => w
  end.

(** [!s] for [s] a string or [undefined] *)
Definition blank (s : option string) : bool :=
  match s with
  | Some x => String.eqb x ""
  | None => true
  end.

(** The [demoUser] object literal of [completeDemoLogin]. *)
Definition demoUser (name email : string) (now : Z) : obj :=
  <["photoURL" := VStr ("https://ui-avatars.com/api/?name=" +:+ encodeURIComponent name
                        +:+ "&background=4F46E5&color=fff")]>
  (<["email" := VStr email]>
  (<["displayName" := VStr name]>
  (<["uid" := VStr ("demo-" +:+ pretty now)]> ∅))).

(** [completeDemoLogin()]; [now] is the reading of [Date.now()]. *)
Definition completeDemoLogin (now : Z) (w : World) : World :=
  let name := trim <$> (fst <$> demoLoginModal (dom w)) in
  let email := trim <$> (snd <$> demoLoginModal (dom w)) in
  if blank name then
    showAuthError "Please enter your name" (focus_input "demoName" w)
  else if blank email then
    showAuthError "Please enter your email" (focus_input "demoEmail" w)
  else if negb (includes_char "@" (default EmptyString email)) then
    showAuthError "Please enter a valid email" (focus_input "demoEmail" w)
  else
    let u := demoUser (default EmptyString name) (default EmptyString email) now in
    showAuthSuccess ("Welcome, " +:+ default EmptyString name +:+ "!")
      (closeDemoLogin
        (handleAuthStateChange (VObj u)
          (setItem "volunteerConnectUser" (VObj u) w))).

(** ** database.js *)

(** [isDatabaseAvailable()] *)
Definition isDatabaseAvailable (w : World) : bool :=
  dbInitialized w && bool_decide (supabaseClient w ≠ None).

(** The client the remote branches talk to, when the database is available. *)
Definition remote (w : World) : option Client :=
  if isDatabaseAvailable w then supabaseClient w else None.

(** Awaiting a query: the request goes out and the backend's answer comes
    back. *)
Definition run_query (c : Client) (q : query) : M response :=
  fun w => (Ok (rest c q), send (Rest q) w).

(** [array.filter(p)] for a callback that may throw. *)
Fixpoint filter_rows (p : value -> result bool) (l : list value) : result (list value) :=
  match l with
  | [] => Ok []
  | x :: l' =>
      b ← p x;
      r ← filter_rows p l';
      Ok (if b : bool then x :: r else r)
  end.

(** The receiver of [.filter] and [.push] must be an array. *)
Definition as_array (v : value) : result (list value) :=
  match v with
  | VArr l => Ok l
  | _ => Throw TypeError
  end.

(** [{ ...v }]: the own enumerable properties of [v]. *)
Definition spread (v : value) : obj :=
  match v with
  | VObj m => m
  | VArr l => list_to_map (imap (fun i x => (pretty (Z.of_nat i), x)) l)
  | VStr s =>
      list_to_map (imap (fun i c => (pretty (Z.of_nat i), VStr (String c EmptyString)))
                        (list_ascii_of_string s))
  | _ => ∅
  end.

(** [JSON.parse(localStorage.getItem(k) || fallback)] *)
Definition stored (k : string) (fallback : value) (w : World) : value :=
  default fallback (localStorage w !! k).

Definition dbSignInWithGoogle : M unit := fun w =>
  match remote w with
  | None => (Ok tt, showDemoLogin w)
  | Some c =>
      (Ok tt,
       match auth_signInWithOAuth c with
       | Some message => showAuthError message (send AuthSignInWithOAuth w)
       | None => send AuthSignInWithOAuth w
       end)
  end.

Definition dbSignOut : M unit := fun w =>
  match remote w with
  | None =>
      (Ok tt, handleAuthStateChange VNull
                (removeItem "volunteerProfile" (removeItem "volunteerConnectUser" w)))
  | Some c => (Ok tt, send AuthSignOut w)
  end.

Definition dbGetCurrentUser : M value := fun w =>
  match remote w with
  | None => (Ok (stored "volunteerConnectUser" VNull w), w)
  | Some c =>
      (Ok (match auth_getUser c with Some u => VObj u | None => VNull end),
       send AuthGetUser w)
  end.

Definition dbGetProfile : M value := fun w =>
  match remote w with
  | None => (Ok (stored "volunteerProfile" VNull w), w)
  | Some c =>
      (u <- dbGetCurrentUser ;;
       if negb (truthy u) then ret VNull else
       uid <- lift (prop u "id") ;;
       r <- run_query c {| q_table := "profiles"; q_verb := Select;
                           q_mods := [EqTo "id" uid; Single] |} ;;
       match r_error r with
       | Some _ => ret VNull
       | None => ret (r_data r)
       end) w
  end.

(** [dbUpdateProfile(profileData)]; [now] is the reading of the clock. *)
Definition dbUpdateProfile (profileData : obj) (now : Z) : M value := fun w =>
  match remote w with
  | None =>
      let existing := stored "volunteerProfile" (VObj ∅) w in
      let updated : obj :=
        <["updated_at" := VStr (iso_string now)]> (profileData ∪ spread existing) in
      (Ok (VObj updated), setItem "volunteerProfile" (VObj updated) w)
  | Some c =>
      (u <- dbGetCurrentUser ;;
       if negb (truthy u) then throw NotAuthenticated else
       uid <- lift (prop u "id") ;;
       r <- run_query c
              {| q_table := "profiles";
                 q_verb := Update (<["updated_at" := VStr (iso_string now)]> profileData);
                 q_mods := [EqTo "id" uid; Returning; Single] |} ;;
       match r_error r with
       | Some e => throw (BackendError e)
       | None => ret (r_data r)
       end) w
  end.

Definition dbIsProfileComplete : M bool :=
  p <- dbGetProfile ;;
  ret (match p with
       | VObj m => strict_eq (get m "profile_complete") (VBool true)
       | _ => false
       end).

(** The local branch of [dbGetHoursLog]: the stored log, narrowed by each
    date bound that is set. *)
Definition filterHoursLog (h : Host) (filters : obj) (hours : value) : result value :=
  f1 ← (if truthy (get filters "startDate") then
          l ← as_array hours;
          VArr <$> filter_rows (fun r => d ← prop r "date";
                                         Ok (js_ge h d (get filters "startDate"))) l
        else Ok hours);
  if truthy (get filters "endDate") then
    l ← as_array f1;
    VArr <$> filter_rows (fun r => d ← prop r "date";
                                   Ok (js_le h d (get filters "endDate"))) l
  else Ok f1.

Definition dbGetHoursLog (h : Host) (filters : obj) : M value := fun w =>
  match remote w with
  | None => (filterHoursLog h filters (stored "volunteerHoursLog" (VArr []) w), w)
  | Some c =>
      (u <- dbGetCurrentUser ;;
       if negb (truthy u) then ret (VArr []) else
       uid <- lift (prop u "id") ;;
       r <- run_query c
              {| q_table := "hours_log"; q_verb := Select;
                 q_mods := [EqTo "user_id" uid; Order "date" false]
                   ++ (if truthy (get filters "startDate")
                       then [Gte "date" (get filters "startDate")] else [])
                   ++ (if truthy (get filters "endDate")
                       then [Lte "date" (get filters "endDate")] else []) |} ;;
       match r_error r with
       | Some e => throw (BackendError e)
       | None => ret (js_or (r_data r) (VArr []))
       end) w
  end.

(** The local branch shared by the three inserts: stamp the row with an id
    and a creation time, append it to the stored sequence and write the whole
    sequence back. *)
Definition stamp_row (row : obj) (t_id t_created : Z) : obj :=
  <["created_at" := VStr (iso_string t_created)]> (<["id" := VStr (pretty t_id)]> row).

Definition local_insert (key : string) (row : obj) (t_id t_created : Z) : M value := fun w =>
  let newRow := stamp_row row t_id t_created in
  match as_array (stored key (VArr []) w) with
  | Ok l => (Ok (VObj newRow), setItem key (VArr (l ++ [VObj newRow])) w)
  | Throw e => (Throw e, w)
  end.

(** The remote branch shared by the three inserts. *)
Definition remote_insert (c : Client) (tbl : string) (row : obj) : M value :=
  u <- dbGetCurrentUser ;;
  if negb (truthy u) then throw NotAuthenticated else
  uid <- lift (prop u "id") ;;
  r <- run_query c {| q_table := tbl; q_verb := Insert (<["user_id" := uid]> row);
                      q_mods := [Returning; Single] |} ;;
  match r_error r with
  | Some e => throw (BackendError e)
  | None => ret (r_data r)
  end.

(** The local branch shared by the two deletes. *)
Definition local_delete (key : string) (id : value) : M unit := fun w =>
  match
    l ← as_array (stored key (VArr []) w);
    filter_rows (fun r => i ← prop r "id"; Ok (negb (strict_eq i id))) l
  with
  | Ok l' => (Ok tt, setItem key (VArr l') w)
  | Throw e => (Throw e, w)
  end.

(** The remote branch shared by the two deletes. *)
Definition remote_delete (c : Client) (tbl : string) (id : value) : M unit :=
  u <- dbGetCurrentUser ;;
  if negb (truthy u) then throw NotAuthenticated else
  uid <- lift (prop u "id") ;;
  r <- run_query c {| q_table := tbl; q_verb := Delete;
                      q_mods := [EqTo "id" id; EqTo "user_id" uid] |} ;;
  match r_error r with
  | Some e => throw (BackendError e)
  | None => ret tt
  end.

(** [dbAddHoursEntry(entry)]; [t_id] and [t_created] are the readings of
    [Date.now()] and of [new Date()]. *)
Definition dbAddHoursEntry (entry : obj) (t_id t_created : Z) : M value := fun w =>
  match remote w with
  | None => local_insert "volunteerHoursLog" entry t_id t_created w
  | Some c => remote_insert c "hours_log" entry w
  end.

Definition dbDeleteHoursEntry (id : value) : M unit := fun w =>
  match remote w with
  | None => local_delete "volunteerHoursLog" id w
  | Some c => remote_delete c "hours_log" id w
  end.

(** [dbGetEvents(filters)]; [now] is the reading of the clock. *)
Definition dbGetEvents (h : Host) (filters : obj) (now : Z) : M value := fun w =>
  let today := VStr (before_char "T" (iso_string now)) in
  match remote w with
  | None =>
      let events := stored "volunteerEvents" (VArr []) w in
      (if truthy (get filters "upcoming") then
         l ← as_array events;
         VArr <$> filter_rows (fun e => d ← prop e "date"; Ok (js_ge h d today)) l
       else Ok events, w)
  | Some c =>
      (u <- dbGetCurrentUser ;;
       if negb (truthy u) then ret (VArr []) else
       uid <- lift (prop u "id") ;;
       r <- run_query c
              {| q_table := "events"; q_verb := Select;
                 q_mods := [EqTo "user_id" uid; Order "date" true]
                   ++ (if truthy (get filters "upcoming") then [Gte "date" today] else []) |} ;;
       match r_error r with
       | Some e => throw (BackendError e)
       | None => ret (js_or (r_data r) (VArr []))
       end) w
  end.

Definition dbAddEvent (event : obj) (t_id t_created : Z) : M value := fun w =>
  match remote w with
  | None => local_insert "volunteerEvents" event t_id t_created w
  | Some c => remote_insert c "events" event w
  end.

Definition dbDeleteEvent (id : value) : M unit := fun w =>
  match remote w with
  | None => local_delete "volunteerEvents" id w
  | Some c => remote_delete c "events" id w
  end.

Definition dbGetLetters (filters : obj) : M value := fun w =>
  match remote w with
  | None => (Ok (stored "volunteerLetters" (VArr []) w), w)
  | Some c =>
      (u <- dbGetCurrentUser ;;
       if negb (truthy u) then ret (VArr []) else
       uid <- lift (prop u "id") ;;
       r <- run_query c
              {| q_table := "letters"; q_verb := Select;
                 q_mods := [EqTo "user_id" uid; Order "created_at" false]
                   ++ (if truthy (get filters "type")
                       then [EqTo "letter_type" (get filters "type")] else []) |} ;;
       match r_error r with
       | Some e => throw (BackendError e)
       | None => ret (js_or (r_data r) (VArr []))
       end) w
  end.

Definition dbSaveLetter (letter : obj) (t_id t_created : Z) : M value := fun w =>
  match remote w with
  | None => local_insert "volunteerLetters" letter t_id t_created w
  | Some c => remote_insert c "letters" letter w
  end.

(** The query [dbGetOpportunities] assembles. *)
Definition opportunities_query (filters : obj) : query :=
  {| q_table := "opportunities"; q_verb := Select;
     q_mods := [EqTo "is_active" (VBool true); Order "updated_at" false]
       ++ (if truthy (get filters "causeArea")
           then [Contains "cause_areas" [get filters "causeArea"]] else [])
       ++ (if negb (strict_eq (get filters "isVirtual") VUndef)
           then [EqTo "is_virtual" (get filters "isVirtual")] else [])
       ++ (if truthy (get filters "limit") then [Limit (get filters "limit")] else []) |}.

(** What the fallback of [dbGetOpportunities] reads out of the bundled file:
    [data.opportunities || []], or the empty sequence when fetching, decoding
    or reading it throws. *)
Definition snapshot_opportunities (snapshot : option value) : value :=
  match snapshot with
  | Some d =>
      match prop d "opportunities" with
      | Ok v => js_or v (VArr [])
      | Throw _ => VArr []
      end
  | None => VArr []
  end.

Definition opportunities_url : string := "/volunteer-connect-hub/data/opportunities.json".

Definition static_opportunities : M value := fun w =>
  (Ok (snapshot_opportunities (staticSnapshot w)), send (Fetch opportunities_url) w).

Definition dbGetOpportunities (filters : obj) : M value := fun w =>
  match remote w with
  | Some c =>
      (r <- run_query c (opportunities_query filters) ;;
       if bool_decide (r_error r = None) && truthy (r_data r) then ret (r_data r)
       else static_opportunities) w
  | None => static_opportunities w
  end.

(** ** app.js *)

Definition nl : string := String (ascii_of_nat 10) EmptyString.

Definition AppState_value (a : AppState) : value :=
  VObj (<["currentPage" := VStr (currentPage a)]>
       (<["hours" := VArr (hours a)]>
       (<["schedule" := VArr (schedule a)]>
       (<["opportunities" := VArr (opportunities a)]>
       (<["volunteers" := VArr (volunteers a)]>
       (<["user" := user a]> ∅)))))).

(** [saveAppState()] *)
Definition saveAppState (w : World) : World :=
  setItem "volunteerConnectState" (AppState_value (appState w)) w.

(** [formatDateForICS(date)] *)
Definition formatDateForICS (h : Host) (date : value) : result string :=
  s ← toISOString (new_Date h date);
  Ok (before_char "." (strip_dash_colon s) +:+ "Z").

(** The [scheduleItem] object literal of [ScheduleManager.addEvent]. *)
Definition new_scheduleItem (event : obj) (gid : string) (now : Z) : obj :=
  <["reminders" := VArr []]> (<["created" := VStr (iso_string now)]>
    (event ∪ {["id" := VStr gid]})).

(** The lines one scheduled item adds to the calendar text. *)
Definition vevent (h : Host) (event : value) : result string :=
  id ← prop event "id";
  date ← prop event "date";
  start ← formatDateForICS h date;
  title ← prop event "title";
  description ← prop event "description";
  location ← prop event "location";
  Ok ("BEGIN:VEVENT" +:+ nl
      +:+ "UID:" +:+ ToString id +:+ "@volunteerconnect" +:+ nl
      +:+ "DTSTART:" +:+ start +:+ nl
      +:+ "SUMMARY:" +:+ ToString title +:+ nl
      +:+ "DESCRIPTION:" +:+ ToString (js_or description (VStr "")) +:+ nl
      +:+ "LOCATION:" +:+ ToString (js_or location (VStr "")) +:+ nl
      +:+ "END:VEVENT" +:+ nl).

(** The [forEach] of [exportToICS]: each item appends its lines to [ics]. *)
Fixpoint append_events (h : Host) (ics : string) (events : list value) : result string :=
  match events with
  | [] => Ok ics
  | e :: es => b ← vevent h e; append_events h (ics +:+ b) es
  end.

Definition ics_header : string :=
  "BEGIN:VCALENDAR" +:+ nl +:+ "VERSION:2.0" +:+ nl +:+ "PRODID:-//VolunteerConnect//EN" +:+ nl.

Module ScheduleManager.

(** [ScheduleManager.addEvent(event)]; [gid] is what [generateId()] returns
    and [now] the reading of the clock.  The reminder is pushed onto the very
    object that sits in the schedule, so the stored item changes with it. *)
Definition addEvent (h : Host) (event : obj) (gid : string) (now : Z)
  : M value := fun w =>
  let scheduleItem := new_scheduleItem event gid now in
  let w1 := saveAppState (set_app (set_schedule (fun l => l ++ [VObj scheduleItem])) w) in
  if truthy (get event "sendReminders") then
    match toISOString (t ← new_Date h (get scheduleItem "date"); TimeClip (t - 24 * 60 * 60 * 1000)) with
    | Ok at_ =>
        let reminder : obj :=
          <["sent" := VBool false]> (<["scheduledFor" := VStr at_]>
            (<["type" := VStr "email"]> ∅)) in
        let item' : obj := <["reminders" := VArr [VObj reminder]]> scheduleItem in
        (Ok (VObj item'),
         saveAppState (set_app (set_schedule (fun l => removelast l ++ [VObj item'])) w1))
    | Throw e => (Throw e, w1)
    end
  else (Ok (VObj scheduleItem), w1).

(** [ScheduleManager.exportToICS()]: the text handed to the download. *)
Definition exportToICS (h : Host) (w : World) : result string :=
  ics ← append_events h ics_header (schedule (appState w));
  Ok (ics +:+ "END:VCALENDAR").

End ScheduleManager.

(** The [reduce] of [getTotalHours]. *)
Fixpoint sum_hours (total : value) (entries : list value) : result value :=
  match entries with
  | [] => Ok total
  | e :: es => hv ← prop e "hours"; sum_hours (js_add total (js_or hv (VNum 0))) es
  end.

Module HoursTracker.

(** [HoursTracker.logHours(entry)] *)
Definition logHours (entry : obj) (gid : string) (now : Z) : M value := fun w =>
  let hoursEntry : obj :=
    <["verified" := VBool false]> (<["logged" := VStr (iso_string now)]>
      (entry ∪ {["id" := VStr gid]})) in
  (Ok (VObj hoursEntry),
   saveAppState (set_app (set_hours (fun l => l ++ [VObj hoursEntry])) w)).

(** [HoursTracker.getTotalHours(period)]; [now] is the reading of the clock. *)
Definition getTotalHours (h : Host) (period : string) (now : Z) (w : World)
  : result value :=
  hrs ← (if negb (String.eqb period "all") then
           let startDate :=
             if String.eqb period "week" then TimeClip (now - 7 * 24 * 60 * 60 * 1000)
             else if String.eqb period "month" then Some (localMonthStart h now)
             else if String.eqb period "year" then Some (localYearStart h now)
             else None in
           filter_rows (fun r =>
                          d ← prop r "date";
                          Ok (match new_Date h d, startDate with
                              | Some a, Some b => b <=? a
                              | _, _ => false
                              end))
                       (hours (appState w))
         else Ok (hours (appState w)));
  sum_hours (VNum 0) hrs.

End HoursTracker.

(** [ctx.k || 'fallback'] as it is spliced into a template. *)
Definition slot (ctx : obj) (k fallback : string) : string :=
  ToString (js_or (get ctx k) (VStr fallback)).

(** [ctx.k ? `prefix${ctx.k}` : ''] *)
Definition optional_line (ctx : obj) (k prefix : string) : string :=
  if truthy (get ctx k) then prefix +:+ ToString (get ctx k) else EmptyString.

(** What reading a property of the [templates] object literal yields: one of
    its own template texts, or a member it inherits from [Object.prototype]
    (a function, or the prototype itself for [__proto__]). *)
Inductive member :=
| Text (s : string)
| Inherited (name : string).

Definition Object_prototype_members : list string :=
  [ "constructor"; "hasOwnProperty"; "isPrototypeOf"; "propertyIsEnumerable";
    "toLocaleString"; "toString"; "valueOf"; "__proto__";
    "__defineGetter__"; "__defineSetter__"; "__lookupGetter__"; "__lookupSetter__" ].

Module AIAssistant.

Definition getApplicationTemplate (ctx : obj) : string :=
  String.concat nl [
    "Dear " +:+ slot ctx "recipientName" "Hiring Manager" +:+ ",";
    "";
    "I am writing to express my interest in volunteering with "
      +:+ slot ctx "organization" "your organization" +:+ ". "
      +:+ slot ctx "reason" "I am passionate about making a positive impact in my community.";
    "";
    optional_line ctx "experience" "I have experience in: ";
    "";
    "I am available " +:+ slot ctx "availability" "on weekends and evenings"
      +:+ " and am committed to contributing " +:+ slot ctx "hours" "several hours"
      +:+ " per week.";
    "";
    optional_line ctx "skills" "My relevant skills include: ";
    "";
    "Thank you for considering my application. I look forward to the opportunity to contribute to your mission.";
    "";
    "Sincerely,";
    slot ctx "senderName" "[Your Name]" ].

Definition getThankYouTemplate (ctx : obj) : string :=
  String.concat nl [
    "Dear " +:+ slot ctx "recipientName" "Team" +:+ ",";
    "";
    "I wanted to express my heartfelt gratitude for the opportunity to volunteer with "
      +:+ slot ctx "organization" "your organization" +:+ ".";
    "";
    slot ctx "experience" "The experience has been incredibly rewarding." +:+ " "
      +:+ slot ctx "impact" "";
    "";
    "Thank you for your guidance and support throughout my time volunteering.";
    "";
    "With appreciation,";
    slot ctx "senderName" "[Your Name]" ].

Definition getOutreachTemplate (ctx : obj) : string :=
  String.concat nl [
    "Subject: Partnership Opportunity - Volunteer Program";
    "";
    "Dear " +:+ slot ctx "recipientName" "Community Partner" +:+ ",";
    "";
    "I am reaching out on behalf of " +:+ slot ctx "organization" "our volunteer program"
      +:+ " to explore potential collaboration opportunities.";
    "";
    slot ctx "purpose" "We are looking to expand our volunteer initiatives and believe your organization would be an excellent partner.";
    "";
    slot ctx "benefits" "Together, we could make a significant impact in our community.";
    "";
    "Would you be available for a brief call to discuss this further?";
    "";
    "Best regards,";
    slot ctx "senderName" "[Your Name]" ].

Definition getFollowUpTemplate (ctx : obj) : string :=
  String.concat nl [
    "Dear " +:+ slot ctx "recipientName" "Volunteer Coordinator" +:+ ",";
    "";
    "I hope this message finds you well. I am following up on my "
      +:+ slot ctx "previousAction" "previous application/inquiry"
      +:+ " regarding volunteer opportunities with "
      +:+ slot ctx "organization" "your organization" +:+ ".";
    "";
    slot ctx "additionalInfo" "I remain very interested in contributing to your mission.";
    "";
    "Please let me know if there are any updates or if you need any additional information from me.";
    "";
    "Thank you for your time.";
    "";
    "Best regards,";
    slot ctx "senderName" "[Your Name]" ].

(** [AIAssistant.generateLetter(type, context)]: the value its promise
    resolves to.  The prompt built first is not used. *)
Definition generateLetter (type : string) (context : obj) : member :=
  let templates : gmap string string :=
    <["followup" := getFollowUpTemplate context]>
    (<["outreach" := getOutreachTemplate context]>
    (<["thankyou" := getThankYouTemplate context]>
    (<["application" := getApplicationTemplate context]> ∅))) in
  match templates !! type with
  | Some s => if String.eqb s "" then Text (getApplicationTemplate context) else Text s
  | None =>
      if bool_decide (type ∈ Object_prototype_members) then Inherited type
      else Text (getApplicationTemplate context)
  end.

End AIAssistant.

(** ** Browser sessions in local mode *)

(** What can happen, one after another, on a page: an hours entry is added,
    one of the sign-in entry points is used, the visitor fills in or submits
    or dismisses the demo modal, or one of the sign-out entry points is
    used. *)
Inductive session_step :=
| StepAddHours (entry : obj) (t_id t_created : Z)
| StepSignInWithGoogle
| StepDbSignInWithGoogle
| StepTypeDemoInputs (name email : string)
| StepCompleteDemoLogin (now : Z)
| StepCloseDemoLogin
| StepSignOut
| StepDbSignOut.

Definition run_step (s : session_step) (w : World) : World :=
  match s with
  | StepAddHours entry t_id t_created => snd (dbAddHoursEntry entry t_id t_created w)
  | StepSignInWithGoogle => signInWithGoogle w
  | StepDbSignInWithGoogle => snd (dbSignInWithGoogle w)
  | StepTypeDemoInputs name email => typeDemoInputs name email w
  | StepCompleteDemoLogin now => completeDemoLogin now w
  | StepCloseDemoLogin => closeDemoLogin w
  | StepSignOut => signOut w
  | StepDbSignOut => snd (dbSignOut w)
  end.

Definition run_session (steps : list session_step) (w : World) : World :=
  fold_left (fun w s => run_step s w) steps w.

(** The rows the inserts of a session store, in order: each entry stamped
    with its id and creation time, as it reads back from storage. *)
Fixpoint logged_rows (steps : list session_step) : list value :=
  match steps with
  | [] => []
  | StepAddHours entry t_id t_created :: rest =>
      json_roundtrip (VObj (stamp_row entry t_id t_created)) :: logged_rows rest
  | _ :: rest => logged_rows rest
  end.

(** The number of inserts in a session. *)
Fixpoint count_inserts (steps : list session_step) : nat :=
  match steps with
  | [] => O
  | StepAddHours _ _ _ :: rest => S (count_inserts rest)
  | _ :: rest => count_inserts rest
  end.

(** ** Predicates used in the statements *)

(** What each of the three inserts sends for a signed-in user: one lookup of
    the user, then one insert into the given table whose payload is the
    caller's row with [user_id] overwritten. *)
Definition sends_stamped_insert (tbl : string) (row u : obj) (w w' : World) : Prop :=
  exists payload,
    network w' = network w ++ [AuthGetUser;
      Rest {| q_table := tbl; q_verb := Insert payload; q_mods := [Returning; Single] |}]
    /\ payload !! "user_id" = Some (get u "id")
    /\ forall k, k <> "user_id" -> payload !! k = row !! k.

(** Between [w] and [w'] no request that writes to the backend went out. *)
Definition no_mutation_sent (w w' : World) : Prop :=
  exists rs, network w' = network w ++ rs /\ Forall (fun r => is_mutation r = false) rs.

(** Running [m] in [w] ends with [r], and the one request it sends is the
    lookup of the current user: no query on any table goes out, and nothing
    else on the page changes. *)
Definition yields_after_lookup_only {A} (m : M A) (w : World) (r : result A) : Prop :=
  fst (m w) = r
  /\ network (snd (m w)) = network w ++ [AuthGetUser]
  /\ snd (m w) = send AuthGetUser w
  /\ no_mutation_sent w (snd (m w)).

(** What falling back to the bundled file does on a page [w0] whose bundled
    file decodes to [snapshot] (or fails to): one fetch of the file's path
    goes out, and the result is the file's [opportunities] when the file is
    an object that has them, and the empty sequence in every other case. *)
Definition reads_bundled_file (snapshot : option value) (w0 : World)
    (out : result value * World) : Prop :=
  snd out = send (Fetch "/volunteer-connect-hub/data/opportunities.json") w0
  /\ (forall d, snapshot = Some (VObj d) -> truthy (get d "opportunities") = true ->
        fst out = Ok (get d "opportunities"))
  /\ (forall d, snapshot = Some (VObj d) -> truthy (get d "opportunities") = false ->
        fst out = Ok (VArr []))
  /\ (forall v, snapshot = Some v -> (forall d, v <> VObj d) -> fst out = Ok (VArr []))
  /\ (snapshot = None -> fst out = Ok (VArr [])).

(** The demo sign-in inputs the claim calls well formed: both fields
    non-empty and an [@] in the email.  A missing input counts as empty. *)
Definition demo_inputs_well_formed (m : option (string * string)) : bool :=
  match m with
  | Some (name, email) =>
      negb (String.eqb name "") && negb (String.eqb email "") && includes_char "@" email
  | None => false
  end.

(** The backend's answer to [q] respects the equality filters of [q]: every
    returned row holds the requested value in the filtered column. *)
Definition honours_eq_filters (c : Client) (q : query) : Prop :=
  forall rows row col v,
    r_data (rest c q) = VArr rows -> row ∈ rows -> EqTo col v ∈ q_mods q ->
    prop row col = Ok v.

(** The stamp [YYYYMMDDTHHMMSSZ] of a time value. *)
Definition ics_stamp (t : Z) : string :=
  let '(y, m, d) := civil_from_days (t / msPerDay) in
  let ms := t mod msPerDay in
  digits 4 y +:+ digits 2 m +:+ digits 2 d +:+ "T"
  +:+ digits 2 (ms / 3600000) +:+ digits 2 (ms / 60000 mod 60)
  +:+ digits 2 (ms / 1000 mod 60) +:+ "Z".

Definition is_digit (c : ascii) : bool :=
  (48 <=? nat_of_ascii c)%nat && (nat_of_ascii c <=? 57)%nat.

(** Eight digits, [T], six digits, [Z]. *)
Definition ics_utc_form (s : string) : bool :=
  match list_ascii_of_string s with
  | [y1; y2; y3; y4; m1; m2; d1; d2; "T"; h1; h2; i1; i2; s1; s2; "Z"]%char =>
      forallb is_digit [y1; y2; y3; y4; m1; m2; d1; d2; h1; h2; i1; i2; s1; s2]
  | _ => false
  end.

(** The UID line of an event and the whole block exported for it, for a
    start time [t]. *)
Definition uid_line (e : obj) : string :=
  "UID:" +:+ ToString (get e "id") +:+ "@volunteerconnect".

Definition event_block (e : obj) (t : Z) : string :=
  "BEGIN:VEVENT" +:+ nl
  +:+ uid_line e +:+ nl
  +:+ "DTSTART:" +:+ ics_stamp t +:+ nl
  +:+ "SUMMARY:" +:+ ToString (get e "title") +:+ nl
  +:+ "DESCRIPTION:" +:+ ToString (js_or (get e "description") (VStr "")) +:+ nl
  +:+ "LOCATION:" +:+ ToString (js_or (get e "location") (VStr "")) +:+ nl
  +:+ "END:VEVENT" +:+ nl.

(** A string without a line feed or a carriage return. *)
Definition line_break_free (s : string) : bool :=
  negb (includes_char (ascii_of_nat 10) s) && negb (includes_char (ascii_of_nat 13) s).

(** An event whose exported fields each fit on one line. *)
Definition plain_fields (e : obj) : Prop :=
  line_break_free (ToString (get e "id")) = true
  /\ line_break_free (ToString (get e "title")) = true
  /\ line_break_free (ToString (js_or (get e "description") (VStr ""))) = true
  /\ line_break_free (ToString (js_or (get e "location") (VStr ""))) = true.

(** The lines of a text, as [text.split('\n')] gives them. *)
Fixpoint split_lines (s : string) : list string :=
  match s with
  | EmptyString => [EmptyString]
  | String c s' =>
      if Ascii.eqb c (ascii_of_nat 10) then EmptyString :: split_lines s'
      else match split_lines s' with
           | l :: ls => String c l :: ls
           | [] => [String c EmptyString]
           end
  end.

(** How many lines of a text are exactly [l], and which lines start with
    [p]. *)
Definition count_lines (l text : string) : nat :=
  length (List.filter (String.eqb l) (split_lines text)).

Fixpoint starts_with (p s : string) : bool :=
  match p, s with
  | EmptyString, _ => true
  | String a p', String b s' => Ascii.eqb a b && starts_with p' s'
  | String _ _, EmptyString => false
  end.

Definition lines_starting (p text : string) : list string :=
  List.filter (starts_with p) (split_lines text).

(** The lines of the calendar header and of the block of an event that
    starts at [t]. *)
Definition header_lines : list string :=
  ["BEGIN:VCALENDAR"; "VERSION:2.0"; "PRODID:-//VolunteerConnect//EN"].

Definition block_lines (e : obj) (t : Z) : list string :=
  [ "BEGIN:VEVENT";
    uid_line e;
    "DTSTART:" +:+ ics_stamp t;
    "SUMMARY:" +:+ ToString (get e "title");
    "DESCRIPTION:" +:+ ToString (js_or (get e "description") (VStr ""));
    "LOCATION:" +:+ ToString (js_or (get e "location") (VStr ""));
    "END:VEVENT" ].

(** [b] is a later timestamp than [a]: both are strings and [a] sorts
    strictly before [b], as JavaScript orders strings. *)
Definition later_timestamp (a b : value) : bool :=
  match a, b with
  | VStr x, VStr y => js_string_lt x y
  | _, _ => false
  end.

(** The update query [dbUpdateProfile] assembles for the user with id [uid]. *)
Definition profile_update_query (x : obj) (now : Z) (uid : value) : query :=
  {| q_table := "profiles";
     q_verb := Update (<["updated_at" := VStr (iso_string now)]> x);
     q_mods := [EqTo "id" uid; Returning; Single] |}.

(** ** The calendar computation, step by step *)

(** The intermediate quantities of [civil_from_days]: the era of 400 years,
    the day and the year within the era, the day of the year counted from
    March 1st, the month counted from March and the day of the month. *)
Definition era_of (days : Z) : Z := (days + 719468) / 146097.
Definition doe_of (days : Z) : Z := (days + 719468) - era_of days * 146097.
Definition yoe_of (doe : Z) : Z := (doe - doe / 1460 + doe / 36524 - doe / 146096) / 365.
Definition doy_of (doe : Z) : Z := doe - (365 * yoe_of doe + yoe_of doe / 4 - yoe_of doe / 100).
Definition mp_of (doy : Z) : Z := (5 * doy + 2) / 153.
Definition dom_of (doy : Z) : Z := doy - (153 * mp_of doy + 2) / 5 + 1.

(** Lexicographic order on sequences of numbers of equal length. *)
Fixpoint lex_lt (a b : list Z) : Prop :=
  match a, b with
  | x :: a', y :: b' => x < y \/ (x = y /\ lex_lt a' b')
  | _, _ => False
  end.

(** A fixed-width rendering: each number with its width in digits, followed
    by a separator. *)
Fixpoint render (shape : list (nat * string)) (vals : list Z) : string :=
  match shape, vals with
  | (k, sep) :: shape', v :: vals' => digits k v +:+ sep +:+ render shape' vals'
  | _, _ => EmptyString
  end.

Fixpoint in_shape (shape : list (nat * string)) (vals : list Z) : Prop :=
  match shape, vals with
  | (k, _) :: shape', v :: vals' => 0 <= v < 10 ^ Z.of_nat k /\ in_shape shape' vals'
  | [], [] => True
  | _, _ => False
  end.

Definition iso_shape : list (nat * string) :=
  [(4, "-"); (2, "-"); (2, "T"); (2, ":"); (2, ":"); (2, "."); (3, "Z")]%nat.

(** Year, month, day, hours, minutes, seconds and milliseconds of a time
    value, in UTC. *)
Definition iso_fields (t : Z) : list Z :=
  let '(y, m, d) := civil_from_days (t / msPerDay) in
  let ms := t mod msPerDay in
  [y; m; d; ms / 3600000; ms / 60000 mod 60; ms / 1000 mod 60; ms mod 1000].

(** ** Sample inputs *)

(** The inverse of [civil_from_days]. *)
Definition days_from_civil (y m d : Z) : Z :=
  let y' := if m <=? 2 then y - 1 else y in
  let era := y' / 400 in
  let yoe := y' - era * 400 in
  let doy := (153 * (if 2 <? m then m - 3 else m + 9) + 2) / 5 + d - 1 in
  let doe := yoe * 365 + yoe / 4 - yoe / 100 + doy in
  era * 146097 + doe - 719468.

Definition digit_value (c : ascii) : option Z :=
  let n := Z.of_nat (nat_of_ascii c) in
  if (48 <=? n) && (n <=? 57) then Some (n - 48) else None.

(** The date-only form [YYYY-MM-DD], which every host reads as midnight UTC
    of that day. *)
Definition parse_date_only (s : string) : option Z :=
  match list_ascii_of_string s with
  | [y1; y2; y3; y4; "-"%char; m1; m2; "-"%char; d1; d2] =>
      a ← digit_value y1; b ← digit_value y2; c ← digit_value y3; d ← digit_value y4;
      e ← digit_value m1; f ← digit_value m2; g ← digit_value d1; i ← digit_value d2;
      let y := 1000 * a + 100 * b + 10 * c + d in
      let m := 10 * e + f in
      let dd := 10 * g + i in
      let days := days_from_civil y m dd in
      if bool_decide (civil_from_days days = (y, m, dd)) then Some (days * msPerDay)
      else None
  | _ => None
  end.

(** A host in the UTC time zone whose [Date] parses the date-only form and
    nothing else, and which converts no string to a number. *)
Definition utc_host : Host :=
  {| Date_parse := parse_date_only;
     StringToNumber := fun _ => VNaN;
     localMonthStart := fun t =>
       let '(y, m, _) := civil_from_days (t / msPerDay) in days_from_civil y m 1 * msPerDay;
     localYearStart := fun t =>
       let '(y, _, _) := civil_from_days (t / msPerDay) in days_from_civil y 1 1 * msPerDay |}.

Definition empty_app : AppState :=
  {| user := VNull; volunteers := []; opportunities := []; schedule := []; hours := [];
     currentPage := "home" |}.

Definition empty_dom : Dom :=
  {| demoLoginModal := None; focused := None; authErrorAlert := None;
     authSuccessAlerts := []; signedInView := false; dispatched := [] |}.

(** A freshly loaded page without backend credentials: local mode, nothing
    stored. *)
Definition local_world : World :=
  {| dbInitialized := false; supabaseClient := None; firebaseAuth := false;
     localStorage := ∅; staticSnapshot := None; network := []; appState := empty_app;
     appExported := true; dom := empty_dom |}.

(** A backend that answers every query with no rows and no error. *)
Definition quiet_client (u : option obj) : Client :=
  {| auth_getUser := u; auth_signInWithOAuth := None;
     rest := fun _ => {| r_data := VArr []; r_error := None |} |}.

(** A page with an initialised client: remote mode, signed in as [u] or
    signed out. *)
Definition remote_world (u : option obj) : World :=
  {| dbInitialized := true; supabaseClient := Some (quiet_client u); firebaseAuth := false;
     localStorage := ∅; staticSnapshot := None; network := []; appState := empty_app;
     appExported := true; dom := empty_dom |}.

Definition alice : obj := <["email" := VStr "alice@example.org"]> (<["id" := VStr "user-a"]> ∅).

(** The hours entry of the README. *)
Definition food_bank : obj :=
  <["hours" := VNum 4]> (<["date" := VStr "2024-02-15"]>
    (<["organization" := VStr "Food Bank"]> ∅)).

(** Two opportunities, and a backend that serves the first as the active
    rows of any query. *)
Definition beach_cleanup : obj :=
  <["is_active" := VBool true]> (<["title" := VStr "Beach cleanup"]> ∅).
Definition tutoring : obj :=
  <["is_active" := VBool true]> (<["title" := VStr "Tutoring"]> ∅).

Definition opportunities_client : Client :=
  {| auth_getUser := None; auth_signInWithOAuth := None;
     rest := fun _ => {| r_data := VArr [VObj beach_cleanup]; r_error := None |} |}.

Definition opportunities_world : World :=
  {| dbInitialized := true; supabaseClient := Some opportunities_client;
     firebaseAuth := false; localStorage := ∅;
     staticSnapshot := Some (VObj (<["opportunities" := VArr [VObj tutoring]]> ∅));
     network := []; appState := empty_app; appExported := true; dom := empty_dom |}.

Definition soup_kitchen : obj :=
  <["hours" := VNum 3]> (<["date" := VStr "2024-03-02"]>
    (<["organization" := VStr "Soup Kitchen"]> ∅)).

(** A stored hours log of two rows, as two local inserts leave it. *)
Definition two_rows : list obj :=
  [stamp_row food_bank 1707955200000 1707955200001;
   stamp_row soup_kitchen 1709337600000 1709337600000].

Definition two_rows_world : World :=
  set_localStorage (insert "volunteerHoursLog" (VArr (VObj <$> two_rows))) local_world.

(** Jane signs in and logs an entry, signs out, then Bob signs in on the same
    browser and logs another. *)
Definition two_visitors : list session_step :=
  [ StepSignInWithGoogle; StepTypeDemoInputs "Jane" "jane@x.com";
    StepCompleteDemoLogin 1707955100000;
    StepAddHours food_bank 1707955200000 1707955200001;
    StepSignOut;
    StepDbSignInWithGoogle; StepTypeDemoInputs "Bob" "bob@x.com";
    StepCompleteDemoLogin 1709337500000;
    StepAddHours soup_kitchen 1709337600000 1709337600000;
    StepDbSignOut ].

(** Two events for the schedule; the second has no date. *)
Definition morning_shift : obj :=
  <["location" := VStr "123 Main St"]> (<["date" := VStr "2024-02-15"]>
    (<["title" := VStr "Volunteer Shift"]> ∅)).
Definition evening_shift : obj :=
  <["date" := VStr "2024-03-02"]> (<["title" := VStr "Evening Shift"]> ∅).
Definition undated_shift : obj := <["title" := VStr "Orientation"]> ∅.

(** The page after [ScheduleManager.addEvent] was called for two events. *)
Definition scheduled (first second : obj) : World :=
  snd (ScheduleManager.addEvent utc_host second "lsn1x2k1def" 1707868800001
        (snd (ScheduleManager.addEvent utc_host first "lsn1x2k0abc" 1707868800000
                local_world))).

(** Two profile updates, and the profiles they leave when both happen at the
    clock reading 2024-02-15T00:00:00.000Z on a fresh page. *)
Definition name_update : obj := {["first_name" := VStr "Jane"]}.
Definition phone_update : obj := {["phone" := VStr "555-0100"]}.

Definition profile_after_first : obj :=
  <["updated_at" := VStr "2024-02-15T00:00:00.000Z"]> name_update.
Definition profile_after_second : obj :=
  <["updated_at" := VStr "2024-02-15T00:00:00.000Z"]> (phone_update ∪ profile_after_first).

(** Filters asking for the hours of March 2024. *)
Definition march_filters : obj :=
  <["endDate" := VStr "2024-03-31"]> (<["startDate" := VStr "2024-03-01"]> ∅).

(** A backend that answers every query with an error. *)
Definition failing_client (u : option obj) : Client :=
  {| auth_getUser := u; auth_signInWithOAuth := None;
     rest := fun _ => {| r_data := VNull; r_error := Some (VStr "unreachable") |} |}.

(** A page whose backend is down, with the tutoring opportunity in its
    bundled file. *)
Definition outage_world : World :=
  {| dbInitialized := true; supabaseClient := Some (failing_client None);
     firebaseAuth := false; localStorage := ∅;
     staticSnapshot := Some (VObj (<["opportunities" := VArr [VObj tutoring]]> ∅));
     network := []; appState := empty_app; appExported := true; dom := empty_dom |}.

(** Jane signs in and logs an entry; then she signs out and Bob signs in. *)
Definition jane_logs : list session_step :=
  [ StepSignInWithGoogle; StepTypeDemoInputs "Jane" "jane@x.com";
    StepCompleteDemoLogin 1707955100000;
    StepAddHours food_bank 1707955200000 1707955200001 ].

Definition bob_arrives : list session_step :=
  [ StepSignOut; StepDbSignInWithGoogle; StepTypeDemoInputs "Bob" "bob@x.com";
    StepCompleteDemoLogin 1709337500000 ].

(** The row Jane's insert leaves in the storage. *)
Definition stored_food_bank_row : obj :=
  <["created_at" := VStr "2024-02-15T00:00:00.001Z"]>
    (<["id" := VStr "1707955200000"]> food_bank).

(** An event whose title carries line breaks and the delimiters of a block
    of its own. *)
Definition spliced_shift : obj :=
  <["date" := VStr "2024-03-02"]>
    (<["title" := VStr ("Shift" +:+ nl +:+ "END:VEVENT" +:+ nl +:+ "BEGIN:VEVENT" +:+ nl
                        +:+ "UID:forged@volunteerconnect")]> ∅).

From Stdlib Require Import Sorted.

(** ** More of database.js *)

(** What the deployment fixes: the two configuration constants and the
    Supabase library when its script is loaded.  [createClient] yields no
    client when it throws; [listens] tells whether registering the auth
    listener on the new client succeeds. *)
Record SupabaseLibrary := {
  createClient : string -> string -> option Client;
  listens : bool
}.

Record Deployment := {
  SUPABASE_URL : string;
  SUPABASE_ANON_KEY : string;
  supabase : option SupabaseLibrary
}.

Definition set_dbInitialized (b : bool) (w : World) : World :=
  {| dbInitialized := b; supabaseClient := supabaseClient w;
     firebaseAuth := firebaseAuth w; localStorage := localStorage w;
     staticSnapshot := staticSnapshot w; network := network w; appState := appState w;
     appExported := appExported w; dom := dom w |}.

Definition set_supabaseClient (c : option Client) (w : World) : World :=
  {| dbInitialized := dbInitialized w; supabaseClient := c;
     firebaseAuth := firebaseAuth w; localStorage := localStorage w;
     staticSnapshot := staticSnapshot w; network := network w; appState := appState w;
     appExported := appExported w; dom := dom w |}.

(** [initDatabase()]: the value it returns and the page it leaves. *)
Definition initDatabase (d : Deployment) (w : World) : bool * World :=
  if String.eqb (SUPABASE_URL d) "YOUR_SUPABASE_URL"
     || String.eqb (SUPABASE_ANON_KEY d) "YOUR_SUPABASE_ANON_KEY"
  then (false, set_dbInitialized false w)
  else
    match supabase d with
    | None => (false, set_dbInitialized false w)
    | Some lib =>
        match createClient lib (SUPABASE_URL d) (SUPABASE_ANON_KEY d) with
        | Some c =>
            if listens lib then (true, set_dbInitialized true (set_supabaseClient (Some c) w))
            else (false, set_dbInitialized false (set_supabaseClient (Some c) w))
        | None => (false, set_dbInitialized false w)
        end
    end.

(** [handleSupabaseAuthChange(event, session)]: the session's user, brought to
    the shape the page uses, is handed to [handleAuthStateChange].  Calling
    [split] on an email that is neither missing nor a string throws. *)
Definition handleSupabaseAuthChange (session : value) (w : World) : result World :=
  let su := match session with VUndef | VNull => VUndef | _ => field session "user" end in
  if truthy su then
    let metadata := field su "user_metadata" in
    displayName ←
      (if truthy (field metadata "full_name") then Ok (field metadata "full_name")
       else match field su "email" with
            | VUndef | VNull => Ok VUndef
            | VStr s => Ok (VStr (before_char "@" s))
            | _ => Throw TypeError
            end);
    Ok (handleAuthStateChange
          (VObj (<["photoURL" := field metadata "avatar_url"]>
                (<["displayName" := displayName]>
                (<["email" := field su "email"]>
                (<["uid" := field su "id"]> ∅))))) w)
  else Ok (handleAuthStateChange VNull w).

(** [dbExportAllUserData()]; [now] is the reading of the clock when the
    export is stamped.  The three listings are asked without filters, so the
    events listing reads no clock of its own. *)
Definition dbExportAllUserData (h : Host) (now : Z) : M value :=
  profile <- dbGetProfile ;;
  hours <- dbGetHoursLog h ∅ ;;
  events <- dbGetEvents h ∅ now ;;
  letters <- dbGetLetters ∅ ;;
  ret (VObj (<["letters" := letters]> (<["events" := events]> (<["hours" := hours]>
            (<["profile" := profile]> (<["exportedAt" := VStr (iso_string now)]> ∅)))))).

(** ** More of auth.js *)

(** [getCurrentUser()]; [currentUser] is what Firebase reports when it is
    configured. *)
Definition getCurrentUser (currentUser : value) (w : World) : value :=
  if firebaseAuth w then currentUser else stored "volunteerConnectUser" VNull w.

(** [isAuthenticated()] *)
Definition isAuthenticated (currentUser : value) (w : World) : bool :=
  negb (strict_eq (getCurrentUser currentUser w) VNull).

(** ** More of app.js *)

Definition set_volunteers (f : list value -> list value) (a : AppState) : AppState :=
  {| user := user a; volunteers := f (volunteers a); opportunities := opportunities a;
     schedule := schedule a; hours := hours a; currentPage := currentPage a |}.

Module VolunteerManager.

(** [VolunteerManager.trackOutreach(contact)] *)
Definition trackOutreach (contact : value) (gid : string) (now : Z) : M value := fun w =>
  let outreach : obj :=
    <["notes" := VStr ""]> (<["followUpDate" := VNull]> (<["status" := VStr "contacted"]>
      (<["date" := VStr (iso_string now)]> (<["contact" := contact]>
      (<["id" := VStr gid]> ∅))))) in
  (Ok (VObj outreach),
   saveAppState (set_app (set_volunteers (fun l => l ++ [VObj outreach])) w)).

Definition getAll (w : World) : list value := volunteers (appState w).

(** [VolunteerManager.getByStatus(status)] for a status given as a string. *)
Definition getByStatus (status : string) (w : World) : result (list value) :=
  filter_rows (fun v => s ← prop v "status"; Ok (strict_eq s (VStr status)))
              (volunteers (appState w)).

End VolunteerManager.

(** The events of the schedule dated between [now] and [future], each with
    the time value its date converts to. *)
Fixpoint within_window (h : Host) (now : Z) (future : option Z) (events : list value)
  : result (list (Z * value)) :=
  match events with
  | [] => Ok []
  | e :: es =>
      d ← prop e "date";
      r ← within_window h now future es;
      Ok (match new_Date h d, future with
          | Some t, Some f => if (now <=? t) && (t <=? f) then (t, e) :: r else r
          | _, _ => r
          end)
  end.

(** A stable sort by time value: an element goes before the first one that
    is strictly later. *)
Fixpoint insert_by_time (x : Z * value) (l : list (Z * value)) : list (Z * value) :=
  match l with
  | [] => [x]
  | y :: l' => if fst y <? fst x then y :: insert_by_time x l' else x :: y :: l'
  end.

Definition sort_by_time (l : list (Z * value)) : list (Z * value) :=
  foldr insert_by_time [] l.

(** [ScheduleManager.getUpcoming(days)]; [now] is the reading of the clock. *)
Definition ScheduleManager_getUpcoming (h : Host) (days : Z) (now : Z) (w : World)
  : result (list value) :=
  l ← within_window h now (TimeClip (now + days * 24 * 60 * 60 * 1000))
        (schedule (appState w));
  Ok (snd <$> sort_by_time l).

(** ** Predicates used in the further statements *)

(** The last event dispatched and the signed-in view agree. *)
Definition view_matches_events (w : World) : Prop :=
  match last (dispatched (dom w)) with
  | Some (userSignedIn _) => signedInView (dom w) = true
  | Some userSignedOut => signedInView (dom w) = false
  | None => True
  end.

(** The signed-in view is shown exactly when a user is persisted. *)
Definition view_matches_storage (w : World) : Prop :=
  signedInView (dom w) = true <-> is_Some (localStorage w !! "volunteerConnectUser").

(** The record [handleAuthStateChange] mirrors into [AppState.user]. *)
Definition app_user (u : value) : value :=
  VObj (<["photoURL" := field u "photoURL"]> (<["email" := field u "email"]>
       (<["name" := field u "displayName"]> (<["uid" := field u "uid"]> ∅)))).

(** When app.js has exported its state, the signed-in view is shown exactly
    when [AppState.user] is set. *)
Definition view_matches_app (w : World) : Prop :=
  appExported w = true -> (signedInView (dom w) = true <-> user (appState w) <> VNull).

(** The three places that tell whether someone is signed in agree with the
    view. *)
Definition signed_in_consistent (w : World) : Prop :=
  view_matches_storage w /\ view_matches_events w /\ view_matches_app w.

(** The user object [handleSupabaseAuthChange] builds from a session user
    whose email is the string [email]. *)
Definition session_user (su : value) (email : string) : value :=
  let metadata := field su "user_metadata" in
  VObj (<["photoURL" := field metadata "avatar_url"]>
       (<["displayName" := if truthy (field metadata "full_name")
                           then field metadata "full_name"
                           else VStr (before_char "@" email)]>
       (<["email" := VStr email]>
       (<["uid" := field su "id"]> ∅)))).

(** A session as Supabase reports it for [alice], who has set no name. *)
Definition alice_session : value := VObj {["user" := VObj alice]}.

(** A row whose [date] is a string between the two bounds, in the order of
    JavaScript strings. *)
Definition dated_between (a b : string) (r : obj) : bool :=
  match get r "date" with
  | VStr d => negb (js_string_lt d a) && negb (js_string_lt b d)
  | _ => false
  end.

(** A string of ASCII characters only. *)
Definition ascii_only (s : string) : bool :=
  forallb (fun c => byte_value c <? 128) (list_ascii_of_string s).

(** A row whose [date] is a string not before [a]. *)
Definition dated_from (a : string) (r : obj) : bool :=
  match get r "date" with
  | VStr d => negb (String.ltb d a)
  | _ => false
  end.

(** A row whose [date] is a string or is missing. *)
Definition plain_date (r : obj) : Prop :=
  match get r "date" with
  | VStr _ | VUndef => True
  | _ => False
  end.

(** The hours an entry counts for when its [hours] is a whole number or
    missing. *)
Definition counted_hours (e : obj) : Z :=
  match get e "hours" with
  | VNum n => n
  | _ => 0
  end.

Definition plain_hours (e : obj) : Prop :=
  match get e "hours" with
  | VNum _ | VUndef => True
  | _ => False
  end.

(** The blocks of a list of events with their start times, one after
    another. *)
Fixpoint event_blocks (events : list (obj * Z)) : string :=
  match events with
  | [] => EmptyString
  | (e, t) :: rest => event_block e t +:+ event_blocks rest
  end.

(** The reminder [scheduleReminder] attaches for a start time [t]. *)
Definition reminder_for (t : Z) : obj :=
  <["sent" := VBool false]> (<["scheduledFor" := VStr (iso_string (t - 86400000))]>
    (<["type" := VStr "email"]> ∅)).

(** What a signed-in user's list operation does in remote mode: after the
    lookup of the user it sends one select on the table whose first predicate
    is [user_id = the user's id], and it returns the rows of the answer (the
    empty sequence when the answer has none) or throws the answer's error. *)
Definition scoped_select (tbl : string) (u : obj) (c : Client) (w : World)
    (out : result value * World) : Prop :=
  exists q,
    network (snd out) = network w ++ [AuthGetUser; Rest q]
    /\ q_table q = tbl /\ q_verb q = Select
    /\ head (q_mods q) = Some (EqTo "user_id" (get u "id"))
    /\ fst out = match r_error (rest c q) with
                 | Some e => Throw (BackendError e)
                 | None => Ok (js_or (r_data (rest c q)) (VArr []))
                 end.

(** A stamped row as it reads back from storage. *)
Definition stored_row (row : obj) (t_id t_created : Z) : obj :=
  omap json_field (stamp_row row t_id t_created).

(** What a local insert under [key] does when the stored sequence is [l]:
    it returns the caller's row with [id] and [created_at] set from the
    clock (whatever the row held there), appends that row to the sequence,
    and touches neither another key nor the network. *)
Definition local_insert_outcome (key : string) (row : obj) (t_id t_created : Z)
    (l : list value) (w : World) (out : result value * World) : Prop :=
  fst out = Ok (VObj (stamp_row row t_id t_created))
  /\ stamp_row row t_id t_created !! "id" = Some (VStr (pretty t_id))
  /\ stamp_row row t_id t_created !! "created_at" = Some (VStr (iso_string t_created))
  /\ (forall k, k <> "id" -> k <> "created_at" ->
        stamp_row row t_id t_created !! k = row !! k)
  /\ localStorage (snd out) !! key
     = Some (VArr (l ++ [VObj (stored_row row t_id t_created)]))
  /\ (forall k, k <> key -> localStorage (snd out) !! k = localStorage w !! k)
  /\ network (snd out) = network w.

(** A stored value that is not a sequence. *)
Definition not_array (v : value) : Prop :=
  match v with
  | VArr _ => False
  | _ => True
  end.

(** The calendar date of an instant in UTC, as [toISOString] prints it
    before the [T]. *)
Definition utc_date (t : Z) : string :=
  let '(y, m, d) := civil_from_days (t / msPerDay) in
  year_string y +:+ "-" +:+ digits 2 m +:+ "-" +:+ digits 2 d.

(** A stored list of three events; the last has no date. *)
Definition three_events : list obj := [morning_shift; evening_shift; undated_shift].

Definition three_events_world : World :=
  set_localStorage (insert "volunteerEvents" (VArr (VObj <$> three_events))) local_world.


(** The object [dbExportAllUserData] assembles. *)
Definition export_of (now : Z) (profile hours events letters : value) : value :=
  VObj (<["letters" := letters]> (<["events" := events]> (<["hours" := hours]>
       (<["profile" := profile]> (<["exportedAt" := VStr (iso_string now)]> ∅))))).

(** The query [dbGetProfile] sends for the user with id [uid]. *)
Definition profile_select_query (uid : value) : query :=
  {| q_table := "profiles"; q_verb := Select; q_mods := [EqTo "id" uid; Single] |}.

Definition failing_world (u : option obj) : World :=
  {| dbInitialized := true; supabaseClient := Some (failing_client u); firebaseAuth := false;
     localStorage := ∅; staticSnapshot := None; network := []; appState := empty_app;
     appExported := true; dom := empty_dom |}.

Definition claims_complete : obj := {["profile_complete" := VStr "true"]}.

(** The time value an event's [date] converts to. *)
Definition event_time (h : Host) (e : obj) : option Z := new_Date h (get e "date").

(** An event that starts between [now] and [days] days later. *)
Definition in_window (h : Host) (now days : Z) (e : obj) : bool :=
  match event_time h e, TimeClip (now + days * 24 * 60 * 60 * 1000) with
  | Some t, Some f => (now <=? t) && (t <=? f)
  | _, _ => false
  end.

(** [a] does not start after [b]. *)
Definition not_later (h : Host) (a b : obj) : Prop :=
  forall x y, event_time h a = Some x -> event_time h b = Some y -> x <= y.

(** An event paired with its start time, as the sort sees it. *)
Definition start (h : Host) (e : obj) : Z := default 0 (event_time h e).
Definition timed (h : Host) (e : obj) : Z * value := (start h e, VObj e).

(** An entry dated on or after the time value [s]. *)
Definition logged_since (h : Host) (s : Z) (e : obj) : bool :=
  match new_Date h (get e "date") with
  | Some a => s <=? a
  | None => false
  end.

(** The hours of a list of entries, added up. *)
Definition total (es : list obj) : Z := foldr (fun e acc => counted_hours e + acc) 0 es.

(** Entries whose hours are whole numbers, none negative, adding up to
    less than 2^53: the sums that doubles carry exactly. *)
Definition whole_hours (es : list obj) : Prop :=
  (forall e, In e es -> plain_hours e /\ 0 <= counted_hours e) /\ total es < 2 ^ 53.

(** The page's state is saved under [volunteerConnectState] as it is in
    memory. *)
Definition state_saved (w : World) : Prop :=
  localStorage w !! "volunteerConnectState"
  = Some (json_roundtrip (AppState_value (appState w))).

(** The schedule after the second event was added before the first. *)
Definition out_of_order : list obj :=
  [new_scheduleItem evening_shift "lsn1x2k0abc" 1707868800000;
   new_scheduleItem morning_shift "lsn1x2k1def" 1707868800001].

(** An hours entry typed into a form: its amount is text. *)
Definition typed_entry : obj :=
  <["hours" := VStr "4"]> (<["date" := VStr "2024-02-15"]> ∅).

Definition reminded_undated : obj := <["sendReminders" := VBool true]> undated_shift.

(** An event together with the time value its [date] converts to, in the
    years the four-digit stamp covers. *)
Definition dated_at (h : Host) (p : obj * Z) : Prop :=
  new_Date h (get (fst p) "date") = Some (snd p) /\ 0 <= YearFromTime (snd p) <= 9999.

(** The two shifts of the samples with their start times. *)
Definition two_shifts : list (obj * Z) :=
  [(new_scheduleItem morning_shift "lsn1x2k0abc" 1707868800000, 1707955200000);
   (new_scheduleItem evening_shift "lsn1x2k1def" 1707868800001, 1709337600000)].

(** What a manager of app.js does to the page besides changing [AppState]:
    it saves the state, and touches neither another storage key, nor the
    network, nor the document. *)
Definition saves_state_only (w w' : World) : Prop :=
  state_saved w'
  /\ (forall k, k <> "volunteerConnectState" -> localStorage w' !! k = localStorage w !! k)
  /\ network w' = network w
  /\ dom w' = dom w.

(** The [id] a record built as [{ id: generateId(), ...given }] ends up
    with. *)
Definition record_id (given : obj) (gid : string) : value :=
  match given !! "id" with
  | Some v => v
  | None => VStr gid
  end.

(** A record whose [status] is the string [s]. *)
Definition has_status (s : string) (v : obj) : bool := strict_eq (get v "status") (VStr s).

(** An event that brings its own id. *)
Definition imported_shift : obj := <["id" := VStr "lsn1x2k0abc"]> evening_shift.

(** Running [m] on the page [w] sends nothing. *)
Definition offline {A} (m : M A) (w : World) : Prop := network (snd (m w)) = network w.

(** The configuration as the repository ships it: both constants are the
    placeholders, and the Supabase script is loaded. *)
Definition shipped (lib : SupabaseLibrary) : Deployment :=
  {| SUPABASE_URL := "YOUR_SUPABASE_URL"; SUPABASE_ANON_KEY := "YOUR_SUPABASE_ANON_KEY";
     supabase := Some lib |}.

Definition working_library : SupabaseLibrary :=
  {| createClient := fun _ _ => Some (quiet_client None); listens := true |}.

(** ** The profiles table behind the remote mode *)

(** supabase_schema.sql, as the two profile operations meet it.  What the
    database server holds and decides: the rows of [public.profiles], the
    reading [NOW()] of its clock for the request it serves, how it prints a
    [TIMESTAMP WITH TIME ZONE], and which update payloads the columns of the
    table take as they are sent (every key a column, every value of its
    column's type). *)
Record Server := {
  profiles : list obj;
  NOW : Z;
  timestamptz : Z -> string;
  takes : obj -> bool
}.

(** The server at another reading of its clock. *)
Definition at_time (t : Z) (s : Server) : Server :=
  {| profiles := profiles s; NOW := t; timestamptz := timestamptz s; takes := takes s |}.

(** The policies "Users can view own profile" and "Users can update own
    profile": [auth.uid() = id]. *)
Definition own_profile (uid : value) (r : obj) : bool :=
  match uid with
  | VStr _ => strict_eq (get r "id") uid
  | _ => false
  end.

(** A row passes the [eq] filters of a query. *)
Definition passes (mods : list modifier) (r : obj) : bool :=
  forallb (fun m => match m with
                    | EqTo col v => strict_eq (get r col) v
                    | _ => true
                    end) mods.

(** [.single()]: the one row, or an error when there is none or more than
    one. *)
Definition single_row (rows : list obj) : response :=
  match rows with
  | [r] => {| r_data := VObj r; r_error := None |}
  | _ => {| r_data := VNull; r_error := Some (VStr "PGRST116") |}
  end.

(** An update of a row: the columns of the payload are set, and the trigger
    [update_profiles_updated_at] then sets [updated_at] to [NOW()]. *)
Definition update_row (s : Server) (payload r : obj) : obj :=
  <["updated_at" := VStr (timestamptz s (NOW s))]> (payload ∪ r).

(** The answer to a select or an update with [.single()] on [profiles] sent
    by the user [uid], and the server it leaves.  The payload arrives as
    JSON. *)
Definition serve_profiles (s : Server) (uid : value) (q : query) : response * Server :=
  let mine r := own_profile uid r && passes (q_mods q) r in
  match q_verb q with
  | Select => (single_row (List.filter mine (profiles s)), s)
  | Update payload =>
      let sent := spread (json_roundtrip (VObj payload)) in
      if takes s sent then
        (single_row (update_row s sent <$> List.filter mine (profiles s)),
         {| profiles := (fun r => if mine r then update_row s sent r else r) <$> profiles s;
            NOW := NOW s; timestamptz := timestamptz s; takes := takes s |})
      else ({| r_data := VNull; r_error := Some (VStr "PGRST204") |}, s)
  | _ => ({| r_data := VNull; r_error := Some (VStr "PGRST100") |}, s)
  end.

(** The client of a page on which [u] is signed in, talking to the server
    [s]. *)
Definition server_client (s : Server) (u : obj) : Client :=
  {| auth_getUser := Some u; auth_signInWithOAuth := None;
     rest := fun q =>
       if String.eqb (q_table q) "profiles" then fst (serve_profiles s (get u "id") q)
       else {| r_data := VArr []; r_error := None |} |}.

(** The server after a request of [u]'s page. *)
Definition served (u : obj) (s : Server) (r : request) : Server :=
  match r with
  | Rest q =>
      if String.eqb (q_table q) "profiles" then snd (serve_profiles s (get u "id") q) else s
  | _ => s
  end.

(** One operation of [u]'s page against the server: the page talks to the
    server as it stands, and the server then stands as the requests the
    operation sent have left it. *)
Definition against {A} (m : M A) (u : obj) (sw : Server * World)
  : result A * (Server * World) :=
  let w := set_supabaseClient (Some (server_client (fst sw) u)) (snd sw) in
  (fst (m w),
   (fold_left (served u) (drop (length (network w)) (network (snd (m w)))) (fst sw),
    snd (m w))).

(** A server holding the profiles of two users, which takes any payload
    that leaves [id] alone and prints its timestamps as the page does. *)
Definition alice_profile : obj :=
  <["updated_at" := VStr "2024-02-14T00:00:00.000Z"]> (<["first_name" := VStr "Alice"]> alice).

Definition carol_profile : obj :=
  <["updated_at" := VStr "2024-02-13T00:00:00.000Z"]>
    (<["email" := VStr "carol@example.org"]> (<["id" := VStr "user-c"]> ∅)).

Definition two_profiles (now : Z) : Server :=
  {| profiles := [carol_profile; alice_profile]; NOW := now; timestamptz := iso_string;
     takes := fun payload => bool_decide (payload !! "id" = None) |}.

(** * Properties *)

(** ** Mode selection *)

Lemma remote_available w c :
  isDatabaseAvailable w = true -> supabaseClient w = Some c -> remote w = Some c.
Proof. intros Ha Hc. unfold remote. now rewrite Ha. Qed.

Lemma remote_unavailable w : isDatabaseAvailable w = false -> remote w = None.
Proof. intros Ha. unfold remote. now rewrite Ha. Qed.

Lemma remote_inv w c :
  remote w = Some c -> isDatabaseAvailable w = true /\ supabaseClient w = Some c.
Proof.
  unfold remote. destruct (isDatabaseAvailable w); [auto | discriminate].
Qed.

Lemma current_user_remote w c :
  remote w = Some c ->
  dbGetCurrentUser w
  = (Ok (match auth_getUser c with Some u => VObj u | None => VNull end), send AuthGetUser w).
Proof. intros Hr. unfold dbGetCurrentUser. now rewrite Hr. Qed.

(** ** Remote inserts *)

(** The insert query a signed-in user's row turns into. *)
Lemma remote_insert_signed_in c0 c u tbl row w :
  remote w = Some c -> auth_getUser c = Some u ->
  let q := {| q_table := tbl; q_verb := Insert (<["user_id" := get u "id"]> row);
              q_mods := [Returning; Single] |} in
  remote_insert c0 tbl row w
  = (match r_error (rest c0 q) with
     | Some e => Throw (BackendError e)
     | None => Ok (r_data (rest c0 q))
     end, send (Rest q) (send AuthGetUser w)).
Proof.
  intros Hr Hu q. unfold remote_insert, bind.
  rewrite (current_user_remote _ _ Hr), Hu. cbn.
  fold q. destruct (r_error (rest c0 q)); reflexivity.
Qed.

Lemma remote_insert_stamps c u tbl row w :
  remote w = Some c -> auth_getUser c = Some u ->
  sends_stamped_insert tbl row u w (snd (remote_insert c tbl row w)).
Proof.
  intros Hr Hu. rewrite (remote_insert_signed_in c c u tbl row w Hr Hu). cbn.
  exists (<["user_id" := get u "id"]> row). split; [|split].
  - unfold send; cbn. now rewrite <- app_assoc.
  - apply lookup_insert_eq.
  - intros k Hk. now apply lookup_insert_ne.
Qed.

(** C1: in remote mode with user [u] signed in, [dbAddHoursEntry],
    [dbAddEvent] and [dbSaveLetter] each submit an insert whose payload has
    [user_id] equal to [u]'s id, whatever the caller's row holds under
    [user_id]; every other field of the payload is the row's. *)
Theorem C1_insert_payload_carries_current_user (w : World) (c : Client) (u row : obj)
    (t_id t_created : Z) :
  isDatabaseAvailable w = true ->
  supabaseClient w = Some c ->
  auth_getUser c = Some u ->
  sends_stamped_insert "hours_log" row u w (snd (dbAddHoursEntry row t_id t_created w))
  /\ sends_stamped_insert "events" row u w (snd (dbAddEvent row t_id t_created w))
  /\ sends_stamped_insert "letters" row u w (snd (dbSaveLetter row t_id t_created w)).
Proof.
  intros Ha Hc Hu. pose proof (remote_available w c Ha Hc) as Hr.
  unfold dbAddHoursEntry, dbAddEvent, dbSaveLetter. rewrite Hr.
  repeat split; now apply remote_insert_stamps.
Qed.

Lemma C1_witness :
  sends_stamped_insert "hours_log" (<["user_id" := VStr "user-b"]> food_bank) alice
    (remote_world (Some alice))
    (snd (dbAddHoursEntry (<["user_id" := VStr "user-b"]> food_bank) 0 0
            (remote_world (Some alice)))).
Proof.
  destruct (C1_insert_payload_carries_current_user (remote_world (Some alice))
              (quiet_client (Some alice)) alice (<["user_id" := VStr "user-b"]> food_bank)
              0 0 eq_refl eq_refl eq_refl) as [Hhours _].
  exact Hhours.
Defined.

(** ** Remote operations without a session *)

Lemma only_user_lookup_sent w : no_mutation_sent w (send AuthGetUser w).
Proof. exists [AuthGetUser]. split; [reflexivity | now repeat constructor]. Qed.

Lemma current_user_signed_out w c :
  remote w = Some c -> auth_getUser c = None ->
  dbGetCurrentUser w = (Ok VNull, send AuthGetUser w).
Proof. intros Hr Hu. rewrite (current_user_remote _ _ Hr). now rewrite Hu. Qed.

Lemma remote_delete_signed_out c0 c tbl id w :
  remote w = Some c -> auth_getUser c = None ->
  remote_delete c0 tbl id w = (Throw NotAuthenticated, send AuthGetUser w).
Proof.
  intros Hr Hu. unfold remote_delete, bind.
  now rewrite (current_user_signed_out _ _ Hr Hu).
Qed.

(** Everything an operation does when it stops after the lookup of the
    current user. *)
Lemma stops_after_lookup {A} (m : M A) w (r : result A) :
  m w = (r, send AuthGetUser w) -> yields_after_lookup_only m w r.
Proof.
  intros H. unfold yields_after_lookup_only. rewrite H. cbn [fst snd].
  split; [reflexivity|]. split; [reflexivity|].
  split; [reflexivity | apply only_user_lookup_sent].
Qed.

(** C2, as the code has it: in remote mode without a signed-in user the
    list operations return the empty sequence and [dbGetProfile] returns
    [null], while [dbUpdateProfile], [dbDeleteHoursEntry] and [dbDeleteEvent]
    throw "Not authenticated"; each of them sends the lookup of the current
    user and nothing else (so no query on a table and no mutation) and
    leaves the rest of the page as it was, for all filters, field updates
    and ids. *)
Theorem C2_signed_out_remote_operations (h : Host) (w : World) (c : Client)
    (filters x : obj) (id : value) (now : Z) :
  isDatabaseAvailable w = true ->
  supabaseClient w = Some c ->
  auth_getUser c = None ->
  yields_after_lookup_only (dbGetHoursLog h filters) w (Ok (VArr []))
  /\ yields_after_lookup_only (dbGetEvents h filters now) w (Ok (VArr []))
  /\ yields_after_lookup_only (dbGetLetters filters) w (Ok (VArr []))
  /\ yields_after_lookup_only dbGetProfile w (Ok VNull)
  /\ yields_after_lookup_only (dbUpdateProfile x now) w (Throw NotAuthenticated)
  /\ yields_after_lookup_only (dbDeleteHoursEntry id) w (Throw NotAuthenticated)
  /\ yields_after_lookup_only (dbDeleteEvent id) w (Throw NotAuthenticated).
Proof.
  intros Ha Hc Hu. pose proof (remote_available w c Ha Hc) as Hr.
  pose proof (current_user_signed_out w c Hr Hu) as Hcur.
  split; [|split; [|split; [|split; [|split; [|split]]]]]; apply stops_after_lookup;
    unfold dbGetHoursLog, dbGetEvents, dbGetLetters, dbGetProfile, dbUpdateProfile,
      dbDeleteHoursEntry, dbDeleteEvent;
    rewrite Hr, ?(remote_delete_signed_out c c _ _ w Hr Hu); try reflexivity;
    unfold bind; now rewrite Hcur.
Qed.

Lemma C2_witness :
  yields_after_lookup_only (dbDeleteHoursEntry (VStr "1707955200000")) (remote_world None)
    (Throw NotAuthenticated)
  /\ network (snd (dbGetHoursLog utc_host march_filters (remote_world None)))
     = [AuthGetUser].
Proof.
  destruct (C2_signed_out_remote_operations utc_host (remote_world None) (quiet_client None)
              march_filters ∅ (VStr "1707955200000") 0)
    as ((_ & Hnet & _) & _ & _ & _ & _ & Hdel & _); [reflexivity..|].
  split; [exact Hdel | exact Hnet].
Defined.

(** C2 as stated fails for the list operations: signed out in remote mode,
    [dbGetHoursLog] succeeds with the empty sequence instead of failing with
    the unauthenticated condition. *)
Lemma C2_counterexample :
  isDatabaseAvailable (remote_world None) = true
  /\ (exists c, supabaseClient (remote_world None) = Some c /\ auth_getUser c = None)
  /\ fst (dbGetHoursLog utc_host ∅ (remote_world None)) = Ok (VArr [])
  /\ fst (dbGetHoursLog utc_host ∅ (remote_world None)) <> Throw NotAuthenticated.
Proof.
  split; [reflexivity|]. split; [now exists (quiet_client None)|].
  split; [reflexivity | discriminate].
Qed.

(** ** Induction over values and the JSON round trip *)

Lemma depth_elem l x : x ∈ l -> (depth x < depth (VArr l))%nat.
Proof. cbn. induction 1; cbn; lia. Qed.

Lemma depth_field (m : obj) k x : m !! k = Some x -> (depth x < depth (VObj m))%nat.
Proof.
  cbn. induction m as [|i y m Hi Hfirst IH] using map_first_key_ind.
  - now rewrite lookup_empty.
  - rewrite map_fold_insert_first_key by assumption.
    intros Hl. destruct (decide (i = k)) as [->|Hne].
    + rewrite lookup_insert_eq in Hl. injection Hl as ->. lia.
    + rewrite lookup_insert_ne in Hl by assumption. specialize (IH Hl). lia.
Qed.

Lemma value_nested_ind (P : value -> Prop) :
  P VUndef -> P VNull -> (forall b, P (VBool b)) -> (forall n, P (VNum n)) -> P VNaN ->
  (forall s, P (VStr s)) ->
  (forall l, Forall P l -> P (VArr l)) ->
  (forall m : obj, map_Forall (fun _ => P) m -> P (VObj m)) ->
  forall v, P v.
Proof.
  intros Hu Hn Hb Hz Hnan Hs Ha Ho v.
  remember (depth v) as d eqn:Hd. revert v Hd.
  induction d as [d IH] using lt_wf_ind. intros v ->.
  destruct v; auto.
  - apply Ha, Forall_forall. intros x Hx. apply (IH (depth x)); [|reflexivity].
    now apply depth_elem.
  - apply Ho. intros k x Hk. apply (IH (depth x)); [|reflexivity].
    now apply (depth_field m k).
Qed.

Lemma json_roundtrip_arr l : json_roundtrip (VArr l) = VArr (map json_slot l).
Proof. reflexivity. Qed.

Lemma json_roundtrip_obj (m : obj) : json_roundtrip (VObj m) = VObj (omap json_field m).
Proof. reflexivity. Qed.

Lemma json_roundtrip_defined v : json_roundtrip v = VUndef -> v = VUndef.
Proof. destruct v; cbn; congruence. Qed.

Lemma json_field_defined x : x <> VUndef -> json_field x = Some (json_roundtrip x).
Proof. destruct x; intros H; try reflexivity. now destruct H. Qed.

Lemma json_slot_defined x : x <> VUndef -> json_slot x = json_roundtrip x.
Proof. destruct x; intros H; try reflexivity. now destruct H. Qed.

Lemma json_field_cases x :
  x = VUndef \/ (x <> VUndef /\ json_roundtrip x <> VUndef).
Proof.
  destruct x; [now left | right..]; (split; [discriminate|]);
    intros E; apply json_roundtrip_defined in E; discriminate.
Qed.

(** Serialising what was parsed gives the same value again. *)
Lemma json_roundtrip_idem v : json_roundtrip (json_roundtrip v) = json_roundtrip v.
Proof.
  induction v as [| | | | | |l IH|m IH] using value_nested_ind; try reflexivity.
  - rewrite !json_roundtrip_arr. f_equal. rewrite map_map.
    apply map_ext_Forall. eapply Forall_impl; [exact IH|].
    intros x Hx. cbn beta.
    destruct (json_field_cases x) as [->|[Hx1 Hx2]]; [reflexivity|].
    now rewrite (json_slot_defined x Hx1), (json_slot_defined _ Hx2).
  - rewrite !json_roundtrip_obj. f_equal. apply map_eq. intros k.
    rewrite !lookup_omap. destruct (m !! k) as [x|] eqn:Hk; [|reflexivity].
    specialize (IH k x Hk). cbn beta in IH.
    destruct (json_field_cases x) as [->|[Hx1 Hx2]]; [reflexivity|].
    cbn [mbind option_bind].
    rewrite (json_field_defined x Hx1). cbn [mbind option_bind].
    now rewrite (json_field_defined _ Hx2), IH.
Qed.

Lemma json_slot_idem x : json_slot (json_slot x) = json_slot x.
Proof.
  destruct (json_field_cases x) as [->|[Hx1 Hx2]]; [reflexivity|].
  now rewrite (json_slot_defined x Hx1), (json_slot_defined _ Hx2), json_roundtrip_idem.
Qed.

Lemma json_slot_obj (m : obj) : json_slot (VObj m) = json_roundtrip (VObj m).
Proof. reflexivity. Qed.

Lemma json_slot_roundtrip v : json_slot (json_roundtrip (VObj v)) = json_roundtrip (VObj v).
Proof. rewrite <- json_slot_obj. apply json_slot_idem. Qed.

(** A sequence that reads back unchanged does so slot by slot, and so does
    every selection from it. *)
Lemma json_clean_slots l : map json_slot l = l <-> Forall (fun x => json_slot x = x) l.
Proof.
  induction l as [|x l IH]; cbn.
  - split; [constructor | reflexivity].
  - split.
    + intros H. injection H as Hx Hl. constructor; [exact Hx | now apply IH].
    + intros H. inversion H; subst. f_equal; [assumption | now apply IH].
Qed.

Lemma json_clean_app l1 l2 :
  map json_slot l1 = l1 -> map json_slot l2 = l2 -> map json_slot (l1 ++ l2) = l1 ++ l2.
Proof. intros H1 H2. now rewrite map_app, H1, H2. Qed.

(** ** Demo sign-in *)

Lemma includes_char_In c s : includes_char c s = true <-> In c (list_ascii_of_string s).
Proof.
  induction s as [|a s IH]; cbn; [split; [discriminate | contradiction]|].
  destruct (Ascii.eqb_spec a c) as [->|Hne].
  - split; auto.
  - rewrite IH. split; [auto|]. intros [H|H]; [contradiction | exact H].
Qed.

(** Stripping white space leaves a suffix of the sequence. *)
Lemma strip_spaces_suffix backwards l : exists pre, l = pre ++ strip_spaces backwards l.
Proof.
  remember (length l) as n eqn:Hn.
  assert (Hle : (length l <= n)%nat) by lia. clear Hn. revert l Hle.
  induction n as [|n IH]; intros l Hle.
  - destruct l; [now exists [] | cbn in Hle; lia].
  - destruct l as [|c1 r1]; [now exists []|]. cbn [strip_spaces]. cbn in Hle.
    destruct (is_space c1).
    { destruct (IH r1 ltac:(lia)) as [pre Hpre]. exists (c1 :: pre). cbn. now f_equal. }
    destruct r1 as [|c2 r2]; [now exists []|]. cbn in Hle.
    destruct (if backwards then is_space2 c2 c1 else is_space2 c1 c2).
    { destruct (IH r2 ltac:(lia)) as [pre Hpre]. exists (c1 :: c2 :: pre). cbn.
      now do 2 f_equal. }
    destruct r2 as [|c3 r3]; [now exists []|]. cbn in Hle.
    destruct (if backwards then is_space3 c3 c2 c1 else is_space3 c1 c2 c3).
    { destruct (IH r3 ltac:(lia)) as [pre Hpre]. exists (c1 :: c2 :: c3 :: pre). cbn.
      now do 3 f_equal. }
    now exists [].
Qed.

Lemma strip_spaces_incl backwards l x : In x (strip_spaces backwards l) -> In x l.
Proof.
  intros H. destruct (strip_spaces_suffix backwards l) as [pre Hpre].
  rewrite Hpre. apply in_or_app. now right.
Qed.

(** What [trim] keeps was in the string. *)
Lemma includes_trim c s : includes_char c (trim s) = true -> includes_char c s = true.
Proof.
  rewrite !includes_char_In. unfold trim. rewrite list_ascii_of_string_of_list_ascii.
  intros H. apply in_rev in H. apply strip_spaces_incl in H. apply in_rev in H.
  now apply strip_spaces_incl in H.
Qed.

Lemma trim_nonempty s : String.eqb (trim s) "" = false -> String.eqb s "" = false.
Proof. destruct s; [cbn; auto | reflexivity]. Qed.

Lemma json_roundtrip_demoUser name email now :
  json_roundtrip (VObj (demoUser name email now)) = VObj (demoUser name email now).
Proof.
  unfold demoUser. cbn [json_roundtrip]. apply f_equal.
  repeat (erewrite omap_insert_Some by reflexivity). now rewrite omap_empty.
Qed.

(** The error paths leave everything but the alert and the focus alone. *)
Lemma showAuthError_focus_frame msg id w :
  let w' := showAuthError msg (focus_input id w) in
  authErrorAlert (dom w') = Some msg
  /\ localStorage w' = localStorage w
  /\ dispatched (dom w') = dispatched (dom w)
  /\ appState w' = appState w
  /\ network w' = network w.
Proof.
  unfold showAuthError, focus_input. destruct (demoLoginModal (dom w)); cbn; auto.
Qed.

Lemma handleAuthStateChange_signed_in u w :
  truthy u = true ->
  localStorage (handleAuthStateChange u w) = localStorage w
  /\ dispatched (dom (handleAuthStateChange u w)) = dispatched (dom w) ++ [userSignedIn u].
Proof.
  intros Hu. unfold handleAuthStateChange. rewrite Hu. cbn.
  destruct (appExported w); cbn; auto.
Qed.

(** [completeDemoLogin] spelled out on the two inputs of an open modal. *)
Lemma completeDemoLogin_inputs now w name email :
  demoLoginModal (dom w) = Some (name, email) ->
  completeDemoLogin now w
  = if String.eqb (trim name) "" then
      showAuthError "Please enter your name" (focus_input "demoName" w)
    else if String.eqb (trim email) "" then
      showAuthError "Please enter your email" (focus_input "demoEmail" w)
    else if negb (includes_char "@" (trim email)) then
      showAuthError "Please enter a valid email" (focus_input "demoEmail" w)
    else
      showAuthSuccess ("Welcome, " +:+ trim name +:+ "!")
        (closeDemoLogin
          (handleAuthStateChange (VObj (demoUser (trim name) (trim email) now))
            (setItem "volunteerConnectUser"
               (VObj (demoUser (trim name) (trim email) now)) w))).
Proof. intros Hm. unfold completeDemoLogin. rewrite Hm. reflexivity. Qed.

Lemma completeDemoLogin_no_modal now w :
  demoLoginModal (dom w) = None ->
  completeDemoLogin now w = showAuthError "Please enter your name" (focus_input "demoName" w).
Proof. intros Hm. unfold completeDemoLogin. rewrite Hm. reflexivity. Qed.



(** ** Letter templates *)

Lemma templates_nonempty ctx :
  String.eqb (AIAssistant.getApplicationTemplate ctx) "" = false
  /\ String.eqb (AIAssistant.getThankYouTemplate ctx) "" = false
  /\ String.eqb (AIAssistant.getOutreachTemplate ctx) "" = false
  /\ String.eqb (AIAssistant.getFollowUpTemplate ctx) "" = false.
Proof. repeat split; reflexivity. Qed.

(** The four known tags select their templates. *)
Lemma generateLetter_known_tags ctx :
  AIAssistant.generateLetter "application" ctx = Text (AIAssistant.getApplicationTemplate ctx)
  /\ AIAssistant.generateLetter "thankyou" ctx = Text (AIAssistant.getThankYouTemplate ctx)
  /\ AIAssistant.generateLetter "outreach" ctx = Text (AIAssistant.getOutreachTemplate ctx)
  /\ AIAssistant.generateLetter "followup" ctx = Text (AIAssistant.getFollowUpTemplate ctx).
Proof. repeat split; reflexivity. Qed.

(** A tag that is neither a template name nor a member of
    [Object.prototype] falls back to the application template. *)
Lemma generateLetter_unknown_tag type ctx :
  type ∉ ["application"; "thankyou"; "outreach"; "followup"] ->
  type ∉ Object_prototype_members ->
  AIAssistant.generateLetter type ctx = Text (AIAssistant.getApplicationTemplate ctx).
Proof.
  intros Hk Hp. unfold AIAssistant.generateLetter.
  rewrite !lookup_insert_ne, lookup_empty by (intros <-; apply Hk; set_solver).
  now rewrite bool_decide_eq_false_2.
Qed.

(** C10 fails at every tag that names a member of [Object.prototype], such
    as ["constructor"]: the lookup [templates[type]] finds the inherited
    member, which is truthy, so the promise resolves to that member and not
    to the application template. *)
Theorem C10_generateLetter_inherited_member (ctx : obj) :
  (forall type, type ∈ Object_prototype_members ->
     AIAssistant.generateLetter type ctx = Inherited type)
  /\ AIAssistant.generateLetter "constructor" ctx = Inherited "constructor"
  /\ AIAssistant.generateLetter "constructor" ctx
     <> Text (AIAssistant.getApplicationTemplate ctx).
Proof.
  split; [|split; [reflexivity | discriminate]].
  intros type Hin. unfold Object_prototype_members in Hin.
  repeat (apply elem_of_cons in Hin as [->|Hin]; [reflexivity|]).
  now apply elem_of_nil in Hin.
Qed.

(** ** Opportunities *)

Lemma opportunities_query_active filters :
  q_table (opportunities_query filters) = "opportunities"
  /\ q_verb (opportunities_query filters) = Select
  /\ EqTo "is_active" (VBool true) ∈ q_mods (opportunities_query filters).
Proof. repeat split. cbn. set_solver. Qed.

Lemma opportunities_query_filters filters :
  (truthy (get filters "causeArea") = true ->
     Contains "cause_areas" [get filters "causeArea"] ∈ q_mods (opportunities_query filters))
  /\ (strict_eq (get filters "isVirtual") VUndef = false ->
     EqTo "is_virtual" (get filters "isVirtual") ∈ q_mods (opportunities_query filters))
  /\ (truthy (get filters "limit") = true ->
     Limit (get filters "limit") ∈ q_mods (opportunities_query filters)).
Proof.
  unfold opportunities_query. cbn [q_mods].
  repeat split; intros ->; cbn [negb]; set_solver.
Qed.

Lemma static_opportunities_reads w :
  reads_bundled_file (staticSnapshot w) w (static_opportunities w).
Proof.
  unfold static_opportunities, reads_bundled_file, snapshot_opportunities, js_or.
  cbn [fst snd]. split; [reflexivity|].
  split; [intros d -> Ht; cbn [prop]; now rewrite Ht|].
  split; [intros d -> Ht; cbn [prop]; now rewrite Ht|].
  split; [|now intros ->].
  intros v -> Hv. destruct v as [| | | | | | |d]; try reflexivity.
  now destruct (Hv d).
Qed.



(** ** Hours totals *)

(** The data layer's local insert leaves [AppState] alone, so
    [getTotalHours], which reads [AppState.hours] only, does not see it. *)
Lemma local_insert_app key row t_id t_created w :
  appState (snd (local_insert key row t_id t_created w)) = appState w.
Proof. unfold local_insert. now destruct (as_array _). Qed.

Lemma getTotalHours_after_local_add h period t entry t_id t_created w :
  isDatabaseAvailable w = false ->
  HoursTracker.getTotalHours h period t (snd (dbAddHoursEntry entry t_id t_created w))
  = HoursTracker.getTotalHours h period t w.
Proof.
  intros Ha. unfold dbAddHoursEntry. rewrite (remote_unavailable w Ha).
  unfold HoursTracker.getTotalHours. now rewrite local_insert_app.
Qed.

(** C4, as the code has it: with no hours in the application state, logging
    the README entry through [HoursTracker.logHours] makes
    [getTotalHours('all')] return 4, in either mode and for every id and
    clock reading. *)
Theorem C4_logged_hours_total (h : Host) (w : World) (gid : string) (now t : Z) :
  hours (appState w) = [] ->
  HoursTracker.getTotalHours h "all" t (snd (HoursTracker.logHours food_bank gid now w))
  = Ok (VNum 4).
Proof.
  intros Hempty. unfold HoursTracker.getTotalHours, HoursTracker.logHours.
  cbn [snd String.eqb Ascii.eqb Bool.eqb negb].
  unfold saveAppState, setItem, set_localStorage, set_app, set_hours.
  cbn [appState hours]. rewrite Hempty. cbn [appState mbind result_bind sum_hours prop].
  assert (Hh : forall m : obj, get (<["verified" := VBool false]>
              (<["logged" := VStr (iso_string now)]> (food_bank ∪ m))) "hours" = VNum 4).
  { intros m. unfold get. rewrite !lookup_insert_ne by discriminate.
    now rewrite (lookup_union_Some_l _ _ _ (VNum 4)). }
  rewrite app_nil_l. cbn [sum_hours prop mbind result_bind]. rewrite Hh. reflexivity.
Qed.

Lemma C4_witness :
  HoursTracker.getTotalHours utc_host "all" 1707955200000
    (snd (HoursTracker.logHours food_bank "lsn1x2k0abc" 1707955200000 local_world))
  = Ok (VNum 4).
Proof. apply (C4_logged_hours_total utc_host local_world). reflexivity. Defined.

(** C4 as stated fails when the entry is inserted through the data layer: in
    local mode with nothing stored, [dbAddHoursEntry] appends the row to
    [volunteerHoursLog], and [getTotalHours('all')] still returns 0. *)
Lemma C4_counterexample :
  isDatabaseAvailable local_world = false
  /\ localStorage local_world = ∅
  /\ hours (appState local_world) = []
  /\ (exists row,
        fst (dbGetHoursLog utc_host ∅
               (snd (dbAddHoursEntry food_bank 1707955200000 1707955200000 local_world)))
        = Ok (VArr [VObj row]) /\ row !! "hours" = Some (VNum 4))
  /\ HoursTracker.getTotalHours utc_host "all" 1707955200000
       (snd (dbAddHoursEntry food_bank 1707955200000 1707955200000 local_world))
     = Ok (VNum 0).
Proof.
  repeat split.
  eexists. split; [vm_compute; reflexivity | reflexivity].
Qed.

(** ** The local hours log *)

Lemma stored_lookup key fallback w v :
  localStorage w !! key = Some v -> stored key fallback w = v.
Proof. intros H. unfold stored. now rewrite H. Qed.

Lemma stored_setItem key fallback v w :
  stored key fallback (setItem key v w) = json_roundtrip v.
Proof. unfold stored, setItem, set_localStorage. cbn. now rewrite lookup_insert_eq. Qed.

Lemma getHoursLog_unfiltered h w :
  isDatabaseAvailable w = false ->
  dbGetHoursLog h ∅ w = (Ok (stored "volunteerHoursLog" (VArr []) w), w).
Proof.
  intros Ha. unfold dbGetHoursLog. now rewrite (remote_unavailable w Ha).
Qed.

(** On rows that are objects the delete callback reads each row's [id]
    without throwing, and [filter] keeps the rows it accepts, in order. *)
Lemma filter_rows_by_id id (rows : list obj) :
  filter_rows (fun r => i ← prop r "id"; Ok (negb (strict_eq i id))) (VObj <$> rows)
  = Ok (VObj <$> List.filter (fun r => negb (strict_eq (get r "id") id)) rows).
Proof.
  induction rows as [|r rows IH]; [reflexivity|].
  cbn [fmap list_fmap filter_rows List.filter prop mbind result_bind].
  change (list_fmap obj value VObj rows) with (VObj <$> rows). rewrite IH.
  cbn [mbind result_bind]. now destruct (negb _).
Qed.

Lemma filter_keeps_all {A} (p : A -> bool) l :
  (forall x, In x l -> p x = true) -> List.filter p l = l.
Proof.
  induction l as [|x l IH]; cbn; [reflexivity|]. intros H.
  rewrite (H x) by now left. f_equal. apply IH. intros y Hy. apply H. now right.
Qed.

Lemma json_clean_filter (p : obj -> bool) rows :
  json_roundtrip (VArr (VObj <$> rows)) = VArr (VObj <$> rows) ->
  json_roundtrip (VArr (VObj <$> List.filter p rows)) = VArr (VObj <$> List.filter p rows).
Proof.
  rewrite !json_roundtrip_arr. intros H. injection H as H. f_equal.
  apply json_clean_slots in H. apply json_clean_slots.
  induction rows as [|r rows IH]; cbn; [constructor|].
  cbn in H. inversion H as [|? ? Hr Hrows]; subst.
  destruct (p r); cbn; [constructor|]; auto.
Qed.

(** C6: in local mode, deleting id [i] from a stored log of rows succeeds,
    and the log then lists exactly the rows whose [id] is not strictly equal
    to [i], in their order and unchanged; when no row has that id the storage
    is left as it was. *)
Theorem C6_local_delete_is_precise (h : Host) (w : World) (rows : list obj) (i : value) :
  isDatabaseAvailable w = false ->
  localStorage w !! "volunteerHoursLog" = Some (VArr (VObj <$> rows)) ->
  json_roundtrip (VArr (VObj <$> rows)) = VArr (VObj <$> rows) ->
  fst (dbDeleteHoursEntry i w) = Ok tt
  /\ fst (dbGetHoursLog h ∅ (snd (dbDeleteHoursEntry i w)))
     = Ok (VArr (VObj <$> List.filter (fun r => negb (strict_eq (get r "id") i)) rows))
  /\ ((forall r, In r rows -> strict_eq (get r "id") i = false) ->
      localStorage (snd (dbDeleteHoursEntry i w)) = localStorage w).
Proof.
  intros Ha Hlog Hclean.
  assert (Hdel : dbDeleteHoursEntry i w
                 = (Ok tt, setItem "volunteerHoursLog"
                      (VArr (VObj <$> List.filter (fun r => negb (strict_eq (get r "id") i)) rows))
                      w)).
  { unfold dbDeleteHoursEntry. rewrite (remote_unavailable w Ha). unfold local_delete.
    rewrite (stored_lookup _ _ _ _ Hlog). cbn [as_array mbind result_bind].
    now rewrite filter_rows_by_id. }
  rewrite Hdel. cbn [fst snd]. split; [reflexivity|]. split.
  - rewrite getHoursLog_unfiltered by exact Ha.
    cbn [fst]. now rewrite stored_setItem, json_clean_filter.
  - intros Hnone. unfold setItem, set_localStorage. cbn [localStorage].
    rewrite filter_keeps_all by (intros r Hr; now rewrite (Hnone r Hr)).
    rewrite Hclean. now apply insert_id.
Qed.

Lemma C6_witness :
  fst (dbGetHoursLog utc_host ∅
         (snd (dbDeleteHoursEntry (VStr "1707955200000") two_rows_world)))
  = Ok (VArr [VObj (stamp_row soup_kitchen 1709337600000 1709337600000)]).
Proof.
  destruct (C6_local_delete_is_precise utc_host two_rows_world two_rows
              (VStr "1707955200000")) as (_ & Hlist & _);
    [reflexivity | reflexivity | vm_compute; reflexivity |].
  rewrite Hlist. reflexivity.
Defined.

(** *** Sessions *)

Lemma handleAuthStateChange_frame u w :
  localStorage (handleAuthStateChange u w) = localStorage w
  /\ isDatabaseAvailable (handleAuthStateChange u w) = isDatabaseAvailable w.
Proof.
  unfold handleAuthStateChange.
  destruct (truthy u); cbn; destruct (appExported w); split; reflexivity.
Qed.

Lemma local_add_hours entry t_id t_created w l :
  isDatabaseAvailable w = false ->
  stored "volunteerHoursLog" (VArr []) w = VArr l ->
  map json_slot l = l ->
  fst (dbAddHoursEntry entry t_id t_created w) = Ok (VObj (stamp_row entry t_id t_created))
  /\ stored "volunteerHoursLog" (VArr []) (snd (dbAddHoursEntry entry t_id t_created w))
     = VArr (l ++ [json_roundtrip (VObj (stamp_row entry t_id t_created))])
  /\ isDatabaseAvailable (snd (dbAddHoursEntry entry t_id t_created w)) = false.
Proof.
  intros Ha Hl Hclean. unfold dbAddHoursEntry. rewrite (remote_unavailable w Ha).
  unfold local_insert. rewrite Hl. cbn [as_array fst snd].
  split; [reflexivity|]. split; [|exact Ha].
  rewrite stored_setItem, json_roundtrip_arr, map_app, Hclean. reflexivity.
Qed.

(** Signing in and out, by any of the entry points, touches neither the
    mode nor the stored hours log. *)
Lemma step_preserves_log s w :
  isDatabaseAvailable w = false ->
  (forall entry t_id t_created, s <> StepAddHours entry t_id t_created) ->
  localStorage (run_step s w) !! "volunteerHoursLog" = localStorage w !! "volunteerHoursLog"
  /\ isDatabaseAvailable (run_step s w) = false.
Proof.
  intros Ha Hs. pose proof (remote_unavailable w Ha) as Hr.
  destruct s as [e a b| | |name email|now| | |]; cbn [run_step].
  - now destruct (Hs e a b).
  - unfold signInWithGoogle. destruct (firebaseAuth w); split; auto.
  - unfold dbSignInWithGoogle. rewrite Hr. split; auto.
  - unfold typeDemoInputs. destruct (demoLoginModal (dom w)); split; auto.
  - destruct (demoLoginModal (dom w)) as [[name email]|] eqn:Hm.
    + rewrite (completeDemoLogin_inputs now w name email Hm).
      assert (Herr : forall msg id,
                localStorage (showAuthError msg (focus_input id w)) !! "volunteerHoursLog"
                = localStorage w !! "volunteerHoursLog"
                /\ isDatabaseAvailable (showAuthError msg (focus_input id w)) = false).
      { intros msg id. unfold showAuthError, focus_input. rewrite Hm. split; auto. }
      destruct (String.eqb (trim name) ""); [apply Herr|].
      destruct (String.eqb (trim email) ""); [apply Herr|].
      destruct (negb (includes_char "@" (trim email))); [apply Herr|].
      set (u := VObj (demoUser (trim name) (trim email) now)).
      destruct (handleAuthStateChange_frame u (setItem "volunteerConnectUser" u w))
        as [Hls Hav].
      unfold showAuthSuccess, closeDemoLogin, set_dom, isDatabaseAvailable in *.
      cbn [localStorage dbInitialized supabaseClient] in *. rewrite Hls, Hav.
      split; [|exact Ha].
      unfold setItem, set_localStorage. cbn [localStorage].
      now rewrite lookup_insert_ne.
    + rewrite (completeDemoLogin_no_modal now w Hm).
      unfold showAuthError, focus_input. rewrite Hm. split; auto.
  - split; auto.
  - unfold signOut. destruct (firebaseAuth w); [split; auto|].
    destruct (handleAuthStateChange_frame VNull (removeItem "volunteerConnectUser" w))
      as [Hls Hav].
    rewrite Hls, Hav. split; [|exact Ha].
    unfold removeItem, set_localStorage. cbn [localStorage].
    now rewrite lookup_delete_ne.
  - unfold dbSignOut. rewrite Hr. cbn [snd].
    destruct (handleAuthStateChange_frame VNull
                (removeItem "volunteerProfile" (removeItem "volunteerConnectUser" w)))
      as [Hls Hav].
    rewrite Hls, Hav. split; [|exact Ha].
    unfold removeItem, set_localStorage. cbn [localStorage].
    now rewrite !lookup_delete_ne.
Qed.

Lemma session_log steps : forall w l,
  isDatabaseAvailable w = false ->
  stored "volunteerHoursLog" (VArr []) w = VArr l ->
  map json_slot l = l ->
  stored "volunteerHoursLog" (VArr []) (run_session steps w) = VArr (l ++ logged_rows steps)
  /\ isDatabaseAvailable (run_session steps w) = false.
Proof.
  induction steps as [|s steps IH]; intros w l Ha Hl Hclean.
  - cbn. now rewrite app_nil_r.
  - change (run_session (s :: steps) w) with (run_session steps (run_step s w)).
    assert (Hother : (forall e a b, s <> StepAddHours e a b) ->
              logged_rows (s :: steps) = logged_rows steps ->
              stored "volunteerHoursLog" (VArr []) (run_session steps (run_step s w))
              = VArr (l ++ logged_rows (s :: steps))
              /\ isDatabaseAvailable (run_session steps (run_step s w)) = false).
    { intros Hs ->. destruct (step_preserves_log s w Ha Hs) as [Hlog Hav].
      apply IH; [exact Hav | unfold stored in *; now rewrite Hlog | exact Hclean]. }
    destruct s as [e a b| | |name email|now| | |];
      try (apply Hother; [discriminate | reflexivity]).
    cbn [run_step logged_rows].
    destruct (local_add_hours e a b w l Ha Hl Hclean) as (_ & Hlog & Hav).
    assert (Hclean' : map json_slot (l ++ [json_roundtrip (VObj (stamp_row e a b))])
                      = l ++ [json_roundtrip (VObj (stamp_row e a b))]).
    { apply json_clean_app; [exact Hclean|]. cbn [map]. now rewrite json_slot_roundtrip. }
    destruct (IH _ _ Hav Hlog Hclean') as [Hfinal Hav'].
    split; [|exact Hav']. now rewrite Hfinal, <- app_assoc.
Qed.

Lemma logged_rows_length steps : length (logged_rows steps) = count_inserts steps.
Proof.
  induction steps as [|s steps IH]; [reflexivity|].
  destruct s; cbn; now rewrite ?IH.
Qed.

(** C5, as the code has it: in local mode, starting with no stored hours
    log, after any interleaving of hours inserts with sign-ins and sign-outs
    the listing returns the inserted rows, in order and nothing else: as many
    rows as there were inserts.  Who was signed in plays no part: two
    sessions with the same inserts list the same rows. *)
Theorem C5_local_log_lists_every_insert (h : Host) (w : World) (steps : list session_step) :
  isDatabaseAvailable w = false ->
  localStorage w !! "volunteerHoursLog" = None ->
  fst (dbGetHoursLog h ∅ (run_session steps w)) = Ok (VArr (logged_rows steps))
  /\ length (logged_rows steps) = count_inserts steps
  /\ (forall others,
        logged_rows others = logged_rows steps ->
        fst (dbGetHoursLog h ∅ (run_session others w))
        = fst (dbGetHoursLog h ∅ (run_session steps w))).
Proof.
  intros Ha Hnone.
  assert (Hlist : forall l,
            fst (dbGetHoursLog h ∅ (run_session l w)) = Ok (VArr (logged_rows l))).
  { intros l. destruct (session_log l w [] Ha) as [Hlog Hav].
    { unfold stored. now rewrite Hnone. }
    { reflexivity. }
    rewrite (getHoursLog_unfiltered h _ Hav). cbn [fst]. now rewrite Hlog. }
  split; [apply Hlist|]. split; [apply logged_rows_length|].
  intros others Hsame. now rewrite !Hlist, Hsame.
Qed.

Lemma C5_witness :
  fst (dbGetHoursLog utc_host ∅ (run_session two_visitors local_world))
  = Ok (VArr (logged_rows two_visitors))
  /\ length (logged_rows two_visitors) = 2%nat.
Proof.
  destruct (C5_local_log_lists_every_insert utc_host local_world two_visitors)
    as (Hlist & Hlen & _); [reflexivity | reflexivity |].
  split; [exact Hlist | exact Hlen].
Defined.

(** C5 as stated fails in its last clause: the row Jane logged is listed to
    Bob, who signs in on the same browser after her and has logged nothing. *)
Lemma C5_counterexample :
  fst (dbGetCurrentUser (run_session jane_logs local_world))
  = Ok (VObj (demoUser "Jane" "jane@x.com" 1707955100000))
  /\ fst (dbGetCurrentUser (run_session (jane_logs ++ bob_arrives) local_world))
     = Ok (VObj (demoUser "Bob" "bob@x.com" 1709337500000))
  /\ count_inserts bob_arrives = 0%nat
  /\ fst (dbGetHoursLog utc_host ∅ (run_session (jane_logs ++ bob_arrives) local_world))
     = Ok (VArr [VObj (stored_food_bank_row)]).
Proof. repeat split; vm_compute; reflexivity. Qed.

(** ** Calendar export *)

Lemma string_app_cons x (a b : string) : String x a +:+ b = String x (a +:+ b).
Proof. reflexivity. Qed.

Lemma string_app_nil_l (a : string) : "" +:+ a = a.
Proof. reflexivity. Qed.

Lemma string_app_assoc (a b c : string) : (a +:+ b) +:+ c = a +:+ b +:+ c.
Proof.
  induction a as [|x a IH]; [reflexivity|]. now rewrite !string_app_cons, IH.
Qed.

Lemma string_app_nil_r (a : string) : a +:+ "" = a.
Proof.
  induction a as [|x a IH]; [reflexivity|]. now rewrite string_app_cons, IH.
Qed.

Lemma list_ascii_app (a b : string) :
  list_ascii_of_string (a +:+ b) = list_ascii_of_string a ++ list_ascii_of_string b.
Proof.
  induction a as [|x a IH]; [reflexivity|].
  rewrite string_app_cons. cbn [list_ascii_of_string]. now rewrite IH.
Qed.

Lemma string_app_inv_tail (a b c : string) : a +:+ c = b +:+ c -> a = b.
Proof.
  intros H. apply (f_equal list_ascii_of_string) in H.
  rewrite !list_ascii_app in H. apply app_inv_tail in H.
  apply (f_equal string_of_list_ascii) in H.
  now rewrite !string_of_list_ascii_of_string in H.
Qed.

Lemma digit_char_is_digit n : is_digit (digit_char n) = true.
Proof.
  unfold digit_char. pose proof (Z.mod_pos_bound n 10 ltac:(lia)) as Hb.
  assert (Hk : exists k, (k < 10)%nat /\ Z.to_nat (n mod 10) = k)
    by (exists (Z.to_nat (n mod 10)); split; [lia | reflexivity]).
  destruct Hk as (k & Hk & ->).
  do 10 (destruct k as [|k]; [reflexivity|]). lia.
Qed.

Lemma is_digit_plain c :
  is_digit c = true ->
  Ascii.eqb c "-" || Ascii.eqb c ":" = false /\ Ascii.eqb c "." = false.
Proof.
  destruct c as [[] [] [] [] [] [] [] []]; cbn; intros H; try discriminate H;
    split; reflexivity.
Qed.

(** A string made of digits passes through the two rewriting steps of
    [formatDateForICS] unchanged. *)
Lemma strip_app (a b : string) :
  strip_dash_colon (a +:+ b) = strip_dash_colon a +:+ strip_dash_colon b.
Proof.
  induction a as [|x a IH]; [reflexivity|].
  rewrite string_app_cons. cbn [strip_dash_colon].
  destruct (Ascii.eqb x "-" || Ascii.eqb x ":"); rewrite IH; reflexivity.
Qed.

Lemma strip_digits k n : strip_dash_colon (digits k n) = digits k n.
Proof.
  revert n. induction k as [|k IH]; intros n; [reflexivity|].
  cbn [digits]. rewrite strip_app, IH. cbn [strip_dash_colon].
  now rewrite (proj1 (is_digit_plain _ (digit_char_is_digit n))).
Qed.

Lemma before_dot_digits k n rest :
  before_char "." (digits k n +:+ rest) = digits k n +:+ before_char "." rest.
Proof.
  revert n rest. induction k as [|k IH]; intros n rest; [reflexivity|].
  cbn [digits]. rewrite !string_app_assoc, IH. f_equal.
  rewrite string_app_cons, string_app_nil_l. cbn [before_char].
  now rewrite (proj2 (is_digit_plain _ (digit_char_is_digit n))).
Qed.

Lemma year_string_four y : 0 <= y <= 9999 -> year_string y = digits 4 y.
Proof.
  intros [H0 H1]. unfold year_string.
  now rewrite (proj2 (Z.leb_le 0 y) H0), (proj2 (Z.leb_le y 9999) H1).
Qed.

Lemma formatDateForICS_valid h date t :
  new_Date h date = Some t -> 0 <= YearFromTime t <= 9999 ->
  formatDateForICS h date = Ok (ics_stamp t).
Proof.
  intros Hd Hy. unfold formatDateForICS. rewrite Hd.
  cbn [toISOString mbind result_bind]. f_equal.
  unfold iso_string, ics_stamp, YearFromTime in *.
  destruct (civil_from_days (t / msPerDay)) as [[y m] d]. cbn [fst] in Hy.
  rewrite (year_string_four y Hy).
  rewrite !strip_app, !strip_digits.
  change (strip_dash_colon "-") with "".
  change (strip_dash_colon ":") with "".
  change (strip_dash_colon "T") with "T".
  change (strip_dash_colon ".") with ".".
  change (strip_dash_colon "Z") with "Z".
  rewrite !string_app_nil_l.
  assert (HT : forall rest, before_char "." ("T" +:+ rest) = "T" +:+ before_char "." rest)
    by reflexivity.
  assert (Hdot : forall rest, before_char "." ("." +:+ rest) = "") by reflexivity.
  rewrite !before_dot_digits, HT, !before_dot_digits, Hdot.
  now rewrite !string_app_nil_r.
Qed.

Lemma ics_stamp_form t : ics_utc_form (ics_stamp t) = true.
Proof.
  unfold ics_stamp. destruct (civil_from_days (t / msPerDay)) as [[y m] d].
  cbv beta iota zeta delta [ics_utc_form digits String.append list_ascii_of_string forallb].
  now rewrite !digit_char_is_digit.
Qed.

Lemma uid_line_inj e1 e2 :
  uid_line e1 = uid_line e2 -> ToString (get e1 "id") = ToString (get e2 "id").
Proof.
  unfold uid_line. intros H. apply String.app_inj in H.
  now apply string_app_inv_tail in H.
Qed.

Lemma vevent_valid h (e : obj) t :
  new_Date h (get e "date") = Some t -> 0 <= YearFromTime t <= 9999 ->
  vevent h (VObj e) = Ok (event_block e t).
Proof.
  intros Hd Hy. unfold vevent. cbn [prop mbind result_bind].
  rewrite (formatDateForICS_valid h _ t Hd Hy). cbn [mbind result_bind].
  unfold event_block, uid_line. now rewrite !string_app_assoc.
Qed.

(** [addEvent] puts the new item at the end of the schedule, so the order of
    the schedule is the order of insertion. *)
Lemma addEvent_appends h event gid now w :
  exists item : obj,
    schedule (appState (snd (ScheduleManager.addEvent h event gid now w)))
    = schedule (appState w) ++ [VObj item]
    /\ forall k, k <> "reminders" -> item !! k = new_scheduleItem event gid now !! k.
Proof.
  unfold ScheduleManager.addEvent.
  destruct (truthy (get event "sendReminders")).
  - destruct (toISOString _) as [at_|e].
    + eexists. split.
      * cbn [snd]. unfold saveAppState, setItem, set_localStorage, set_app, set_schedule.
        cbn [appState schedule]. now rewrite removelast_last.
      * intros k Hk. now rewrite lookup_insert_ne by congruence.
    + exists (new_scheduleItem event gid now). split; [reflexivity | auto].
  - exists (new_scheduleItem event gid now). split; [reflexivity | auto].
Qed.

Lemma vevent_obj_cases h (e : obj) :
  (event_time h e = None /\ vevent h (VObj e) = Throw RangeError)
  \/ (exists t b, event_time h e = Some t /\ vevent h (VObj e) = Ok b).
Proof.
  unfold event_time, vevent, formatDateForICS. cbn [prop mbind result_bind].
  destruct (new_Date h (get e "date")) as [t|]; [right | left; now split].
  cbn [toISOString mbind result_bind]. eauto.
Qed.

Lemma append_events_invalid h evs : forall ics,
  Exists (fun e => event_time h e = None) evs ->
  append_events h ics (VObj <$> evs) = Throw RangeError.
Proof.
  induction evs as [|e evs IH]; intros ics Hex; [inversion Hex|].
  cbn [fmap list_fmap append_events].
  destruct (vevent_obj_cases h e) as [[_ ->]|(t & b & Ht & ->)]; [reflexivity|].
  cbn [mbind result_bind]. apply IH.
  inversion Hex as [? ? Hnone|? ? Hlater]; subst; [congruence | exact Hlater].
Qed.

(** *** The lines of the exported text *)

Lemma includes_char_app c (a b : string) :
  includes_char c (a +:+ b) = includes_char c a || includes_char c b.
Proof.
  induction a as [|x a IH]; [reflexivity|].
  rewrite string_app_cons. cbn [includes_char]. now destruct (Ascii.eqb x c).
Qed.

Lemma line_feed_free s :
  line_break_free s = true -> includes_char (ascii_of_nat 10) s = false.
Proof.
  unfold line_break_free. intros H. apply andb_true_iff in H as [H _].
  now apply negb_true_iff in H.
Qed.

Lemma digits_line_feed_free k n : includes_char (ascii_of_nat 10) (digits k n) = false.
Proof.
  revert n. induction k as [|k IH]; intros n; [reflexivity|].
  cbn [digits]. rewrite includes_char_app, IH. cbn [orb includes_char].
  pose proof (digit_char_is_digit n) as Hd.
  destruct (digit_char n) as [[] [] [] [] [] [] [] []]; cbn in Hd; try discriminate Hd;
    reflexivity.
Qed.

Lemma ics_stamp_line_feed_free t : includes_char (ascii_of_nat 10) (ics_stamp t) = false.
Proof.
  unfold ics_stamp. destruct (civil_from_days (t / msPerDay)) as [[y m] d].
  rewrite !includes_char_app, !digits_line_feed_free. reflexivity.
Qed.

(** A line followed by a line feed is the first line of the text. *)
Lemma split_lines_cons (a rest : string) :
  includes_char (ascii_of_nat 10) a = false ->
  split_lines (a +:+ nl +:+ rest) = a :: split_lines rest.
Proof.
  induction a as [|x a IH]; intros Ha.
  - reflexivity.
  - cbn [includes_char] in Ha. rewrite string_app_cons. cbn [split_lines].
    destruct (Ascii.eqb x (ascii_of_nat 10)); [discriminate Ha|].
    now rewrite (IH Ha).
Qed.

Lemma split_lines_last (a : string) :
  includes_char (ascii_of_nat 10) a = false -> split_lines a = [a].
Proof.
  induction a as [|x a IH]; intros Ha; [reflexivity|].
  cbn [includes_char] in Ha. cbn [split_lines].
  destruct (Ascii.eqb x (ascii_of_nat 10)); [discriminate Ha|].
  now rewrite (IH Ha).
Qed.

Lemma block_lines_free e t :
  plain_fields e ->
  Forall (fun l => includes_char (ascii_of_nat 10) l = false) (block_lines e t).
Proof.
  intros (Hid & Htitle & Hdesc & Hloc). unfold block_lines, uid_line.
  repeat constructor; rewrite ?includes_char_app, ?ics_stamp_line_feed_free,
    ?(line_feed_free _ Hid), ?(line_feed_free _ Htitle), ?(line_feed_free _ Hdesc),
    ?(line_feed_free _ Hloc); reflexivity.
Qed.

(** The text of a block, line by line. *)
Lemma split_lines_block e t rest :
  plain_fields e ->
  split_lines (event_block e t +:+ rest) = block_lines e t ++ split_lines rest.
Proof.
  intros Hplain. pose proof (block_lines_free e t Hplain) as Hfree.
  unfold block_lines in Hfree.
  repeat match goal with
         | H : Forall _ (_ :: _) |- _ =>
             let Hl := fresh "Hl" in
             apply Forall_cons in H as [Hl H]
         end.
  unfold event_block.
  assert (Hline : forall a b c d, a +:+ b +:+ nl +:+ c +:+ d = (a +:+ b) +:+ nl +:+ c +:+ d)
    by (intros; now rewrite !string_app_assoc).
  rewrite !string_app_assoc.
  rewrite split_lines_cons by assumption.
  rewrite split_lines_cons by assumption.
  rewrite (Hline "DTSTART:"), split_lines_cons by assumption.
  rewrite (Hline "SUMMARY:"), split_lines_cons by assumption.
  rewrite (Hline "DESCRIPTION:"), split_lines_cons by assumption.
  rewrite (Hline "LOCATION:"), split_lines_cons by assumption.
  rewrite split_lines_cons by assumption.
  reflexivity.
Qed.

Lemma split_lines_export e1 t1 e2 t2 :
  plain_fields e1 -> plain_fields e2 ->
  split_lines (ics_header +:+ event_block e1 t1 +:+ event_block e2 t2 +:+ "END:VCALENDAR")
  = header_lines ++ block_lines e1 t1 ++ block_lines e2 t2 ++ ["END:VCALENDAR"].
Proof.
  intros H1 H2. unfold ics_header. rewrite !string_app_assoc.
  rewrite !split_lines_cons by reflexivity.
  rewrite (split_lines_block e1 t1 _ H1), (split_lines_block e2 t2 _ H2).
  reflexivity.
Qed.




(** ** Timestamps sort like the instants they render *)

Lemma yoe_range doe : 0 <= doe < 146097 -> 0 <= yoe_of doe <= 399.
Proof. intros H. unfold yoe_of. Z.to_euclidean_division_equations. lia. Qed.

Lemma doy_range doe : 0 <= doe < 146097 -> 0 <= doy_of doe <= 365.
Proof. intros H. unfold doy_of, yoe_of. Z.to_euclidean_division_equations. lia. Qed.

Lemma mp_range doy : 0 <= doy <= 365 -> 0 <= mp_of doy <= 11.
Proof. intros H. unfold mp_of. Z.to_euclidean_division_equations. lia. Qed.

Lemma dom_range doy : 0 <= doy <= 365 -> 1 <= dom_of doy <= 31.
Proof. intros H. unfold dom_of, mp_of. Z.to_euclidean_division_equations. lia. Qed.

Lemma yoe_mono a b : 0 <= a <= b -> b < 146097 -> yoe_of a <= yoe_of b.
Proof. intros H1 H2. unfold yoe_of. Z.to_euclidean_division_equations. lia. Qed.

Lemma mp_mono a b : a <= b -> mp_of a <= mp_of b.
Proof. intros H. unfold mp_of. Z.to_euclidean_division_equations. lia. Qed.

Lemma doe_range z : 0 <= doe_of z < 146097.
Proof. unfold doe_of, era_of. Z.to_euclidean_division_equations. lia. Qed.

Lemma civil_unfold z :
  civil_from_days z =
  (yoe_of (doe_of z) + era_of z * 400
     + (if (if mp_of (doy_of (doe_of z)) <? 10 then mp_of (doy_of (doe_of z)) + 3
            else mp_of (doy_of (doe_of z)) - 9) <=? 2 then 1 else 0),
   (if mp_of (doy_of (doe_of z)) <? 10 then mp_of (doy_of (doe_of z)) + 3
    else mp_of (doy_of (doe_of z)) - 9),
   dom_of (doy_of (doe_of z))).
Proof. reflexivity. Qed.

Lemma civil_month_day_range z y m d :
  civil_from_days z = (y, m, d) -> 1 <= m <= 12 /\ 1 <= d <= 31.
Proof.
  rewrite civil_unfold. intros [= _ <- <-].
  pose proof (doy_range _ (doe_range z)) as Hdy.
  pose proof (mp_range _ Hdy). pose proof (dom_range _ Hdy).
  destruct (Z.ltb_spec (mp_of (doy_of (doe_of z))) 10); lia.
Qed.

(** A later day has a later date. *)
Lemma civil_from_days_mono z0 z1 y0 m0 d0 y1 m1 d1 :
  z0 < z1 ->
  civil_from_days z0 = (y0, m0, d0) -> civil_from_days z1 = (y1, m1, d1) ->
  lex_lt [y0; m0; d0] [y1; m1; d1].
Proof.
  intros Hz. rewrite !civil_unfold. intros [= <- <- <-] [= <- <- <-]. cbn [lex_lt].
  pose proof (doe_range z0) as Hd0. pose proof (doe_range z1) as Hd1.
  pose proof (yoe_range _ Hd0) as Hy0. pose proof (yoe_range _ Hd1) as Hy1.
  pose proof (doy_range _ Hd0) as Hdy0. pose proof (doy_range _ Hd1) as Hdy1.
  pose proof (mp_range _ Hdy0) as Hm0. pose proof (mp_range _ Hdy1) as Hm1.
  assert (Hera : era_of z0 < era_of z1 \/ (era_of z0 = era_of z1 /\ doe_of z0 < doe_of z1)).
  { unfold doe_of, era_of. Z.to_euclidean_division_equations. lia. }
  assert (Hyd : doe_of z0 < doe_of z1 ->
                yoe_of (doe_of z0) < yoe_of (doe_of z1)
                \/ (yoe_of (doe_of z0) = yoe_of (doe_of z1)
                    /\ doy_of (doe_of z0) < doy_of (doe_of z1))).
  { intros Hlt. pose proof (yoe_mono (doe_of z0) (doe_of z1) ltac:(lia) ltac:(lia)).
    destruct (Z.eq_dec (yoe_of (doe_of z0)) (yoe_of (doe_of z1))) as [E|NE];
      [right; split; [exact E|]; unfold doy_of; rewrite E; lia | left; lia]. }
  assert (Hmd : doy_of (doe_of z0) < doy_of (doe_of z1) ->
                mp_of (doy_of (doe_of z0)) < mp_of (doy_of (doe_of z1))
                \/ (mp_of (doy_of (doe_of z0)) = mp_of (doy_of (doe_of z1))
                    /\ dom_of (doy_of (doe_of z0)) < dom_of (doy_of (doe_of z1)))).
  { intros Hlt. pose proof (mp_mono (doy_of (doe_of z0)) (doy_of (doe_of z1)) ltac:(lia)).
    destruct (Z.eq_dec (mp_of (doy_of (doe_of z0))) (mp_of (doy_of (doe_of z1)))) as [E|NE];
      [right; split; [exact E|]; unfold dom_of; rewrite E; lia | left; lia]. }
  destruct (Z.ltb_spec (mp_of (doy_of (doe_of z0))) 10);
    destruct (Z.ltb_spec (mp_of (doy_of (doe_of z1))) 10);
    repeat match goal with
           | |- context [?a <=? ?b] => destruct (Z.leb_spec a b)
           end; lia.
Qed.

Lemma ascii_compare_refl c : Ascii.compare c c = Eq.
Proof. unfold Ascii.compare. apply N.compare_refl. Qed.

Lemma compare_app_same (a s s' : string) :
  String.compare (a +:+ s) (a +:+ s') = String.compare s s'.
Proof.
  induction a as [|c a IH]; [reflexivity|].
  rewrite !string_app_cons. cbn [String.compare]. now rewrite ascii_compare_refl.
Qed.

Lemma digit_char_lt n m :
  n mod 10 < m mod 10 -> Ascii.compare (digit_char n) (digit_char m) = Lt.
Proof.
  intros H. unfold Ascii.compare, digit_char, ascii_of_nat.
  pose proof (Z.mod_pos_bound n 10 ltac:(lia)). pose proof (Z.mod_pos_bound m 10 ltac:(lia)).
  rewrite !N_ascii_embedding by lia. apply N.compare_lt_iff. lia.
Qed.

Lemma digits_compare_lt k : forall n m s s',
  0 <= n < m -> m < 10 ^ Z.of_nat k ->
  String.compare (digits k n +:+ s) (digits k m +:+ s') = Lt.
Proof.
  induction k as [|k IH]; intros n m s s' Hnm Hm.
  - cbn in Hm. lia.
  - cbn [digits]. rewrite !string_app_assoc.
    assert (Hq : n / 10 <= m / 10) by (apply Z.div_le_mono; lia).
    assert (Hb : m / 10 < 10 ^ Z.of_nat k).
    { apply Z.div_lt_upper_bound; [lia|].
      rewrite Nat2Z.inj_succ, Z.pow_succ_r in Hm by lia. lia. }
    destruct (Z.eq_dec (n / 10) (m / 10)) as [E|NE].
    + rewrite E, compare_app_same, !string_app_cons. cbn [String.compare].
      rewrite digit_char_lt; [reflexivity|].
      Z.to_euclidean_division_equations. lia.
    + apply IH; [|exact Hb]. split; [apply Z.div_pos; lia | lia].
Qed.

Lemma render_lt shape : forall a b,
  in_shape shape a -> in_shape shape b -> lex_lt a b ->
  String.compare (render shape a) (render shape b) = Lt.
Proof.
  induction shape as [|[k sep] shape IH]; intros [|x a] [|y b] Ha Hb Hlt;
    cbn [in_shape lex_lt render] in *; try contradiction.
  destruct Ha as [Hx Ha], Hb as [Hy Hb]. destruct Hlt as [Hlt|[-> Hlt]].
  - apply digits_compare_lt; lia.
  - rewrite !compare_app_same. now apply IH.
Qed.

Lemma iso_string_render t :
  0 <= YearFromTime t <= 9999 -> iso_string t = render iso_shape (iso_fields t).
Proof.
  intros Hy. unfold iso_string, iso_fields, YearFromTime in *.
  destruct (civil_from_days (t / msPerDay)) as [[y m] d]. cbn [fst] in Hy.
  rewrite (year_string_four y Hy). reflexivity.
Qed.

Lemma iso_fields_in_shape t :
  0 <= YearFromTime t <= 9999 -> in_shape iso_shape (iso_fields t).
Proof.
  intros Hy. unfold iso_fields, YearFromTime in *.
  destruct (civil_from_days (t / msPerDay)) as [[y m] d] eqn:Hc. cbn [fst] in Hy.
  destruct (civil_month_day_range _ _ _ _ Hc) as [Hm Hd].
  pose proof (Z.mod_pos_bound t msPerDay ltac:(reflexivity)) as Hms.
  unfold msPerDay in *. cbn [in_shape iso_shape].
  change (10 ^ Z.of_nat 4) with 10000. change (10 ^ Z.of_nat 2) with 100.
  change (10 ^ Z.of_nat 3) with 1000.
  repeat split; try lia; Z.to_euclidean_division_equations; lia.
Qed.

Lemma iso_fields_lt t0 t1 : t0 < t1 -> lex_lt (iso_fields t0) (iso_fields t1).
Proof.
  intros Ht. unfold iso_fields.
  destruct (civil_from_days (t0 / msPerDay)) as [[y0 m0] d0] eqn:H0.
  destruct (civil_from_days (t1 / msPerDay)) as [[y1 m1] d1] eqn:H1.
  assert (Hday : t0 / msPerDay < t1 / msPerDay
                 \/ (t0 / msPerDay = t1 / msPerDay /\ t0 mod msPerDay < t1 mod msPerDay)).
  { unfold msPerDay. Z.to_euclidean_division_equations. lia. }
  destruct Hday as [Hday|[Hday Hms]].
  - pose proof (civil_from_days_mono _ _ _ _ _ _ _ _ Hday H0 H1) as Hlex.
    cbn [lex_lt] in *. lia.
  - rewrite Hday, H1 in H0. injection H0 as -> -> ->.
    pose proof (Z.mod_pos_bound t0 msPerDay ltac:(reflexivity)).
    pose proof (Z.mod_pos_bound t1 msPerDay ltac:(reflexivity)).
    cbn [lex_lt]. right; split; [reflexivity|]. right; split; [reflexivity|].
    right; split; [reflexivity|].
    unfold msPerDay in *. Z.to_euclidean_division_equations. lia.
Qed.

(** Within the years 0000 to 9999 a later instant has a later timestamp. *)
Lemma iso_string_lt t0 t1 :
  t0 < t1 -> 0 <= YearFromTime t0 <= 9999 -> 0 <= YearFromTime t1 <= 9999 ->
  String.ltb (iso_string t0) (iso_string t1) = true.
Proof.
  intros Ht H0 H1. unfold String.ltb.
  rewrite (iso_string_render t0 H0), (iso_string_render t1 H1).
  rewrite render_lt; [reflexivity|..].
  - now apply iso_fields_in_shape.
  - now apply iso_fields_in_shape.
  - now apply iso_fields_lt.
Qed.

(** A byte of 128 or more starts a character whose first code unit is 128
    or more. *)
Lemma code_units_high c r :
  128 <= byte_value c ->
  exists u rest, code_units (c :: r) = u :: rest /\ 128 <= u.
Proof.
  intros Hc. cbn [code_units]. cbv zeta.
  destruct (byte_value c <? 128) eqn:Hlow; [apply Z.ltb_lt in Hlow; lia|].
  destruct r as [|c2 r2]; [eexists _, _; split; [reflexivity | lia]|].
  destruct ((194 <=? byte_value c) && (byte_value c <? 224)
            && continuation (byte_value c2)) eqn:H2.
  { eexists _, _. split; [reflexivity|]. unfold continuation in H2.
    rewrite !andb_true_iff, !Z.leb_le, !Z.ltb_lt in H2. lia. }
  destruct r2 as [|c3 r3]; [eexists _, _; split; [reflexivity | lia]|].
  destruct ((224 <=? byte_value c) && (byte_value c <? 240) && continuation (byte_value c2)
            && continuation (byte_value c3)
            && (2048 <=? (byte_value c - 224) * 4096 + (byte_value c2 - 128) * 64
                         + (byte_value c3 - 128))) eqn:H3.
  { eexists _, _. split; [reflexivity|].
    rewrite !andb_true_iff, !Z.leb_le in H3. lia. }
  destruct r3 as [|c4 r4]; [eexists _, _; split; [reflexivity | lia]|].
  clear H2 H3.
  match goal with |- context [if ?b then _ else _] => destruct b eqn:H4 end;
    (eexists _, _; split; [reflexivity|]); [|lia].
  rewrite !andb_true_iff, !Z.leb_le, !Z.ltb_lt in H4.
  destruct H4 as [[_ Hlo] _].
  assert (0 <= ((byte_value c - 240) * 262144 + (byte_value c2 - 128) * 4096
                + (byte_value c3 - 128) * 64 + (byte_value c4 - 128) - 65536) / 1024)
    by (apply Z.div_pos; lia).
  lia.
Qed.

(** Against a string of ASCII characters the order of code units is the
    order of bytes. *)
Lemma js_string_lt_ascii b : forall d,
  ascii_only b = true -> js_string_lt d b = String.ltb d b.
Proof.
  unfold js_string_lt, String.ltb, ascii_only.
  induction b as [|y b IH]; intros d Hb.
  - cbn [list_ascii_of_string code_units].
    destruct d as [|x d]; [reflexivity|]. cbn [String.compare list_ascii_of_string].
    destruct (code_units (x :: list_ascii_of_string d)); reflexivity.
  - cbn [list_ascii_of_string forallb] in Hb. apply andb_true_iff in Hb as [Hy Hb].
    destruct d as [|x d].
    + cbn [list_ascii_of_string code_units]. rewrite Hy. reflexivity.
    + cbn [list_ascii_of_string String.compare].
      assert (Hcy : code_units (y :: list_ascii_of_string b)
                    = byte_value y :: code_units (list_ascii_of_string b))
        by (cbn [code_units]; now rewrite Hy).
      rewrite Hcy. apply Z.ltb_lt in Hy.
      unfold Ascii.compare. rewrite <- N2Z.inj_compare. fold (byte_value x) (byte_value y).
      destruct (Z_lt_le_dec (byte_value x) 128) as [Hx|Hx].
      * assert (Hcx : code_units (x :: list_ascii_of_string d)
                      = byte_value x :: code_units (list_ascii_of_string d))
          by (cbn [code_units]; now rewrite (proj2 (Z.ltb_lt _ _) Hx)).
        rewrite Hcx. cbn [units_ltb]. rewrite (IH d Hb).
        destruct (Z.compare_spec (byte_value x) (byte_value y)) as [He|Hl|Hg].
        -- rewrite He, Z.ltb_irrefl, Z.eqb_refl. reflexivity.
        -- now rewrite (proj2 (Z.ltb_lt _ _) Hl).
        -- rewrite (proj2 (Z.ltb_ge _ _)), (proj2 (Z.eqb_neq _ _)) by lia. reflexivity.
      * destruct (code_units_high x (list_ascii_of_string d) Hx) as (u & rest & -> & Hu).
        cbn [units_ltb].
        rewrite (proj2 (Z.ltb_ge u (byte_value y))), (proj2 (Z.eqb_neq u (byte_value y)))
          by lia.
        destruct (Z.compare_spec (byte_value x) (byte_value y)) as [He|Hl|Hg];
          [lia | lia | reflexivity].
Qed.

Lemma ascii_only_app a b :
  ascii_only (a +:+ b) = ascii_only a && ascii_only b.
Proof. unfold ascii_only. now rewrite list_ascii_app, forallb_app. Qed.

Lemma ascii_only_digits k n : ascii_only (digits k n) = true.
Proof.
  revert n. induction k as [|k IH]; intros n; [reflexivity|].
  cbn [digits]. rewrite ascii_only_app, IH. cbn [andb].
  unfold ascii_only. cbn [list_ascii_of_string forallb]. rewrite andb_true_r.
  unfold digit_char. pose proof (Z.mod_pos_bound n 10 ltac:(lia)) as Hb.
  assert (Hj : exists j, (j < 10)%nat /\ Z.to_nat (n mod 10) = j)
    by (exists (Z.to_nat (n mod 10)); split; [lia | reflexivity]).
  destruct Hj as (j & Hj & ->).
  do 10 (destruct j as [|j]; [reflexivity|]). lia.
Qed.

Lemma year_string_ascii y : ascii_only (year_string y) = true.
Proof.
  unfold year_string. destruct ((0 <=? y) && (y <=? 9999)); [apply ascii_only_digits|].
  destruct (y <? 0); now rewrite ascii_only_app, ascii_only_digits.
Qed.

Lemma iso_string_ascii t : ascii_only (iso_string t) = true.
Proof.
  unfold iso_string. destruct (civil_from_days (t / msPerDay)) as [[y m] d].
  now rewrite !ascii_only_app, year_string_ascii, !ascii_only_digits.
Qed.

(** So a later instant has a later timestamp in the order of JavaScript
    strings as well. *)
Lemma iso_string_later t0 t1 :
  t0 < t1 -> 0 <= YearFromTime t0 <= 9999 -> 0 <= YearFromTime t1 <= 9999 ->
  js_string_lt (iso_string t0) (iso_string t1) = true.
Proof.
  intros Ht H0 H1. rewrite js_string_lt_ascii by apply iso_string_ascii.
  now apply iso_string_lt.
Qed.

(** ** Profile updates *)

Lemma json_clean_fields (m : obj) :
  json_roundtrip (VObj m) = VObj m <-> forall k v, m !! k = Some v -> json_field v = Some v.
Proof.
  rewrite json_roundtrip_obj. split.
  - intros H k v Hk. injection H as H. apply (f_equal (fun m' => m' !! k)) in H.
    rewrite lookup_omap, Hk in H. exact H.
  - intros H. f_equal. apply map_eq. intros k. rewrite lookup_omap.
    destruct (m !! k) as [v|] eqn:Hk; [|reflexivity]. cbn. exact (H k v Hk).
Qed.

(** Merging two clean objects and stamping the result gives a clean object. *)
Lemma json_clean_merge (x p : obj) s :
  json_roundtrip (VObj x) = VObj x ->
  json_roundtrip (VObj p) = VObj p ->
  json_roundtrip (VObj (<["updated_at" := VStr s]> (x ∪ p)))
  = VObj (<["updated_at" := VStr s]> (x ∪ p)).
Proof.
  rewrite !json_clean_fields. intros Hx Hp k v.
  destruct (decide (k = "updated_at")) as [->|Hne].
  - rewrite lookup_insert_eq. now intros [= <-].
  - rewrite lookup_insert_ne by congruence. intros Hk.
    apply lookup_union_Some_raw in Hk as [Hk|[_ Hk]]; eauto.
Qed.

Lemma local_update_profile (x p : obj) now w :
  isDatabaseAvailable w = false ->
  stored "volunteerProfile" (VObj ∅) w = VObj p ->
  dbUpdateProfile x now w
  = (Ok (VObj (<["updated_at" := VStr (iso_string now)]> (x ∪ p))),
     setItem "volunteerProfile" (VObj (<["updated_at" := VStr (iso_string now)]> (x ∪ p))) w).
Proof.
  intros Ha Hp. unfold dbUpdateProfile. rewrite (remote_unavailable w Ha), Hp. reflexivity.
Qed.

Lemma local_get_profile w :
  isDatabaseAvailable w = false ->
  dbGetProfile w = (Ok (stored "volunteerProfile" VNull w), w).
Proof. intros Ha. unfold dbGetProfile. now rewrite (remote_unavailable w Ha). Qed.

Lemma setItem_available k v w : isDatabaseAvailable (setItem k v w) = isDatabaseAvailable w.
Proof. reflexivity. Qed.

Lemma remote_update_profile (x u : obj) now w c :
  remote w = Some c -> auth_getUser c = Some u ->
  dbUpdateProfile x now w
  = (match r_error (rest c (profile_update_query x now (get u "id"))) with
     | Some e => Throw (BackendError e)
     | None => Ok (r_data (rest c (profile_update_query x now (get u "id"))))
     end,
     send (Rest (profile_update_query x now (get u "id"))) (send AuthGetUser w)).
Proof.
  intros Hr Hu. unfold dbUpdateProfile. rewrite Hr. unfold bind.
  rewrite (current_user_remote _ _ Hr), Hu.
  cbn [truthy negb lift prop run_query].
  fold (profile_update_query x now (get u "id")).
  now destruct (r_error (rest c (profile_update_query x now (get u "id")))).
Qed.

(** *** The remote profile *)

Lemma remote_get_profile (u : obj) w c :
  remote w = Some c -> auth_getUser c = Some u ->
  dbGetProfile w
  = (Ok (match r_error (rest c (profile_select_query (get u "id"))) with
         | Some _ => VNull
         | None => r_data (rest c (profile_select_query (get u "id")))
         end),
     send (Rest (profile_select_query (get u "id"))) (send AuthGetUser w)).
Proof.
  intros Hr Hu. unfold dbGetProfile. rewrite Hr. unfold bind.
  rewrite (current_user_remote _ _ Hr), Hu.
  cbn [truthy negb lift prop run_query]. fold (profile_select_query (get u "id")).
  now destruct (r_error (rest c (profile_select_query (get u "id")))).
Qed.

Lemma remote_with_server s u w :
  dbInitialized w = true ->
  remote (set_supabaseClient (Some (server_client s u)) w) = Some (server_client s u).
Proof.
  intros Hi. unfold remote, isDatabaseAvailable, set_supabaseClient.
  cbn [dbInitialized supabaseClient]. now rewrite Hi.
Qed.

(** With [eq('id', uid)] the rows a user reaches are the rows the policies
    let the user reach. *)
Lemma own_and_filtered uid rest_mods r :
  (forall m, In m rest_mods -> match m with EqTo _ _ => False | _ => True end) ->
  own_profile (VStr uid) r && passes (EqTo "id" (VStr uid) :: rest_mods) r
  = own_profile (VStr uid) r.
Proof.
  intros Hrest. cbn [own_profile passes forallb].
  assert (Hp : forallb (fun m => match m with
                                 | EqTo col v => strict_eq (get r col) v
                                 | _ => true
                                 end) rest_mods = true).
  { apply forallb_forall. intros m Hm. specialize (Hrest m Hm). now destruct m. }
  rewrite Hp. now destruct (strict_eq (get r "id") (VStr uid)).
Qed.

(** An update that leaves [id] alone leaves every row with its owner. *)
Lemma update_keeps_owner s payload uid rows :
  payload !! "id" = None ->
  List.filter (own_profile (VStr uid))
    ((fun r => if own_profile (VStr uid) r then update_row s payload r else r) <$> rows)
  = update_row s payload <$> List.filter (own_profile (VStr uid)) rows.
Proof.
  intros Hid.
  assert (Hown : forall r, own_profile (VStr uid) (update_row s payload r)
                           = own_profile (VStr uid) r).
  { intros r. unfold own_profile, update_row, get.
    now rewrite lookup_insert_ne, (lookup_union_r _ _ _ Hid) by discriminate. }
  induction rows as [|r rows IH]; [reflexivity|].
  cbn [fmap list_fmap List.filter].
  destruct (own_profile (VStr uid) r) eqn:Hr.
  - rewrite Hown, Hr. cbn [fmap list_fmap]. f_equal. exact IH.
  - rewrite Hr. exact IH.
Qed.

Lemma stamped_payload_clean (x : obj) stamp :
  json_roundtrip (VObj x) = VObj x ->
  spread (json_roundtrip (VObj (<["updated_at" := VStr stamp]> x)))
  = <["updated_at" := VStr stamp]> x.
Proof.
  intros Hx.
  assert (Hclean : json_roundtrip (VObj (<["updated_at" := VStr stamp]> x))
                   = VObj (<["updated_at" := VStr stamp]> x)).
  { apply json_clean_fields. intros k v.
    destruct (decide (k = "updated_at")) as [->|Hne].
    - rewrite lookup_insert_eq. now intros [= <-].
    - rewrite lookup_insert_ne by congruence. now apply json_clean_fields. }
  now rewrite Hclean.
Qed.

Lemma restamped_merge (x p : obj) a b :
  <["updated_at" := a]> ((<["updated_at" := b]> x) ∪ p) = <["updated_at" := a]> (x ∪ p).
Proof. now rewrite <- insert_union_l, insert_insert_eq. Qed.

(** A signed-in user's update against the server that holds the user's
    profile [p], and the read that follows it. *)
Lemma remote_profile_held (w : World) (s : Server) (u p : obj) (uid : string) :
  dbInitialized w = true ->
  get u "id" = VStr uid ->
  List.filter (own_profile (VStr uid)) (profiles s) = [p] ->
  fst (against dbGetProfile u (s, w)) = Ok (VObj p).
Proof.
  intros Hi Hu Hp. unfold against. cbn [fst snd].
  set (w0 := set_supabaseClient (Some (server_client s u)) w).
  assert (Hr : remote w0 = Some (server_client s u)) by (apply remote_with_server; exact Hi).
  rewrite (remote_get_profile u w0 _ Hr eq_refl). cbn [fst].
  cbn [server_client rest profile_select_query q_table]. cbn [String.eqb Ascii.eqb Bool.eqb].
  unfold serve_profiles. cbn [q_verb q_mods fst].
  assert (Hsel : forall r,
            own_profile (get u "id") r && passes [EqTo "id" (get u "id"); Single] r
            = own_profile (VStr uid) r).
  { intros r. rewrite Hu. apply own_and_filtered. intros m [<-|[]]. exact I. }
  rewrite (List.filter_ext _ _ Hsel), Hp. reflexivity.
Qed.

Lemma remote_update_then_get (w : World) (x : obj) (now : Z) (s : Server) (u p : obj)
    (uid : string) :
  json_roundtrip (VObj x) = VObj x ->
  dbInitialized w = true ->
  get u "id" = VStr uid ->
  List.filter (own_profile (VStr uid)) (profiles s) = [p] ->
  x !! "id" = None ->
  takes s (<["updated_at" := VStr (iso_string now)]> x) = true ->
  let merged := <["updated_at" := VStr (timestamptz s (NOW s))]> (x ∪ p) in
  let updated := against (dbUpdateProfile x now) u (s, w) in
  fst updated = Ok (VObj merged)
  /\ forall t,
       fst (against dbGetProfile u (at_time t (fst (snd updated)), snd (snd updated)))
       = Ok (VObj merged).
Proof.
  intros Hx Hi Hu Hp Hid Htakes merged updated.
  set (w0 := set_supabaseClient (Some (server_client s u)) w).
  pose proof (remote_with_server s u w Hi) as Hr. fold w0 in Hr.
  set (q := profile_update_query x now (get u "id")).
  assert (Hmods : forall r,
            own_profile (get u "id") r && passes (q_mods q) r = own_profile (VStr uid) r).
  { intros r. unfold q, profile_update_query. cbn [q_mods]. rewrite Hu.
    apply own_and_filtered. intros m [<-|[<-|[]]]; exact I. }
  assert (Hserve : serve_profiles s (get u "id") q
                   = ({| r_data := VObj merged; r_error := None |},
                      {| profiles :=
                           (fun r => if own_profile (VStr uid) r
                                     then update_row s (<["updated_at" := VStr (iso_string now)]> x) r
                                     else r) <$> profiles s;
                         NOW := NOW s; timestamptz := timestamptz s; takes := takes s |})).
  { unfold serve_profiles. cbn [q q_verb profile_update_query].
    rewrite (stamped_payload_clean x _ Hx), Htakes.
    rewrite (List.filter_ext _ _ Hmods), Hp. cbn [fmap list_fmap single_row].
    unfold update_row at 1. rewrite restamped_merge. fold merged. f_equal. f_equal.
    apply list_fmap_ext. intros i r _. now rewrite Hmods. }
  assert (Hupd : dbUpdateProfile x now w0
                 = (Ok (VObj merged), send (Rest q) (send AuthGetUser w0))).
  { rewrite (remote_update_profile x u now w0 _ Hr eq_refl). fold q.
    cbn [server_client rest]. change (q_table q) with "profiles". cbn [String.eqb Ascii.eqb Bool.eqb].
    now rewrite Hserve. }
  assert (Hafter : snd updated
                   = (snd (serve_profiles s (get u "id") q),
                      send (Rest q) (send AuthGetUser w0))).
  { unfold updated, against. cbn [fst snd]. fold w0. rewrite Hupd. cbn [fst snd].
    f_equal. unfold send at 1 2. cbn [network]. rewrite <- app_assoc.
    rewrite drop_app_length. cbn [fold_left served].
    change (q_table q) with "profiles". reflexivity. }
  split.
  - unfold updated, against. cbn [fst snd]. fold w0. now rewrite Hupd.
  - intros t. rewrite Hafter, Hserve. cbn [fst snd]. unfold against. cbn [fst snd].
    set (s1 := at_time t _).
    set (w1 := set_supabaseClient (Some (server_client s1 u)) _).
    assert (Hr1 : remote w1 = Some (server_client s1 u)) by (apply remote_with_server; exact Hi).
    rewrite (remote_get_profile u w1 _ Hr1 eq_refl). cbn [fst].
    cbn [server_client rest profile_select_query q_table]. cbn [String.eqb Ascii.eqb Bool.eqb].
    unfold serve_profiles. cbn [q_verb q_mods fst].
    assert (Hsel : forall r,
              own_profile (get u "id") r && passes [EqTo "id" (get u "id"); Single] r
              = own_profile (VStr uid) r).
    { intros r. rewrite Hu. apply own_and_filtered. intros m [<-|[]]. exact I. }
    rewrite (List.filter_ext _ _ Hsel). unfold s1. cbn [at_time profiles].
    rewrite update_keeps_owner, Hp.
    + cbn [fmap list_fmap single_row r_error r_data].
      unfold update_row. cbn [timestamptz NOW]. now rewrite restamped_merge.
    + now rewrite lookup_insert_ne.
Qed.




(** * Further properties *)

(** ** Initialisation *)

(** X1: [initDatabase] returns whether the database is available afterwards,
    and that is the case exactly when neither constant is a placeholder, the
    library is loaded, [createClient] returns a client and the listener is
    registered; that client is then the one in use.  Storage is never
    touched. *)
Theorem X1_initDatabase_mode (d : Deployment) (w : World) :
  fst (initDatabase d w) = isDatabaseAvailable (snd (initDatabase d w))
  /\ (fst (initDatabase d w) = true <->
      SUPABASE_URL d <> "YOUR_SUPABASE_URL"
      /\ SUPABASE_ANON_KEY d <> "YOUR_SUPABASE_ANON_KEY"
      /\ exists lib c,
           supabase d = Some lib
           /\ createClient lib (SUPABASE_URL d) (SUPABASE_ANON_KEY d) = Some c
           /\ listens lib = true
           /\ supabaseClient (snd (initDatabase d w)) = Some c)
  /\ localStorage (snd (initDatabase d w)) = localStorage w.
Proof.
  unfold initDatabase.
  destruct (String.eqb_spec (SUPABASE_URL d) "YOUR_SUPABASE_URL") as [Hu|Hu];
    [cbn [orb fst snd]; repeat split; try discriminate; intros (H & _); contradiction|].
  destruct (String.eqb_spec (SUPABASE_ANON_KEY d) "YOUR_SUPABASE_ANON_KEY") as [Hk|Hk];
    [cbn [orb fst snd]; repeat split; try discriminate; intros (_ & H & _); contradiction|].
  cbn [orb].
  destruct (supabase d) as [lib|];
    [|cbn [fst snd]; repeat split; try discriminate;
      intros (_ & _ & lib & c & H & _); discriminate].
  destruct (createClient lib (SUPABASE_URL d) (SUPABASE_ANON_KEY d)) as [c|] eqn:Hc;
    [|cbn [fst snd]; repeat split; try discriminate;
      intros (_ & _ & lib' & c & [= <-] & H & _); congruence].
  destruct (listens lib) eqn:Hl; cbn [fst snd].
  - split; [reflexivity|]. split; [|reflexivity]. split; [|reflexivity].
    intros _. split; [exact Hu|]. split; [exact Hk|]. exists lib, c. auto.
  - split; [reflexivity|]. split; [|reflexivity]. split; [discriminate|].
    intros (_ & _ & lib' & c' & [= <-] & _ & H & _). congruence.
Qed.

(** ** Remote operations of a signed-in or signed-out user *)

Lemma remote_insert_signed_out c0 c tbl row w :
  remote w = Some c -> auth_getUser c = None ->
  remote_insert c0 tbl row w = (Throw NotAuthenticated, send AuthGetUser w).
Proof.
  intros Hr Hu. unfold remote_insert, bind.
  now rewrite (current_user_signed_out _ _ Hr Hu).
Qed.

(** X2: in remote mode without a signed-in user the three inserts throw
    "Not authenticated" and send nothing but the lookup of the current
    user. *)
Theorem X2_signed_out_remote_inserts (w : World) (c : Client) (row : obj)
    (t_id t_created : Z) :
  isDatabaseAvailable w = true ->
  supabaseClient w = Some c ->
  auth_getUser c = None ->
  dbAddHoursEntry row t_id t_created w = (Throw NotAuthenticated, send AuthGetUser w)
  /\ dbAddEvent row t_id t_created w = (Throw NotAuthenticated, send AuthGetUser w)
  /\ dbSaveLetter row t_id t_created w = (Throw NotAuthenticated, send AuthGetUser w).
Proof.
  intros Ha Hc Hu. pose proof (remote_available w c Ha Hc) as Hr.
  unfold dbAddHoursEntry, dbAddEvent, dbSaveLetter. rewrite Hr.
  repeat split; apply (remote_insert_signed_out c c _ _ w Hr Hu).
Qed.

Lemma X2_witness :
  dbAddEvent morning_shift 0 0 (remote_world None)
  = (Throw NotAuthenticated, send AuthGetUser (remote_world None)).
Proof.
  destruct (X2_signed_out_remote_inserts (remote_world None) (quiet_client None)
              morning_shift 0 0 eq_refl eq_refl eq_refl) as (_ & He & _).
  exact He.
Defined.

Lemma remote_delete_signed_in c0 c u tbl id w :
  remote w = Some c -> auth_getUser c = Some u ->
  let q := {| q_table := tbl; q_verb := Delete;
              q_mods := [EqTo "id" id; EqTo "user_id" (get u "id")] |} in
  remote_delete c0 tbl id w
  = (match r_error (rest c0 q) with
     | Some e => Throw (BackendError e)
     | None => Ok tt
     end, send (Rest q) (send AuthGetUser w)).
Proof.
  intros Hr Hu q. unfold remote_delete, bind.
  rewrite (current_user_remote _ _ Hr), Hu.
  cbn [truthy negb lift prop run_query]. fold q.
  now destruct (r_error (rest c0 q)).
Qed.

(** X3: in remote mode a signed-in user's delete is one query on the table
    whose predicates are [id = id] and [user_id = the user's id], whatever id
    the caller passes; it succeeds unless the backend reports an error, which
    is thrown as it is. *)
Theorem X3_remote_delete_scoped_to_owner (w : World) (c : Client) (u : obj) (id : value) :
  isDatabaseAvailable w = true ->
  supabaseClient w = Some c ->
  auth_getUser c = Some u ->
  let scoped tbl := {| q_table := tbl; q_verb := Delete;
                       q_mods := [EqTo "id" id; EqTo "user_id" (get u "id")] |} in
  dbDeleteHoursEntry id w
  = (match r_error (rest c (scoped "hours_log")) with
     | Some e => Throw (BackendError e)
     | None => Ok tt
     end, send (Rest (scoped "hours_log")) (send AuthGetUser w))
  /\ dbDeleteEvent id w
     = (match r_error (rest c (scoped "events")) with
        | Some e => Throw (BackendError e)
        | None => Ok tt
        end, send (Rest (scoped "events")) (send AuthGetUser w)).
Proof.
  intros Ha Hc Hu scoped. pose proof (remote_available w c Ha Hc) as Hr.
  unfold dbDeleteHoursEntry, dbDeleteEvent. rewrite Hr.
  split; apply (remote_delete_signed_in c c u _ id w Hr Hu).
Qed.

Lemma X3_witness :
  fst (dbDeleteHoursEntry (VStr "row-1") (remote_world (Some alice))) = Ok tt
  /\ network (snd (dbDeleteHoursEntry (VStr "row-1") (remote_world (Some alice))))
     = [AuthGetUser;
        Rest {| q_table := "hours_log"; q_verb := Delete;
                q_mods := [EqTo "id" (VStr "row-1"); EqTo "user_id" (VStr "user-a")] |}].
Proof.
  destruct (X3_remote_delete_scoped_to_owner (remote_world (Some alice))
              (quiet_client (Some alice)) alice (VStr "row-1") eq_refl eq_refl eq_refl)
    as [Hd _].
  rewrite Hd. split; reflexivity.
Defined.

Lemma scoped_select_intro tbl (u : obj) c w q :
  q_table q = tbl -> q_verb q = Select ->
  head (q_mods q) = Some (EqTo "user_id" (get u "id")) ->
  scoped_select tbl u c w
    ((match r_error (rest c q) with
      | Some e => throw (BackendError e)
      | None => ret (js_or (r_data (rest c q)) (VArr []))
      end) (send (Rest q) (send AuthGetUser w))).
Proof.
  intros Ht Hv Hh. exists q.
  destruct (r_error (rest c q)); cbn [fst snd throw ret];
    (split; [unfold send; cbn [network]; now rewrite <- app_assoc | auto]).
Qed.

(** X4: in remote mode the three list operations of a signed-in user each
    send one select scoped by [user_id = the user's id], before any date or
    type filter; they return the answer's rows, the empty sequence when the
    answer carries no data, and throw the backend's error when there is
    one. *)
Theorem X4_remote_lists_scoped_to_owner (h : Host) (w : World) (c : Client) (u filters : obj)
    (now : Z) :
  isDatabaseAvailable w = true ->
  supabaseClient w = Some c ->
  auth_getUser c = Some u ->
  scoped_select "hours_log" u c w (dbGetHoursLog h filters w)
  /\ scoped_select "events" u c w (dbGetEvents h filters now w)
  /\ scoped_select "letters" u c w (dbGetLetters filters w).
Proof.
  intros Ha Hc Hu. pose proof (remote_available w c Ha Hc) as Hr.
  unfold dbGetHoursLog, dbGetEvents, dbGetLetters. rewrite Hr. unfold bind.
  rewrite (current_user_remote _ _ Hr), Hu.
  cbn [truthy negb lift prop run_query].
  repeat split; apply scoped_select_intro; reflexivity.
Qed.

Lemma X4_witness :
  scoped_select "hours_log" alice (quiet_client (Some alice)) (remote_world (Some alice))
    (dbGetHoursLog utc_host ∅ (remote_world (Some alice))).
Proof.
  destruct (X4_remote_lists_scoped_to_owner utc_host (remote_world (Some alice))
              (quiet_client (Some alice)) alice ∅ 0 eq_refl eq_refl eq_refl) as [Hh _].
  exact Hh.
Defined.

(** ** The local store *)

Lemma stamp_row_fields row t_id t_created :
  stamp_row row t_id t_created !! "id" = Some (VStr (pretty t_id))
  /\ stamp_row row t_id t_created !! "created_at" = Some (VStr (iso_string t_created))
  /\ (forall k, k <> "id" -> k <> "created_at" ->
        stamp_row row t_id t_created !! k = row !! k).
Proof.
  unfold stamp_row. split; [|split].
  - rewrite lookup_insert_ne by discriminate. apply lookup_insert_eq.
  - apply lookup_insert_eq.
  - intros k H1 H2. now rewrite !lookup_insert_ne by congruence.
Qed.

Lemma stored_row_id row t_id t_created :
  get (stored_row row t_id t_created) "id" = VStr (pretty t_id).
Proof.
  unfold get, stored_row. rewrite lookup_omap.
  now rewrite (proj1 (stamp_row_fields row t_id t_created)).
Qed.

Lemma stored_row_roundtrip row t_id t_created :
  json_roundtrip (VObj (stamp_row row t_id t_created))
  = VObj (stored_row row t_id t_created).
Proof. reflexivity. Qed.

Lemma stored_row_clean row t_id t_created :
  json_slot (VObj (stored_row row t_id t_created)) = VObj (stored_row row t_id t_created).
Proof. rewrite <- stored_row_roundtrip. apply json_slot_roundtrip. Qed.

Lemma local_insert_array key row t_id t_created w l :
  stored key (VArr []) w = VArr l ->
  map json_slot l = l ->
  local_insert_outcome key row t_id t_created l w (local_insert key row t_id t_created w).
Proof.
  intros Hl Hclean. unfold local_insert. rewrite Hl. cbn [as_array].
  destruct (stamp_row_fields row t_id t_created) as (Hid & Hc & Hk).
  unfold local_insert_outcome. cbn [fst snd].
  split; [reflexivity|]. split; [exact Hid|]. split; [exact Hc|]. split; [exact Hk|].
  unfold setItem, set_localStorage. cbn [localStorage network].
  split; [|split; [|reflexivity]].
  - rewrite lookup_insert_eq, json_roundtrip_arr, map_app, Hclean. reflexivity.
  - intros k Hne. now rewrite lookup_insert_ne by congruence.
Qed.

(** X5: in local mode each of the three inserts returns the caller's row
    with [id] set to the decimal clock reading and [created_at] to its
    timestamp, overriding what the row held under those keys and keeping its
    other fields; the row is appended to the stored sequence of its table
    only, and nothing is sent. *)
Theorem X5_local_insert_stamps_and_appends (w : World) (row : obj) (t_id t_created : Z) :
  isDatabaseAvailable w = false ->
  (forall l, stored "volunteerHoursLog" (VArr []) w = VArr l -> map json_slot l = l ->
     local_insert_outcome "volunteerHoursLog" row t_id t_created l w
       (dbAddHoursEntry row t_id t_created w))
  /\ (forall l, stored "volunteerEvents" (VArr []) w = VArr l -> map json_slot l = l ->
     local_insert_outcome "volunteerEvents" row t_id t_created l w
       (dbAddEvent row t_id t_created w))
  /\ (forall l, stored "volunteerLetters" (VArr []) w = VArr l -> map json_slot l = l ->
     local_insert_outcome "volunteerLetters" row t_id t_created l w
       (dbSaveLetter row t_id t_created w)).
Proof.
  intros Ha. unfold dbAddHoursEntry, dbAddEvent, dbSaveLetter.
  rewrite (remote_unavailable w Ha).
  split; [|split]; intros l Hl Hclean; now apply local_insert_array.
Qed.

Lemma X5_witness :
  local_insert_outcome "volunteerEvents" (<["id" := VStr "mine"]> morning_shift)
    1707955200000 1707955200001 [] local_world
    (dbAddEvent (<["id" := VStr "mine"]> morning_shift) 1707955200000 1707955200001
       local_world).
Proof.
  destruct (X5_local_insert_stamps_and_appends local_world
              (<["id" := VStr "mine"]> morning_shift) 1707955200000 1707955200001 eq_refl)
    as (_ & He & _).
  apply He; reflexivity.
Defined.

(** X6: in local mode, when the value stored for the hours log is not a
    sequence, inserting and deleting throw a [TypeError] and leave the page
    and the storage as they were, while the unfiltered listing hands that
    value back as it is. *)
Theorem X6_local_store_not_a_sequence (h : Host) (w : World) (v id : value) (row : obj)
    (t_id t_created : Z) :
  isDatabaseAvailable w = false ->
  localStorage w !! "volunteerHoursLog" = Some v ->
  not_array v ->
  dbAddHoursEntry row t_id t_created w = (Throw TypeError, w)
  /\ dbDeleteHoursEntry id w = (Throw TypeError, w)
  /\ dbGetHoursLog h ∅ w = (Ok v, w).
Proof.
  intros Ha Hv Hn. pose proof (stored_lookup _ (VArr []) _ _ Hv) as Hs.
  unfold dbAddHoursEntry, dbDeleteHoursEntry.
  rewrite (getHoursLog_unfiltered h w Ha), (remote_unavailable w Ha).
  unfold local_insert, local_delete. rewrite Hs.
  destruct v; try contradiction; repeat split.
Qed.

Lemma X6_witness :
  dbAddHoursEntry food_bank 0 0
    (set_localStorage (insert "volunteerHoursLog" (VObj ∅)) local_world)
  = (Throw TypeError, set_localStorage (insert "volunteerHoursLog" (VObj ∅)) local_world).
Proof.
  destruct (X6_local_store_not_a_sequence utc_host
              (set_localStorage (insert "volunteerHoursLog" (VObj ∅)) local_world)
              (VObj ∅) VNull food_bank 0 0) as [Hi _];
    [reflexivity | vm_compute; reflexivity | exact I |].
  exact Hi.
Defined.

Lemma rows_clean_app (rows : list obj) row t_id t_created :
  json_roundtrip (VArr (VObj <$> rows)) = VArr (VObj <$> rows) ->
  json_roundtrip (VArr (VObj <$> (rows ++ [stored_row row t_id t_created])))
  = VArr (VObj <$> (rows ++ [stored_row row t_id t_created])).
Proof.
  rewrite !json_roundtrip_arr. intros [= H]. f_equal.
  rewrite fmap_app. apply json_clean_app; [exact H|].
  cbn [fmap list_fmap map]. now rewrite stored_row_clean.
Qed.

(** A local insert into a stored sequence of rows. *)
Lemma local_insert_rows key (rows : list obj) row t_id t_created w :
  localStorage w !! key = Some (VArr (VObj <$> rows)) ->
  json_roundtrip (VArr (VObj <$> rows)) = VArr (VObj <$> rows) ->
  local_insert key row t_id t_created w
  = (Ok (VObj (stamp_row row t_id t_created)),
     set_localStorage
       (insert key (VArr (VObj <$> (rows ++ [stored_row row t_id t_created])))) w).
Proof.
  intros Hl Hclean. unfold local_insert. rewrite (stored_lookup _ _ _ _ Hl).
  cbn [as_array]. f_equal. unfold setItem. f_equal. f_equal.
  rewrite json_roundtrip_arr in Hclean. injection Hclean as Hclean.
  rewrite json_roundtrip_arr, map_app, Hclean, fmap_app. reflexivity.
Qed.

(** A local delete from a stored sequence of rows. *)
Lemma local_delete_rows key (rows : list obj) id w :
  localStorage w !! key = Some (VArr (VObj <$> rows)) ->
  json_roundtrip (VArr (VObj <$> rows)) = VArr (VObj <$> rows) ->
  local_delete key id w
  = (Ok tt,
     set_localStorage
       (insert key
          (VArr (VObj <$> List.filter (fun r => negb (strict_eq (get r "id") id)) rows))) w).
Proof.
  intros Hl Hclean. unfold local_delete. rewrite (stored_lookup _ _ _ _ Hl).
  cbn [as_array mbind result_bind]. rewrite filter_rows_by_id.
  unfold setItem. now rewrite json_clean_filter.
Qed.

Lemma filter_drops_new (rows : list obj) (news : list obj) id :
  (forall r, In r rows -> strict_eq (get r "id") id = false) ->
  (forall r, In r news -> strict_eq (get r "id") id = true) ->
  List.filter (fun r => negb (strict_eq (get r "id") id)) (rows ++ news) = rows.
Proof.
  intros Hold Hnew. rewrite List.filter_app.
  rewrite (filter_keeps_all _ rows) by (intros r Hr; now rewrite (Hold r Hr)).
  assert (Hn : List.filter (fun r => negb (strict_eq (get r "id") id)) news = []).
  { induction news as [|n news IH]; [reflexivity|]. cbn [List.filter].
    rewrite (Hnew n) by now left. cbn [negb]. apply IH.
    intros r Hr. apply Hnew. now right. }
  rewrite Hn. apply app_nil_r.
Qed.

Lemma set_localStorage_twice f g w :
  set_localStorage f (set_localStorage g w) = set_localStorage (fun m => f (g m)) w.
Proof. reflexivity. Qed.

(** The same two steps for a log read with its default: it may not be
    stored yet. *)
Lemma local_insert_default key (rows : list obj) row t_id t_created w :
  stored key (VArr []) w = VArr (VObj <$> rows) ->
  json_roundtrip (VArr (VObj <$> rows)) = VArr (VObj <$> rows) ->
  local_insert key row t_id t_created w
  = (Ok (VObj (stamp_row row t_id t_created)),
     set_localStorage
       (insert key (VArr (VObj <$> (rows ++ [stored_row row t_id t_created])))) w).
Proof.
  intros Hl Hclean. unfold local_insert. rewrite Hl.
  cbn [as_array]. f_equal. unfold setItem. f_equal. f_equal.
  rewrite json_roundtrip_arr in Hclean. injection Hclean as Hclean.
  rewrite json_roundtrip_arr, map_app, Hclean, fmap_app. reflexivity.
Qed.

(** X7: in local mode, deleting the id that an insert has just returned
    undoes the insert, provided no earlier row of the log carries that id:
    the log lists what it listed before and every other key is untouched.
    When the log was already stored, the storage is again exactly what it
    was; when it was not (the first insert on this browser), the storage now
    holds an empty log where it held none. *)
Theorem X7_local_delete_undoes_insert (w : World) (rows : list obj) (entry : obj)
    (t_id t_created : Z) :
  isDatabaseAvailable w = false ->
  stored "volunteerHoursLog" (VArr []) w = VArr (VObj <$> rows) ->
  json_roundtrip (VArr (VObj <$> rows)) = VArr (VObj <$> rows) ->
  (forall r, In r rows -> strict_eq (get r "id") (VStr (pretty t_id)) = false) ->
  exists inserted : obj,
    fst (dbAddHoursEntry entry t_id t_created w) = Ok (VObj inserted)
    /\ let w' := snd (dbDeleteHoursEntry (get inserted "id")
                        (snd (dbAddHoursEntry entry t_id t_created w))) in
       localStorage w'
       = <["volunteerHoursLog" := VArr (VObj <$> rows)]> (localStorage w)
       /\ stored "volunteerHoursLog" (VArr []) w' = stored "volunteerHoursLog" (VArr []) w
       /\ (is_Some (localStorage w !! "volunteerHoursLog") ->
           localStorage w' = localStorage w)
       /\ (localStorage w !! "volunteerHoursLog" = None ->
           localStorage w' = <["volunteerHoursLog" := VArr []]> (localStorage w)).
Proof.
  intros Ha Hl Hclean Hfresh. exists (stamp_row entry t_id t_created).
  assert (Hid : get (stamp_row entry t_id t_created) "id" = VStr (pretty t_id)).
  { unfold get. now rewrite (proj1 (stamp_row_fields entry t_id t_created)). }
  rewrite Hid. unfold dbAddHoursEntry, dbDeleteHoursEntry.
  rewrite (remote_unavailable w Ha), (local_insert_default _ rows _ _ _ _ Hl Hclean).
  cbn [fst snd]. split; [reflexivity|].
  set (w1 := set_localStorage _ w).
  assert (Ha1 : isDatabaseAvailable w1 = false) by exact Ha.
  rewrite (remote_unavailable w1 Ha1).
  rewrite (local_delete_rows _ (rows ++ [stored_row entry t_id t_created]) _ w1);
    [| unfold w1, set_localStorage; cbn [localStorage]; apply lookup_insert_eq
     | now apply rows_clean_app].
  cbn [snd]. unfold w1. rewrite set_localStorage_twice.
  unfold set_localStorage. cbn [localStorage].
  rewrite filter_drops_new;
    [| exact Hfresh
     | intros r [<-|[]]; rewrite stored_row_id; cbn [strict_eq]; apply String.eqb_refl].
  rewrite insert_insert_eq. split; [reflexivity|]. split; [|split].
  - unfold stored at 1. cbn [localStorage]. now rewrite lookup_insert_eq, Hl.
  - intros [v Hv]. apply insert_id. rewrite Hv. f_equal.
    unfold stored in Hl. now rewrite Hv in Hl.
  - intros Hnone. unfold stored in Hl. rewrite Hnone in Hl. cbn in Hl.
    destruct rows; [reflexivity | discriminate Hl].
Qed.

(** On a browser that has never stored a log, and on one that holds two
    rows. *)
Lemma X7_witness :
  (exists inserted : obj,
     fst (dbAddHoursEntry food_bank 1800000000000 1800000000000 local_world)
     = Ok (VObj inserted)
     /\ localStorage
          (snd (dbDeleteHoursEntry (get inserted "id")
                  (snd (dbAddHoursEntry food_bank 1800000000000 1800000000000
                          local_world))))
        = <["volunteerHoursLog" := VArr []]> (localStorage local_world))
  /\ (exists inserted : obj,
        fst (dbAddHoursEntry food_bank 1800000000000 1800000000000 two_rows_world)
        = Ok (VObj inserted)
        /\ localStorage
             (snd (dbDeleteHoursEntry (get inserted "id")
                     (snd (dbAddHoursEntry food_bank 1800000000000 1800000000000
                             two_rows_world))))
           = localStorage two_rows_world).
Proof.
  split.
  - destruct (X7_local_delete_undoes_insert local_world [] food_bank
                1800000000000 1800000000000)
      as (inserted & Hins & _ & _ & _ & Hnew);
      [reflexivity | reflexivity | reflexivity | intros r [] |].
    exists inserted. split; [exact Hins | now apply Hnew].
  - destruct (X7_local_delete_undoes_insert two_rows_world two_rows food_bank
                1800000000000 1800000000000)
      as (inserted & Hins & _ & _ & Hold & _);
      [reflexivity | reflexivity | vm_compute; reflexivity | |].
    + intros r Hr. cbn in Hr. destruct Hr as [<-|[<-|[]]]; vm_compute; reflexivity.
    + exists inserted. split; [exact Hins|]. apply Hold. now eexists.
Defined.

(** X8: local ids are the clock reading in milliseconds, so two inserts in
    the same millisecond store two rows with the same id, and one delete by
    that id removes both. *)
Theorem X8_same_millisecond_rows_share_an_id (h : Host) (w : World) (rows : list obj)
    (e1 e2 : obj) (t_id c1 c2 : Z) :
  isDatabaseAvailable w = false ->
  localStorage w !! "volunteerHoursLog" = Some (VArr (VObj <$> rows)) ->
  json_roundtrip (VArr (VObj <$> rows)) = VArr (VObj <$> rows) ->
  (forall r, In r rows -> strict_eq (get r "id") (VStr (pretty t_id)) = false) ->
  let w2 := snd (dbAddHoursEntry e2 t_id c2 (snd (dbAddHoursEntry e1 t_id c1 w))) in
  fst (dbGetHoursLog h ∅ w2)
  = Ok (VArr (VObj <$> (rows ++ [stored_row e1 t_id c1; stored_row e2 t_id c2])))
  /\ get (stored_row e1 t_id c1) "id" = get (stored_row e2 t_id c2) "id"
  /\ fst (dbGetHoursLog h ∅ (snd (dbDeleteHoursEntry (VStr (pretty t_id)) w2)))
     = Ok (VArr (VObj <$> rows)).
Proof.
  intros Ha Hl Hclean Hfresh w2.
  assert (Hw2 : w2 = set_localStorage
                  (insert "volunteerHoursLog"
                     (VArr (VObj <$> (rows ++ [stored_row e1 t_id c1; stored_row e2 t_id c2]))))
                  w).
  { unfold w2, dbAddHoursEntry. rewrite (remote_unavailable w Ha).
    rewrite (local_insert_rows _ rows _ _ _ _ Hl Hclean). cbn [snd].
    set (w1 := set_localStorage _ w).
    assert (Ha1 : isDatabaseAvailable w1 = false) by exact Ha.
    rewrite (remote_unavailable w1 Ha1).
    rewrite (local_insert_rows _ (rows ++ [stored_row e1 t_id c1]) _ _ _ w1).
    - cbn [snd]. unfold w1. rewrite set_localStorage_twice.
      unfold set_localStorage. cbn. rewrite insert_insert_eq, <- app_assoc. reflexivity.
    - unfold w1, set_localStorage. cbn [localStorage]. apply lookup_insert_eq.
    - now apply rows_clean_app. }
  assert (Ha2 : isDatabaseAvailable w2 = false) by (rewrite Hw2; exact Ha).
  assert (Hl2 : localStorage w2 !! "volunteerHoursLog"
                = Some (VArr (VObj <$> (rows ++ [stored_row e1 t_id c1; stored_row e2 t_id c2])))).
  { rewrite Hw2. unfold set_localStorage. cbn [localStorage]. apply lookup_insert_eq. }
  assert (Hclean2 : json_roundtrip
                      (VArr (VObj <$> (rows ++ [stored_row e1 t_id c1; stored_row e2 t_id c2])))
                    = VArr (VObj <$> (rows ++ [stored_row e1 t_id c1; stored_row e2 t_id c2]))).
  { change (rows ++ [stored_row e1 t_id c1; stored_row e2 t_id c2])
      with (rows ++ [stored_row e1 t_id c1] ++ [stored_row e2 t_id c2]).
    rewrite app_assoc. now apply rows_clean_app, rows_clean_app. }
  split; [|split].
  - rewrite (getHoursLog_unfiltered h w2 Ha2). cbn [fst].
    now rewrite (stored_lookup _ _ _ _ Hl2).
  - now rewrite !stored_row_id.
  - unfold dbDeleteHoursEntry. rewrite (remote_unavailable w2 Ha2).
    rewrite (local_delete_rows _ _ _ w2 Hl2 Hclean2). cbn [snd].
    rewrite getHoursLog_unfiltered by exact Ha2. cbn [fst].
    unfold stored, set_localStorage. cbn [localStorage]. rewrite lookup_insert_eq.
    cbn [default]. rewrite filter_drops_new; [reflexivity | exact Hfresh |].
    intros r [<-|[<-|[]]]; rewrite stored_row_id; cbn [strict_eq]; apply String.eqb_refl.
Qed.

Lemma X8_witness :
  fst (dbGetHoursLog utc_host ∅
         (snd (dbDeleteHoursEntry (VStr (pretty 1800000000000))
                 (snd (dbAddHoursEntry soup_kitchen 1800000000000 1800000000001
                         (snd (dbAddHoursEntry food_bank 1800000000000 1800000000000
                                 two_rows_world)))))))
  = Ok (VArr (VObj <$> two_rows)).
Proof.
  destruct (X8_same_millisecond_rows_share_an_id utc_host two_rows_world two_rows
              food_bank soup_kitchen 1800000000000 1800000000000 1800000000001)
    as (_ & _ & Hdel);
    [reflexivity | reflexivity | vm_compute; reflexivity | | exact Hdel].
  intros r Hr. cbn in Hr. destruct Hr as [<-|[<-|[]]]; vm_compute; reflexivity.
Defined.

(** ** Local listings narrowed by date *)

(** [filter] with a callback that does not throw on a list of objects. *)
Lemma filter_rows_objs (p : value -> result bool) (q : obj -> bool) rows :
  (forall r, In r rows -> p (VObj r) = Ok (q r)) ->
  filter_rows p (VObj <$> rows) = Ok (VObj <$> List.filter q rows).
Proof.
  induction rows as [|r rows IH]; intros Hp; [reflexivity|].
  cbn [fmap list_fmap filter_rows List.filter].
  rewrite (Hp r) by now left. cbn [mbind result_bind].
  change (list_fmap obj value VObj rows) with (VObj <$> rows).
  rewrite IH by (intros x Hx; apply Hp; now right).
  cbn [mbind result_bind]. now destruct (q r).
Qed.

Lemma filter_filter_and {A} (p q : A -> bool) l :
  List.filter q (List.filter p l) = List.filter (fun x => p x && q x) l.
Proof.
  induction l as [|x l IH]; [reflexivity|]. cbn [List.filter].
  destruct (p x); cbn [andb List.filter]; [destruct (q x)|]; now rewrite IH.
Qed.

Lemma date_not_before h (r : obj) a :
  plain_date r ->
  (d ← prop (VObj r) "date"; Ok (js_ge h d (VStr a)))
  = Ok (match get r "date" with VStr d => negb (js_string_lt d a) | _ => false end).
Proof.
  unfold plain_date. cbn [prop mbind result_bind].
  destruct (get r "date"); intros H; try contradiction; reflexivity.
Qed.

Lemma date_not_after h (r : obj) b :
  plain_date r ->
  (d ← prop (VObj r) "date"; Ok (js_le h d (VStr b)))
  = Ok (match get r "date" with VStr d => negb (js_string_lt b d) | _ => false end).
Proof.
  unfold plain_date. cbn [prop mbind result_bind].
  destruct (get r "date"); intros H; try contradiction; [|reflexivity].
  unfold js_le, js_ge. now destruct (StringToNumber h b).
Qed.

Lemma truthy_nonempty s : s <> EmptyString -> truthy (VStr s) = true.
Proof.
  intros Hs. cbn [truthy]. destruct (String.eqb_spec s ""); [contradiction|reflexivity].
Qed.

(** X9: in local mode, [dbGetHoursLog] with both date bounds set lists, in
    their stored order, exactly the rows whose [date] is a string that sorts
    (as JavaScript orders strings, code unit by code unit) neither before
    [startDate] nor after [endDate]; rows without a date are left out, and
    the storage is not touched. *)
Theorem X9_local_hours_date_range (h : Host) (w : World) (rows : list obj)
    (filters : obj) (a b : string) :
  isDatabaseAvailable w = false ->
  localStorage w !! "volunteerHoursLog" = Some (VArr (VObj <$> rows)) ->
  (forall r, In r rows -> plain_date r) ->
  get filters "startDate" = VStr a -> a <> EmptyString ->
  get filters "endDate" = VStr b -> b <> EmptyString ->
  dbGetHoursLog h filters w
  = (Ok (VArr (VObj <$> List.filter (dated_between a b) rows)), w).
Proof.
  intros Ha Hl Hplain Hs Hane He Hbne.
  unfold dbGetHoursLog. rewrite (remote_unavailable w Ha). f_equal.
  rewrite (stored_lookup _ _ _ _ Hl). unfold filterHoursLog.
  rewrite Hs, He, (truthy_nonempty a Hane), (truthy_nonempty b Hbne).
  cbn [as_array mbind result_bind].
  rewrite (filter_rows_objs _
             (fun r => match get r "date" with
                       | VStr d => negb (js_string_lt d a) | _ => false end))
    by (intros r Hr; apply date_not_before, Hplain, Hr).
  cbn [fmap result_fmap mbind result_bind as_array].
  rewrite (filter_rows_objs _
             (fun r => match get r "date" with
                       | VStr d => negb (js_string_lt b d) | _ => false end)).
  - cbn [fmap result_fmap]. do 3 f_equal. rewrite filter_filter_and.
    apply List.filter_ext. intros r. unfold dated_between.
    now destruct (get r "date").
  - intros r Hr. apply date_not_after, Hplain. apply List.filter_In in Hr. tauto.
Qed.

Lemma X9_witness :
  dbGetHoursLog utc_host march_filters two_rows_world
  = (Ok (VArr [VObj (stamp_row soup_kitchen 1709337600000 1709337600000)]), two_rows_world).
Proof.
  rewrite (X9_local_hours_date_range utc_host two_rows_world two_rows march_filters
             "2024-03-01" "2024-03-31");
    [reflexivity | reflexivity | reflexivity | | reflexivity | discriminate
     | reflexivity | discriminate].
  intros r Hr. cbn in Hr. destruct Hr as [<-|[<-|[]]]; exact I.
Defined.

Lemma digit_not_T c : is_digit c = true -> Ascii.eqb c "T" = false.
Proof.
  destruct c as [[] [] [] [] [] [] [] []]; cbn; intros H; try discriminate H; reflexivity.
Qed.

Lemma before_T_digits k n rest :
  before_char "T" (digits k n +:+ rest) = digits k n +:+ before_char "T" rest.
Proof.
  revert n rest. induction k as [|k IH]; intros n rest; [reflexivity|].
  cbn [digits]. rewrite !string_app_assoc, IH. f_equal.
  rewrite string_app_cons, string_app_nil_l. cbn [before_char].
  now rewrite (digit_not_T _ (digit_char_is_digit n)).
Qed.

(** The text [toISOString] prints before the [T] is the UTC calendar date. *)
Lemma iso_date_part t : before_char "T" (iso_string t) = utc_date t.
Proof.
  unfold iso_string, utc_date. destruct (civil_from_days (t / msPerDay)) as [[y m] d].
  assert (Hsep : forall c rest, Ascii.eqb c "T" = false ->
            before_char "T" (String c "" +:+ rest) = String c "" +:+ before_char "T" rest).
  { intros c rest Hc. rewrite !string_app_cons, !string_app_nil_l. cbn [before_char].
    now rewrite Hc. }
  assert (Hend : forall rest, before_char "T" ("T" +:+ rest) = "") by reflexivity.
  assert (Htail : forall rest,
            before_char "T" ("-" +:+ digits 2 m +:+ "-" +:+ digits 2 d +:+ "T" +:+ rest)
            = "-" +:+ digits 2 m +:+ "-" +:+ digits 2 d).
  { intros rest. rewrite (Hsep "-"%char) by reflexivity.
    rewrite before_T_digits, (Hsep "-"%char) by reflexivity.
    now rewrite before_T_digits, Hend, string_app_nil_r. }
  unfold year_string. destruct ((0 <=? y) && (y <=? 9999)).
  - now rewrite before_T_digits, Htail.
  - destruct (y <? 0); rewrite !string_app_assoc, Hsep by reflexivity;
      now rewrite before_T_digits, Htail.
Qed.

Lemma utc_date_ascii t : ascii_only (utc_date t) = true.
Proof.
  unfold utc_date. destruct (civil_from_days (t / msPerDay)) as [[y m] d].
  now rewrite !ascii_only_app, year_string_ascii, !ascii_only_digits.
Qed.

(** X10: in local mode, [dbGetEvents] asked for the upcoming events lists,
    in their stored order, exactly the events whose [date] is a string that
    does not sort before the UTC calendar date of the clock reading; events
    without a date are left out, and the storage is not touched. *)
Theorem X10_local_upcoming_events (h : Host) (w : World) (rows : list obj)
    (filters : obj) (now : Z) :
  isDatabaseAvailable w = false ->
  localStorage w !! "volunteerEvents" = Some (VArr (VObj <$> rows)) ->
  (forall r, In r rows -> plain_date r) ->
  truthy (get filters "upcoming") = true ->
  dbGetEvents h filters now w
  = (Ok (VArr (VObj <$> List.filter (dated_from (utc_date now)) rows)), w).
Proof.
  intros Ha Hl Hplain Hup.
  unfold dbGetEvents. rewrite (remote_unavailable w Ha), Hup. f_equal.
  rewrite (stored_lookup _ _ _ _ Hl), iso_date_part.
  cbn [as_array mbind result_bind].
  rewrite (filter_rows_objs _ (dated_from (utc_date now))); [reflexivity|].
  intros r Hr. rewrite (date_not_before h r _ (Hplain r Hr)). unfold dated_from.
  destruct (get r "date"); try reflexivity.
  now rewrite (js_string_lt_ascii _ _ (utc_date_ascii now)).
Qed.

Lemma X10_witness :
  dbGetEvents utc_host {["upcoming" := VBool true]} 1709251200000 three_events_world
  = (Ok (VArr [VObj evening_shift]), three_events_world).
Proof.
  rewrite (X10_local_upcoming_events utc_host three_events_world three_events
             {["upcoming" := VBool true]} 1709251200000);
    [vm_compute; reflexivity | reflexivity | reflexivity | | reflexivity].
  intros r Hr. cbn in Hr. destruct Hr as [<-|[<-|[<-|[]]]]; exact I.
Defined.

(** ** Signing in and out *)

(** Everything [handleAuthStateChange] does. *)
Lemma handleAuthStateChange_effect u w :
  let w' := handleAuthStateChange u w in
  signedInView (dom w') = truthy u
  /\ dispatched (dom w')
     = dispatched (dom w) ++ [if truthy u then userSignedIn u else userSignedOut]
  /\ localStorage w' = localStorage w
  /\ firebaseAuth w' = firebaseAuth w
  /\ isDatabaseAvailable w' = isDatabaseAvailable w
  /\ appExported w' = appExported w
  /\ network w' = network w
  /\ demoLoginModal (dom w') = demoLoginModal (dom w)
  /\ authSuccessAlerts (dom w') = authSuccessAlerts (dom w)
  /\ user (appState w')
     = if appExported w then (if truthy u then app_user u else VNull)
       else user (appState w).
Proof.
  unfold handleAuthStateChange, app_user. cbn zeta.
  change (appExported (set_dom (set_signedInView true) w)) with (appExported w).
  change (appExported (set_dom (set_signedInView false) w)) with (appExported w).
  destruct (truthy u), (appExported w) eqn:He; cbn; rewrite ?He;
    repeat split; reflexivity.
Qed.

Lemma local_current_user w :
  isDatabaseAvailable w = false ->
  dbGetCurrentUser w = (Ok (stored "volunteerConnectUser" VNull w), w).
Proof. intros Ha. unfold dbGetCurrentUser. now rewrite (remote_unavailable w Ha). Qed.

(** X11: without a backend, both sign-out entry points leave no current
    user; [dbSignOut] also removes the stored profile, while [signOut] of
    auth.js leaves the profile where it was. *)
Theorem X11_local_sign_out_paths (currentUser : value) (w : World) :
  isDatabaseAvailable w = false ->
  firebaseAuth w = false ->
  (fst (dbGetCurrentUser (snd (dbSignOut w))) = Ok VNull
   /\ isAuthenticated currentUser (snd (dbSignOut w)) = false
   /\ fst (dbGetProfile (snd (dbSignOut w))) = Ok VNull)
  /\ (fst (dbGetCurrentUser (signOut w)) = Ok VNull
      /\ isAuthenticated currentUser (signOut w) = false
      /\ fst (dbGetProfile (signOut w)) = fst (dbGetProfile w)).
Proof.
  intros Ha Hf. split.
  - unfold dbSignOut. rewrite (remote_unavailable w Ha). cbn [snd].
    set (w0 := removeItem "volunteerProfile" (removeItem "volunteerConnectUser" w)).
    destruct (handleAuthStateChange_effect VNull w0) as (_ & _ & Hls & Hfb & Hav & _).
    assert (Ha' : isDatabaseAvailable (handleAuthStateChange VNull w0) = false)
      by (rewrite Hav; exact Ha).
    rewrite (local_current_user _ Ha'), (local_get_profile _ Ha').
    unfold isAuthenticated, getCurrentUser, stored. rewrite Hfb, Hls.
    unfold w0, removeItem, set_localStorage. cbn [localStorage firebaseAuth fst].
    rewrite Hf, lookup_delete_eq, lookup_delete_ne, lookup_delete_eq by discriminate.
    repeat split; reflexivity.
  - unfold signOut. rewrite Hf.
    set (w0 := removeItem "volunteerConnectUser" w).
    destruct (handleAuthStateChange_effect VNull w0) as (_ & _ & Hls & Hfb & Hav & _).
    assert (Ha' : isDatabaseAvailable (handleAuthStateChange VNull w0) = false)
      by (rewrite Hav; exact Ha).
    rewrite (local_current_user _ Ha'), (local_get_profile _ Ha'), (local_get_profile _ Ha).
    unfold isAuthenticated, getCurrentUser, stored. rewrite Hfb, Hls.
    unfold w0, removeItem, set_localStorage. cbn [localStorage firebaseAuth fst].
    rewrite Hf, lookup_delete_eq, lookup_delete_ne by discriminate.
    repeat split; reflexivity.
Qed.

Lemma X11_witness :
  fst (dbGetProfile (snd (dbSignOut (run_session two_visitors local_world)))) = Ok VNull
  /\ fst (dbGetCurrentUser (signOut (run_session two_visitors local_world))) = Ok VNull.
Proof.
  destruct (X11_local_sign_out_paths VNull (run_session two_visitors local_world))
    as [(_ & _ & Hp) (Hu & _)]; [reflexivity | reflexivity |].
  split; [exact Hp | exact Hu].
Defined.

(** The page a successful demo login leaves. *)
Lemma demo_login_succeeds now w name email :
  demoLoginModal (dom w) = Some (name, email) ->
  String.eqb (trim name) "" = false ->
  String.eqb (trim email) "" = false ->
  includes_char "@" (trim email) = true ->
  completeDemoLogin now w
  = showAuthSuccess ("Welcome, " +:+ trim name +:+ "!")
      (closeDemoLogin
        (handleAuthStateChange (VObj (demoUser (trim name) (trim email) now))
          (setItem "volunteerConnectUser"
             (VObj (demoUser (trim name) (trim email) now)) w))).
Proof.
  intros Hm Hn He Hat. rewrite (completeDemoLogin_inputs now w name email Hm).
  now rewrite Hn, He, Hat.
Qed.

(** X12: without a backend, after a demo login with well-formed inputs the
    modal is gone, the welcome message is shown, and the current user read
    back through database.js or auth.js is the demo user built from the
    trimmed inputs; after [signOut] there is no current user again. *)
Theorem X12_demo_login_round_trip (currentUser : value) (now : Z) (w : World)
    (name email : string) :
  isDatabaseAvailable w = false ->
  firebaseAuth w = false ->
  demoLoginModal (dom w) = Some (name, email) ->
  String.eqb (trim name) "" = false ->
  String.eqb (trim email) "" = false ->
  includes_char "@" (trim email) = true ->
  let u := VObj (demoUser (trim name) (trim email) now) in
  let w' := completeDemoLogin now w in
  fst (dbGetCurrentUser w') = Ok u
  /\ getCurrentUser currentUser w' = u
  /\ isAuthenticated currentUser w' = true
  /\ demoLoginModal (dom w') = None
  /\ last (authSuccessAlerts (dom w')) = Some ("Welcome, " +:+ trim name +:+ "!")
  /\ fst (dbGetCurrentUser (signOut w')) = Ok VNull
  /\ isAuthenticated currentUser (signOut w') = false.
Proof.
  intros Ha Hf Hm Hn He Hat u w'.
  assert (Hw' : w' = showAuthSuccess ("Welcome, " +:+ trim name +:+ "!")
                       (closeDemoLogin
                          (handleAuthStateChange u (setItem "volunteerConnectUser" u w))))
    by (apply demo_login_succeeds; assumption).
  destruct (handleAuthStateChange_effect u (setItem "volunteerConnectUser" u w))
    as (_ & _ & Hls & Hfb & Hav & _).
  assert (Hls' : localStorage w' = <["volunteerConnectUser" := u]> (localStorage w)).
  { rewrite Hw'. unfold showAuthSuccess, closeDemoLogin, set_dom. cbn [localStorage].
    rewrite Hls. unfold setItem, set_localStorage. cbn [localStorage].
    unfold u. now rewrite json_roundtrip_demoUser. }
  assert (Ha' : isDatabaseAvailable w' = false).
  { rewrite Hw'. unfold showAuthSuccess, closeDemoLogin, set_dom, isDatabaseAvailable in *.
    cbn [dbInitialized supabaseClient] in *. rewrite Hav. exact Ha. }
  assert (Hf' : firebaseAuth w' = false).
  { rewrite Hw'. unfold showAuthSuccess, closeDemoLogin, set_dom.
    cbn [firebaseAuth]. rewrite Hfb. exact Hf. }
  assert (Hst : stored "volunteerConnectUser" VNull w' = u)
    by (unfold stored; now rewrite Hls', lookup_insert_eq).
  assert (Hout : fst (dbGetCurrentUser (signOut w')) = Ok VNull
                 /\ isAuthenticated currentUser (signOut w') = false).
  { unfold signOut. rewrite Hf'.
    set (w0 := removeItem "volunteerConnectUser" w').
    destruct (handleAuthStateChange_effect VNull w0) as (_ & _ & Hls0 & Hfb0 & Hav0 & _).
    assert (Ha0 : isDatabaseAvailable (handleAuthStateChange VNull w0) = false)
      by (rewrite Hav0; exact Ha').
    rewrite (local_current_user _ Ha0).
    unfold isAuthenticated, getCurrentUser, stored. rewrite Hfb0, Hls0.
    unfold w0, removeItem, set_localStorage. cbn [localStorage firebaseAuth fst].
    rewrite Hf', lookup_delete_eq. split; reflexivity. }
  rewrite (local_current_user _ Ha'). cbn [fst].
  unfold isAuthenticated, getCurrentUser. rewrite Hf', Hst.
  split; [reflexivity|]. split; [reflexivity|]. split; [reflexivity|].
  split; [rewrite Hw'; reflexivity|].
  split; [|exact Hout].
  rewrite Hw'. unfold showAuthSuccess, set_dom. cbn [dom authSuccessAlerts].
  apply last_snoc.
Qed.

Lemma X12_witness :
  fst (dbGetCurrentUser
         (completeDemoLogin 1707955100000
            (typeDemoInputs " Jane " "jane@x.com" (signInWithGoogle local_world))))
  = Ok (VObj (demoUser "Jane" "jane@x.com" 1707955100000)).
Proof.
  destruct (X12_demo_login_round_trip VNull 1707955100000
              (typeDemoInputs " Jane " "jane@x.com" (signInWithGoogle local_world))
              " Jane " "jane@x.com")
    as (Hu & _);
    [reflexivity | reflexivity | reflexivity | reflexivity | reflexivity
     | reflexivity | exact Hu].
Defined.

(** X13: the demo session lives in the browser storage: on any page that
    starts on the storage a successful demo login left, [initializeDemoMode]
    shows the signed-in view, announces the demo user and mirrors it into
    the application state; on the storage left by a later [signOut] it shows
    the signed-out view and announces the sign-out. *)
Theorem X13_demo_session_survives_reload (now : Z) (w page : World) (name email : string) :
  firebaseAuth w = false ->
  demoLoginModal (dom w) = Some (name, email) ->
  String.eqb (trim name) "" = false ->
  String.eqb (trim email) "" = false ->
  includes_char "@" (trim email) = true ->
  let u := VObj (demoUser (trim name) (trim email) now) in
  (localStorage page = localStorage (completeDemoLogin now w) ->
     signedInView (dom (initializeDemoMode page)) = true
     /\ dispatched (dom (initializeDemoMode page)) = dispatched (dom page) ++ [userSignedIn u]
     /\ (appExported page = true -> user (appState (initializeDemoMode page)) = app_user u))
  /\ (localStorage page = localStorage (signOut (completeDemoLogin now w)) ->
        signedInView (dom (initializeDemoMode page)) = false
        /\ dispatched (dom (initializeDemoMode page)) = dispatched (dom page) ++ [userSignedOut]
        /\ (appExported page = true -> user (appState (initializeDemoMode page)) = VNull)).
Proof.
  intros Hf Hm Hn He Hat u.
  set (w' := completeDemoLogin now w).
  assert (Hw' : w' = showAuthSuccess ("Welcome, " +:+ trim name +:+ "!")
                       (closeDemoLogin
                          (handleAuthStateChange u (setItem "volunteerConnectUser" u w))))
    by (apply demo_login_succeeds; assumption).
  destruct (handleAuthStateChange_effect u (setItem "volunteerConnectUser" u w))
    as (_ & _ & Hls & Hfb & _).
  assert (Hls' : localStorage w' = <["volunteerConnectUser" := u]> (localStorage w)).
  { rewrite Hw'. unfold showAuthSuccess, closeDemoLogin, set_dom. cbn [localStorage].
    rewrite Hls. unfold setItem, set_localStorage. cbn [localStorage].
    unfold u. now rewrite json_roundtrip_demoUser. }
  assert (Hf' : firebaseAuth w' = false).
  { rewrite Hw'. unfold showAuthSuccess, closeDemoLogin, set_dom.
    cbn [firebaseAuth]. rewrite Hfb. exact Hf. }
  split; intros Hpage.
  - unfold initializeDemoMode. rewrite Hpage, Hls', lookup_insert_eq.
    destruct (handleAuthStateChange_effect u page)
      as (Hv & Hd & _ & _ & _ & _ & _ & _ & _ & Hu).
    split; [exact Hv|]. split; [exact Hd|]. intros Hx. now rewrite Hu, Hx.
  - unfold initializeDemoMode. rewrite Hpage. unfold signOut. rewrite Hf'.
    destruct (handleAuthStateChange_effect VNull (removeItem "volunteerConnectUser" w'))
      as (_ & _ & Hls0 & _).
    rewrite Hls0. unfold removeItem, set_localStorage. cbn [localStorage].
    rewrite lookup_delete_eq.
    destruct (handleAuthStateChange_effect VNull page)
      as (Hv & Hd & _ & _ & _ & _ & _ & _ & _ & Hu).
    split; [exact Hv|]. split; [exact Hd|]. intros Hx. now rewrite Hu, Hx.
Qed.

Lemma X13_witness :
  signedInView
    (dom (initializeDemoMode
            (completeDemoLogin 1707955100000
               (typeDemoInputs "Jane" "jane@x.com" (signInWithGoogle local_world)))))
  = true.
Proof.
  destruct (X13_demo_session_survives_reload 1707955100000
              (typeDemoInputs "Jane" "jane@x.com" (signInWithGoogle local_world))
              (completeDemoLogin 1707955100000
                 (typeDemoInputs "Jane" "jane@x.com" (signInWithGoogle local_world)))
              "Jane" "jane@x.com")
    as [Hin _];
    [reflexivity | reflexivity | reflexivity | reflexivity | reflexivity |].
  destruct (Hin eq_refl) as [Hv _]. exact Hv.
Defined.

(** ** Sessions: the signed-in view stays in step *)

Lemma consistent_frame w w' :
  localStorage w' !! "volunteerConnectUser" = localStorage w !! "volunteerConnectUser" ->
  signedInView (dom w') = signedInView (dom w) ->
  dispatched (dom w') = dispatched (dom w) ->
  user (appState w') = user (appState w) ->
  appExported w' = appExported w ->
  signed_in_consistent w -> signed_in_consistent w'.
Proof.
  unfold signed_in_consistent, view_matches_storage, view_matches_events, view_matches_app.
  intros -> -> -> -> ->. exact (fun H => H).
Qed.

Lemma consistent_after_change u w :
  (truthy u = true <-> is_Some (localStorage w !! "volunteerConnectUser")) ->
  signed_in_consistent (handleAuthStateChange u w).
Proof.
  intros Hu.
  destruct (handleAuthStateChange_effect u w)
    as (Hv & Hd & Hls & _ & _ & Hx & _ & _ & _ & Hmirror).
  unfold signed_in_consistent, view_matches_storage, view_matches_events, view_matches_app.
  rewrite Hv, Hd, Hls, Hx, Hmirror, last_snoc. split; [exact Hu|]. split.
  - destruct (truthy u); reflexivity.
  - intros ->. unfold app_user. destruct (truthy u); split; congruence.
Qed.

Lemma handleAuthStateChange_mode u w :
  isDatabaseAvailable (handleAuthStateChange u w) = isDatabaseAvailable w
  /\ firebaseAuth (handleAuthStateChange u w) = firebaseAuth w.
Proof.
  destruct (handleAuthStateChange_effect u w) as (_ & _ & _ & Hf & Ha & _). now split.
Qed.

(** Each step of a session without a backend keeps the mode and keeps the
    view, the storage, the last event and the application state in step. *)
Lemma step_consistent s w :
  isDatabaseAvailable w = false ->
  firebaseAuth w = false ->
  signed_in_consistent w ->
  signed_in_consistent (run_step s w)
  /\ isDatabaseAvailable (run_step s w) = false
  /\ firebaseAuth (run_step s w) = false.
Proof.
  intros Ha Hf Hc. pose proof (remote_unavailable w Ha) as Hr.
  assert (Herr : forall msg id,
            signed_in_consistent (showAuthError msg (focus_input id w))
            /\ isDatabaseAvailable (showAuthError msg (focus_input id w)) = false
            /\ firebaseAuth (showAuthError msg (focus_input id w)) = false).
  { intros msg id. unfold showAuthError, focus_input.
    destruct (demoLoginModal (dom w)); (split; [|split; assumption]);
      (eapply consistent_frame; [..|exact Hc]; reflexivity). }
  destruct s as [e a b| | |name email|now| | |]; cbn [run_step].
  - unfold dbAddHoursEntry. rewrite Hr. unfold local_insert.
    destruct (as_array (stored "volunteerHoursLog" (VArr []) w)); cbn [snd];
      [|split; [exact Hc | split; assumption]].
    split; [|split; assumption].
    eapply consistent_frame; [..|exact Hc]; try reflexivity.
    unfold setItem, set_localStorage. cbn [localStorage].
    now rewrite lookup_insert_ne.
  - unfold signInWithGoogle. rewrite Hf. split; [|split; assumption].
    eapply consistent_frame; [..|exact Hc]; reflexivity.
  - unfold dbSignInWithGoogle. rewrite Hr. cbn [snd]. split; [|split; assumption].
    eapply consistent_frame; [..|exact Hc]; reflexivity.
  - unfold typeDemoInputs. destruct (demoLoginModal (dom w));
      (split; [|split; assumption]); [|exact Hc].
    eapply consistent_frame; [..|exact Hc]; reflexivity.
  - destruct (demoLoginModal (dom w)) as [[name email]|] eqn:Hm.
    + rewrite (completeDemoLogin_inputs now w name email Hm).
      destruct (String.eqb (trim name) ""); [apply Herr|].
      destruct (String.eqb (trim email) ""); [apply Herr|].
      destruct (negb (includes_char "@" (trim email))); [apply Herr|].
      set (u := VObj (demoUser (trim name) (trim email) now)).
      destruct (handleAuthStateChange_mode u (setItem "volunteerConnectUser" u w))
        as [Hav Hfb].
      split; [|split].
      * eapply (consistent_frame (handleAuthStateChange u (setItem "volunteerConnectUser" u w)));
          try reflexivity.
        apply consistent_after_change.
        unfold setItem, set_localStorage. cbn [localStorage].
        rewrite lookup_insert_eq. split; [eauto | reflexivity].
      * unfold showAuthSuccess, closeDemoLogin, set_dom, isDatabaseAvailable in *.
        cbn [dbInitialized supabaseClient] in *. rewrite Hav. exact Ha.
      * unfold showAuthSuccess, closeDemoLogin, set_dom. cbn [firebaseAuth].
        rewrite Hfb. exact Hf.
    + rewrite (completeDemoLogin_no_modal now w Hm). apply Herr.
  - split; [|split; assumption].
    eapply consistent_frame; [..|exact Hc]; reflexivity.
  - unfold signOut. rewrite Hf.
    destruct (handleAuthStateChange_mode VNull (removeItem "volunteerConnectUser" w))
      as [Hav Hfb].
    rewrite Hav, Hfb. split; [|split; assumption].
    apply consistent_after_change.
    unfold removeItem, set_localStorage. cbn [localStorage truthy].
    rewrite lookup_delete_eq. split; [discriminate | intros [x Hx]; discriminate Hx].
  - unfold dbSignOut. rewrite Hr. cbn [snd].
    destruct (handleAuthStateChange_mode VNull
                (removeItem "volunteerProfile" (removeItem "volunteerConnectUser" w)))
      as [Hav Hfb].
    rewrite Hav, Hfb. split; [|split; assumption].
    apply consistent_after_change.
    unfold removeItem, set_localStorage. cbn [localStorage truthy].
    rewrite lookup_delete_ne, lookup_delete_eq by discriminate.
    split; [discriminate | intros [x Hx]; discriminate Hx].
Qed.

(** X14: without a backend, whatever sequence of hours inserts, sign-ins,
    modal inputs and sign-outs runs on a page where the signed-in view, the
    stored user, the last auth event and [AppState.user] agree, they still
    agree afterwards, and the page is still without a backend. *)
Theorem X14_session_keeps_sign_in_consistent (steps : list session_step) (w : World) :
  isDatabaseAvailable w = false ->
  firebaseAuth w = false ->
  signed_in_consistent w ->
  signed_in_consistent (run_session steps w)
  /\ isDatabaseAvailable (run_session steps w) = false.
Proof.
  revert w. induction steps as [|s steps IH]; intros w Ha Hf Hc; [now split|].
  change (run_session (s :: steps) w) with (run_session steps (run_step s w)).
  destruct (step_consistent s w Ha Hf Hc) as (Hc' & Ha' & Hf').
  now apply IH.
Qed.

Lemma X14_witness :
  signed_in_consistent (run_session two_visitors local_world)
  /\ isDatabaseAvailable (run_session two_visitors local_world) = false.
Proof.
  apply (X14_session_keeps_sign_in_consistent two_visitors local_world);
    [reflexivity | reflexivity |].
  split; [|split].
  - split; [discriminate | intros [x Hx]; discriminate Hx].
  - exact I.
  - intros _. split; [discriminate | intros Hx; now destruct Hx].
Defined.

(** ** Sessions reported by Supabase *)

(** X15: when Supabase reports a session whose user has a string email, the
    page shows the signed-in view and announces a user whose display name is
    the profile's full name or, when there is none, the part of the email
    before the first [@]; nothing is written to the browser storage and
    nothing is sent.  Without a session, or without a user in it, the page
    shows the signed-out view. *)
Theorem X15_supabase_session_normalised (session su : value) (email : string) (w : World) :
  truthy su = true ->
  prop session "user" = Ok su ->
  field su "email" = VStr email ->
  (exists w',
     handleSupabaseAuthChange session w = Ok w'
     /\ signedInView (dom w') = true
     /\ dispatched (dom w') = dispatched (dom w) ++ [userSignedIn (session_user su email)]
     /\ (appExported w = true -> user (appState w') = app_user (session_user su email))
     /\ localStorage w' = localStorage w
     /\ network w' = network w)
  /\ (forall none, truthy none = false ->
        handleSupabaseAuthChange none w = Ok (handleAuthStateChange VNull w)
        /\ signedInView (dom (handleAuthStateChange VNull w)) = false)
  /\ (forall s : obj, truthy (get s "user") = false ->
        handleSupabaseAuthChange (VObj s) w = Ok (handleAuthStateChange VNull w)).
Proof.
  intros Hsu Hsess Hemail. split; [|split].
  - exists (handleAuthStateChange (session_user su email) w).
    destruct (handleAuthStateChange_effect (session_user su email) w)
      as (Hv & Hd & Hls & _ & _ & _ & Hn & _ & _ & Hmirror).
    change (truthy (session_user su email)) with true in *.
    split.
    + unfold handleSupabaseAuthChange.
      assert (Hfield : match session with
                       | VUndef | VNull => VUndef | _ => field session "user" end = su).
      { destruct session; cbn in Hsess; try discriminate Hsess;
          try (injection Hsess as <-; discriminate Hsu).
        now injection Hsess as <-. }
      rewrite Hfield, Hsu, Hemail. unfold session_user.
      now destruct (truthy (field (field su "user_metadata") "full_name")).
    + split; [exact Hv|]. split; [exact Hd|].
      split; [intros Hx; now rewrite Hmirror, Hx|]. now split.
  - intros none Hnone. destruct (handleAuthStateChange_effect VNull w) as (Hv & _).
    split; [|exact Hv].
    unfold handleSupabaseAuthChange.
    destruct none as [| |b|n| |s|l|m]; try reflexivity; try discriminate Hnone.
  - intros s Hs. unfold handleSupabaseAuthChange. cbn [field]. now rewrite Hs.
Qed.

Lemma X15_witness :
  exists w',
    handleSupabaseAuthChange alice_session (remote_world (Some alice)) = Ok w'
    /\ dispatched (dom w') = [userSignedIn (session_user (VObj alice) "alice@example.org")]
    /\ field (session_user (VObj alice) "alice@example.org") "displayName" = VStr "alice".
Proof.
  destruct (X15_supabase_session_normalised alice_session (VObj alice) "alice@example.org"
              (remote_world (Some alice)))
    as [(w' & Hrun & _ & Hd & _) _]; [reflexivity | reflexivity | reflexivity |].
  exists w'. split; [exact Hrun|]. split; [exact Hd | reflexivity].
Defined.

(** ** Profile completeness and export *)

Lemma strict_true_roundtrip v :
  strict_eq (json_roundtrip v) (VBool true) = strict_eq v (VBool true).
Proof. now destruct v. Qed.

Lemma get_stored_field (m : obj) k :
  strict_eq (get (omap json_field m) k) (VBool true) = strict_eq (get m k) (VBool true).
Proof.
  unfold get. rewrite lookup_omap. destruct (m !! k) as [v|]; [|reflexivity].
  cbn [mbind option_bind default]. destruct (json_field_cases v) as [->|[Hv _]]; [reflexivity|].
  rewrite (json_field_defined v Hv). cbn [default]. apply strict_true_roundtrip.
Qed.

(** X16: in local mode, after [dbUpdateProfile] the profile counts as
    complete exactly when its [profile_complete] is the boolean [true]: the
    value the update carries decides, and when the update carries none the
    stored profile's value stays in force. *)
Theorem X16_profile_complete_is_strict (w : World) (x p : obj) (now : Z) :
  isDatabaseAvailable w = false ->
  stored "volunteerProfile" (VObj ∅) w = VObj p ->
  fst (dbIsProfileComplete (snd (dbUpdateProfile x now w)))
  = Ok (strict_eq (match x !! "profile_complete" with
                   | Some v => v
                   | None => get p "profile_complete"
                   end) (VBool true)).
Proof.
  intros Ha Hp. rewrite (local_update_profile x p now w Ha Hp). cbn [snd].
  unfold dbIsProfileComplete, bind.
  rewrite local_get_profile by exact Ha. rewrite stored_setItem, json_roundtrip_obj.
  cbn [ret fst]. f_equal. fold json_field. rewrite get_stored_field.
  unfold get. rewrite lookup_insert_ne by discriminate.
  destruct (x !! "profile_complete") as [v|] eqn:Hx.
  - now rewrite (lookup_union_Some_l _ _ _ _ Hx).
  - now rewrite (lookup_union_r _ _ _ Hx).
Qed.

Lemma X16_witness :
  fst (dbIsProfileComplete (snd (dbUpdateProfile claims_complete 1707955200000 local_world)))
  = Ok false.
Proof.
  rewrite (X16_profile_complete_is_strict local_world claims_complete ∅ 1707955200000);
    reflexivity.
Defined.

(** In local mode the events and letters listings read the storage and
    nothing else. *)
Lemma local_events_unfiltered h now w :
  isDatabaseAvailable w = false ->
  dbGetEvents h ∅ now w = (Ok (stored "volunteerEvents" (VArr []) w), w).
Proof.
  intros Ha. unfold dbGetEvents. rewrite (remote_unavailable w Ha).
  unfold get. now rewrite lookup_empty.
Qed.

Lemma local_letters filters w :
  isDatabaseAvailable w = false ->
  dbGetLetters filters w = (Ok (stored "volunteerLetters" (VArr []) w), w).
Proof. intros Ha. unfold dbGetLetters. now rewrite (remote_unavailable w Ha). Qed.

(** X17: in local mode [dbExportAllUserData] returns the stored profile (or
    [null]) and the three stored sequences whole (or empty), stamped with the
    clock reading, and it neither writes nor sends anything. *)
Theorem X17_local_export_reads_everything (h : Host) (w : World) (now : Z) :
  isDatabaseAvailable w = false ->
  dbExportAllUserData h now w
  = (Ok (export_of now (stored "volunteerProfile" VNull w)
                       (stored "volunteerHoursLog" (VArr []) w)
                       (stored "volunteerEvents" (VArr []) w)
                       (stored "volunteerLetters" (VArr []) w)), w).
Proof.
  intros Ha. unfold dbExportAllUserData, bind.
  now rewrite (local_get_profile w Ha), (getHoursLog_unfiltered h w Ha),
    (local_events_unfiltered h now w Ha), (local_letters ∅ w Ha).
Qed.

Lemma X17_witness :
  fst (dbExportAllUserData utc_host 1709251200000 two_rows_world)
  = Ok (export_of 1709251200000 VNull (VArr (VObj <$> two_rows)) (VArr []) (VArr [])).
Proof.
  rewrite (X17_local_export_reads_everything utc_host two_rows_world 1709251200000);
    reflexivity.
Defined.

(** X18: in remote mode a signed-in user's [dbGetProfile] sends one select
    on [profiles] for the row whose [id] is the user's id; when the backend
    reports an error it returns [null] instead of throwing, and
    [dbIsProfileComplete] then answers [false]. *)
Theorem X18_remote_profile_errors_read_as_absent (w : World) (c : Client) (u : obj) :
  isDatabaseAvailable w = true ->
  supabaseClient w = Some c ->
  auth_getUser c = Some u ->
  let q := profile_select_query (get u "id") in
  dbGetProfile w
  = (Ok (match r_error (rest c q) with Some _ => VNull | None => r_data (rest c q) end),
     send (Rest q) (send AuthGetUser w))
  /\ (r_error (rest c q) <> None -> fst (dbIsProfileComplete w) = Ok false).
Proof.
  intros Ha Hc Hu q. pose proof (remote_available w c Ha Hc) as Hr.
  assert (Hget : dbGetProfile w
                 = (Ok (match r_error (rest c q) with
                        | Some _ => VNull | None => r_data (rest c q) end),
                    send (Rest q) (send AuthGetUser w))).
  { unfold dbGetProfile. rewrite Hr. unfold bind.
    rewrite (current_user_remote _ _ Hr), Hu.
    cbn [truthy negb lift prop run_query]. fold (profile_select_query (get u "id")).
    fold q. now destruct (r_error (rest c q)). }
  split; [exact Hget|].
  intros Herr. unfold dbIsProfileComplete, bind. rewrite Hget.
  destruct (r_error (rest c q)); [reflexivity | contradiction].
Qed.

Lemma X18_witness :
  fst (dbGetProfile (failing_world (Some alice))) = Ok VNull
  /\ fst (dbIsProfileComplete (failing_world (Some alice))) = Ok false.
Proof.
  destruct (X18_remote_profile_errors_read_as_absent (failing_world (Some alice))
              (failing_client (Some alice)) alice eq_refl eq_refl eq_refl) as [Hget Hc].
  split; [rewrite Hget; reflexivity | apply Hc; discriminate].
Defined.

(** ** The schedule *)

Lemma within_window_objs h now fut evs :
  within_window h now fut (VObj <$> evs)
  = Ok (timed h <$> List.filter
          (fun e => match event_time h e, fut with
                    | Some t, Some f => (now <=? t) && (t <=? f)
                    | _, _ => false
                    end) evs).
Proof.
  induction evs as [|e evs IH]; [reflexivity|].
  cbn [fmap list_fmap within_window prop mbind result_bind List.filter].
  change (list_fmap obj value VObj evs) with (VObj <$> evs). rewrite IH.
  cbn [mbind result_bind]. f_equal.
  assert (Ht : forall t, new_Date h (get e "date") = Some t -> timed h e = (t, VObj e)).
  { intros t Hd. unfold timed, start, event_time. now rewrite Hd. }
  change (event_time h e) with (new_Date h (get e "date")).
  destruct (new_Date h (get e "date")) as [t|], fut as [f|]; try reflexivity.
  destruct ((now <=? t) && (t <=? f)); [|reflexivity].
  cbn [fmap list_fmap]. now rewrite (Ht t eq_refl).
Qed.

Lemma insert_by_time_sorted h x r :
  StronglySorted (fun a b => start h a <= start h b) r ->
  exists r',
    insert_by_time (timed h x) (timed h <$> r) = timed h <$> r'
    /\ Permutation r' (x :: r)
    /\ StronglySorted (fun a b => start h a <= start h b) r'.
Proof.
  induction r as [|y r IH]; intros Hs.
  - exists [x]. repeat split; [reflexivity | repeat constructor].
  - inversion Hs as [|? ? Hs' Hall]; subst.
    cbn [fmap list_fmap insert_by_time timed fst].
    destruct (start h y <? start h x) eqn:Hlt.
    + apply Z.ltb_lt in Hlt. destruct (IH Hs') as (r' & He & Hp & Hsr).
      exists (y :: r'). split; [cbn [fmap list_fmap]; f_equal; exact He|].
      split; [rewrite Hp; apply perm_swap|].
      constructor; [exact Hsr|].
      apply (Permutation_Forall (Permutation_sym Hp)).
      constructor; [lia | exact Hall].
    + apply Z.ltb_ge in Hlt. exists (x :: y :: r).
      split; [reflexivity|]. split; [reflexivity|].
      constructor; [exact Hs|]. constructor; [exact Hlt|].
      eapply Forall_impl; [exact Hall|]. cbn. intros z Hz. lia.
Qed.

Lemma sort_by_time_sorted h l :
  exists r,
    sort_by_time (timed h <$> l) = timed h <$> r
    /\ Permutation r l
    /\ StronglySorted (fun a b => start h a <= start h b) r.
Proof.
  induction l as [|x l (r & He & Hp & Hs)].
  - exists []. repeat split; constructor.
  - assert (Hcons : sort_by_time (timed h <$> x :: l)
                    = insert_by_time (timed h x) (sort_by_time (timed h <$> l)))
      by reflexivity.
    rewrite Hcons, He. destruct (insert_by_time_sorted h x r Hs) as (r' & He' & Hp' & Hs').
    exists r'. split; [exact He'|]. split; [|exact Hs'].
    rewrite Hp'. now constructor.
Qed.

Lemma sorted_not_later h r :
  StronglySorted (fun a b => start h a <= start h b) r -> StronglySorted (not_later h) r.
Proof.
  induction 1 as [|a r Hs IH Hall]; constructor; [exact IH|].
  eapply Forall_impl; [exact Hall|]. cbn. intros b Hab x y Hx Hy.
  unfold start in Hab. now rewrite Hx, Hy in Hab.
Qed.



Lemma append_events_valid h evs : forall ics,
  Forall (dated_at h) evs ->
  append_events h ics (VObj <$> (fst <$> evs)) = Ok (ics +:+ event_blocks evs).
Proof.
  induction evs as [|[e t] evs IH]; intros ics Hall.
  - cbn. now rewrite string_app_nil_r.
  - inversion Hall as [|? ? [Hd Hy] Hrest]; subst. cbn [fst snd] in Hd, Hy.
    cbn [fmap list_fmap append_events fst].
    rewrite (vevent_valid h e t Hd Hy). cbn [mbind result_bind].
    change (list_fmap obj value VObj (list_fmap (obj * Z)%type obj fst evs))
      with (VObj <$> (fst <$> evs)).
    rewrite (IH _ Hrest). cbn [event_blocks]. now rewrite string_app_assoc.
Qed.





Lemma scheduleItem_date event gid now :
  get (new_scheduleItem event gid now) "date" = get event "date".
Proof.
  unfold new_scheduleItem, get. rewrite !lookup_insert_ne by discriminate.
  destruct (event !! "date") as [v|] eqn:Hd.
  - now rewrite (lookup_union_Some_l _ _ _ _ Hd).
  - now rewrite (lookup_union_r _ _ _ Hd).
Qed.

Lemma saveAppState_saved w : state_saved (saveAppState w).
Proof. unfold state_saved, saveAppState, setItem. cbn. apply lookup_insert_eq. Qed.



(** ** Hours totals *)

Lemma round_double_exact z : Z.abs z < 2 ^ 53 -> round_double z = z.
Proof. intros Hz. unfold round_double. now rewrite (proj2 (Z.ltb_lt _ _) Hz). Qed.

Lemma number_to_string_exact z : 0 <= z < 2 ^ 53 -> number_to_string z = pretty z.
Proof.
  intros [H0 H1]. unfold number_to_string, nonneg_to_string, shortest_decimal.
  rewrite (proj2 (Z.ltb_ge z 0) H0), (proj2 (Z.ltb_lt z (2 ^ 53)) H1).
  assert (Hsmall : z < 10 ^ 21) by (eapply Z.lt_trans; [exact H1 | reflexivity]).
  now rewrite (proj2 (Z.ltb_lt _ _) Hsmall).
Qed.

Lemma total_nonneg es : (forall e, In e es -> 0 <= counted_hours e) -> 0 <= total es.
Proof.
  induction es as [|e es IH]; intros H; [reflexivity|]. cbn [total foldr].
  fold (total es). specialize (H e (or_introl eq_refl)) as He.
  specialize (IH (fun x Hx => H x (or_intror Hx))). lia.
Qed.

Lemma total_filter_le (q : obj -> bool) es :
  (forall e, In e es -> 0 <= counted_hours e) -> total (List.filter q es) <= total es.
Proof.
  induction es as [|e es IH]; intros H; [reflexivity|]. cbn [List.filter].
  specialize (H e (or_introl eq_refl)) as He.
  specialize (IH (fun x Hx => H x (or_intror Hx))).
  destruct (q e); cbn [total foldr]; fold (total es); fold (total (List.filter q es)); lia.
Qed.

Lemma sum_hours_plain es : forall acc,
  (forall e, In e es -> plain_hours e /\ 0 <= counted_hours e) ->
  0 <= acc -> acc + total es < 2 ^ 53 ->
  sum_hours (VNum acc) (VObj <$> es) = Ok (VNum (acc + total es)).
Proof.
  induction es as [|e es IH]; intros acc Hplain Hacc Hsum.
  - cbn. now rewrite Z.add_0_r.
  - cbn [fmap list_fmap sum_hours prop mbind result_bind].
    change (list_fmap obj value VObj es) with (VObj <$> es).
    change (total (e :: es)) with (counted_hours e + total es) in *.
    destruct (Hplain e (or_introl eq_refl)) as [He Hpos].
    assert (Hrest : 0 <= total es)
      by (apply total_nonneg; intros x Hx; apply Hplain; now right).
    assert (Hstep : js_add (VNum acc) (js_or (get e "hours") (VNum 0))
                    = VNum (acc + counted_hours e)).
    { unfold plain_hours in He. unfold counted_hours in *. unfold js_or.
      destruct (get e "hours") as [| | |n| | | |]; try contradiction.
      - cbn [truthy js_add ToNumber_prim]. rewrite round_double_exact by lia. reflexivity.
      - cbn [truthy]. destruct (n =? 0) eqn:Hn; cbn [negb js_add ToNumber_prim];
          rewrite round_double_exact by lia; [|reflexivity].
        apply Z.eqb_eq in Hn. now subst. }
    rewrite Hstep, IH; [now rewrite Z.add_assoc | | lia | lia].
    intros x Hx. apply Hplain. now right.
Qed.

(** The total over the entries dated on or after a start. *)
Lemma total_since h (start_ : option Z) es :
  whole_hours es ->
  (r ← filter_rows (fun r => d ← prop r "date";
                             Ok (match new_Date h d, start_ with
                                 | Some a, Some b => b <=? a
                                 | _, _ => false
                                 end)) (VObj <$> es);
   sum_hours (VNum 0) r)
  = Ok (VNum (total (List.filter
                       (fun e => match new_Date h (get e "date"), start_ with
                                 | Some a, Some b => b <=? a
                                 | _, _ => false
                                 end) es))).
Proof.
  intros [Hplain Hsum].
  rewrite (filter_rows_objs _
             (fun e => match new_Date h (get e "date"), start_ with
                       | Some a, Some b => b <=? a
                       | _, _ => false
                       end)) by reflexivity.
  cbn [mbind result_bind]. rewrite sum_hours_plain; [reflexivity | | lia |].
  - intros e He. apply Hplain. apply List.filter_In in He. tauto.
  - pose proof (total_filter_le
                  (fun e => match new_Date h (get e "date"), start_ with
                            | Some a, Some b => b <=? a
                            | _, _ => false
                            end) es (fun e He => proj2 (Hplain e He))). lia.
Qed.



Lemma sum_hours_app l1 : forall acc l2,
  sum_hours acc (l1 ++ l2) = (a ← sum_hours acc l1; sum_hours a l2).
Proof.
  induction l1 as [|x l1 IH]; intros acc l2; [reflexivity|].
  cbn [app sum_hours]. destruct (prop x "hours"); cbn [mbind result_bind]; [apply IH|reflexivity].
Qed.

(** X24: an entry whose [hours] is a non-empty string turns the total into
    text: after entries whose hours are whole numbers, none negative, adding
    up to less than 2^53, the all-time total is the decimal text of their sum
    followed by the string, not a number. *)
Theorem X24_text_hours_concatenate (h : Host) (w : World) (es : list obj) (e : obj)
    (s : string) (now : Z) :
  hours (appState w) = VObj <$> (es ++ [e]) ->
  whole_hours es ->
  get e "hours" = VStr s ->
  s <> EmptyString ->
  HoursTracker.getTotalHours h "all" now w = Ok (VStr (pretty (total es) +:+ s)).
Proof.
  intros Hs [Hplain Hsum] He Hne. unfold HoursTracker.getTotalHours. rewrite Hs.
  cbn [String.eqb Ascii.eqb Bool.eqb negb]. cbn [mbind result_bind].
  assert (Hpos : 0 <= total es)
    by (apply total_nonneg; intros x Hx; now apply Hplain).
  rewrite fmap_app, sum_hours_app, sum_hours_plain by (try exact Hplain; lia).
  cbn [mbind result_bind fmap list_fmap sum_hours prop]. rewrite He.
  unfold js_or. rewrite (truthy_nonempty s Hne). cbn [js_add ToString].
  now rewrite number_to_string_exact by lia.
Qed.

Lemma X24_witness :
  HoursTracker.getTotalHours utc_host "all" 1709424000000
    (snd (HoursTracker.logHours typed_entry "lsn1x2k1def" 1709337600000
            (snd (HoursTracker.logHours food_bank "lsn1x2k0abc" 1707955200000 local_world))))
  = Ok (VStr "44").
Proof.
  rewrite (X24_text_hours_concatenate utc_host _
             [<["verified" := VBool false]> (<["logged" := VStr (iso_string 1707955200000)]>
                (food_bank ∪ {["id" := VStr "lsn1x2k0abc"]}))]
             (<["verified" := VBool false]> (<["logged" := VStr (iso_string 1709337600000)]>
                (typed_entry ∪ {["id" := VStr "lsn1x2k1def"]})))
             "4" 1709424000000).
  - vm_compute. reflexivity.
  - vm_compute. reflexivity.
  - split; [|vm_compute; reflexivity].
    intros x Hx. cbn in Hx. destruct Hx as [<-|[]].
    split; [vm_compute; exact I | vm_compute; discriminate].
  - vm_compute. reflexivity.
  - discriminate.
Defined.

(** ** The managers of app.js *)

Lemma saveAppState_only f w : saves_state_only w (saveAppState (set_app f w)).
Proof.
  split; [apply saveAppState_saved|]. split; [|split; reflexivity].
  intros k Hk. unfold saveAppState, setItem, set_localStorage. cbn [localStorage].
  now rewrite lookup_insert_ne.
Qed.

Lemma saves_state_only_trans w1 w2 w3 :
  saves_state_only w1 w2 -> saves_state_only w2 w3 -> saves_state_only w1 w3.
Proof.
  intros (_ & Hk & Hn & Hd) (Hs & Hk' & Hn' & Hd').
  split; [exact Hs|]. split; [|split; congruence].
  intros k Hne. now rewrite Hk', Hk.
Qed.

(** X25: [ScheduleManager.addEvent] (whether it returns or throws),
    [HoursTracker.logHours] and [VolunteerManager.trackOutreach] all leave
    the state saved under [volunteerConnectState] exactly as it is in memory,
    and touch no other storage key, send nothing and leave the document
    alone. *)
Theorem X25_managers_save_state_only (h : Host) (w : World) (given : obj) (contact : value)
    (gid : string) (now : Z) :
  saves_state_only w (snd (ScheduleManager.addEvent h given gid now w))
  /\ saves_state_only w (snd (HoursTracker.logHours given gid now w))
  /\ saves_state_only w (snd (VolunteerManager.trackOutreach contact gid now w)).
Proof.
  split; [|split]; [|apply saveAppState_only..].
  unfold ScheduleManager.addEvent.
  destruct (truthy (get given "sendReminders")); [|apply saveAppState_only].
  destruct (toISOString _); cbn [snd]; [|apply saveAppState_only].
  eapply saves_state_only_trans; apply saveAppState_only.
Qed.

Lemma record_fields (given : obj) gid :
  get (given ∪ {["id" := VStr gid]}) "id" = record_id given gid
  /\ forall k, k <> "id" -> (given ∪ {["id" := VStr gid]}) !! k = given !! k.
Proof.
  unfold record_id, get. split.
  - destruct (given !! "id") as [v|] eqn:Hid.
    + now rewrite (lookup_union_Some_l _ _ _ _ Hid).
    + now rewrite (lookup_union_r _ _ _ Hid), lookup_singleton_eq.
  - intros k Hk. destruct (given !! k) as [v|] eqn:Hgk.
    + now rewrite (lookup_union_Some_l _ _ _ _ Hgk).
    + rewrite (lookup_union_r _ _ _ Hgk). now apply lookup_singleton_ne.
Qed.

(** X26: the records [addEvent] (for an event without reminders) and
    [logHours] return are the caller's object with the manager's fields set
    over it ([created] and [reminders], [logged] and [verified]); the
    generated id is used only when the caller's object has no [id] of its
    own: an [id] given by the caller stays. *)
Theorem X26_manager_records_keep_given_id (h : Host) (w : World) (given : obj)
    (gid : string) (now : Z) :
  truthy (get given "sendReminders") = false ->
  (exists item : obj,
     fst (ScheduleManager.addEvent h given gid now w) = Ok (VObj item)
     /\ get item "id" = record_id given gid
     /\ get item "created" = VStr (iso_string now)
     /\ get item "reminders" = VArr []
     /\ forall k, k <> "id" -> k <> "created" -> k <> "reminders" -> item !! k = given !! k)
  /\ (exists entry : obj,
        fst (HoursTracker.logHours given gid now w) = Ok (VObj entry)
        /\ get entry "id" = record_id given gid
        /\ get entry "logged" = VStr (iso_string now)
        /\ get entry "verified" = VBool false
        /\ forall k, k <> "id" -> k <> "logged" -> k <> "verified" -> entry !! k = given !! k).
Proof.
  intros Hrem. destruct (record_fields given gid) as [Hid Hother]. split.
  - exists (new_scheduleItem given gid now). unfold ScheduleManager.addEvent.
    rewrite Hrem. cbn [fst]. split; [reflexivity|].
    unfold new_scheduleItem, get in *.
    split; [now rewrite !lookup_insert_ne by discriminate|].
    split; [now rewrite lookup_insert_ne, lookup_insert_eq by discriminate|].
    split; [now rewrite lookup_insert_eq|].
    intros k Hk1 Hk2 Hk3. rewrite !lookup_insert_ne by congruence. now apply Hother.
  - eexists. unfold HoursTracker.logHours. cbn [fst]. split; [reflexivity|].
    unfold get in *.
    split; [now rewrite !lookup_insert_ne by discriminate|].
    split; [now rewrite lookup_insert_ne, lookup_insert_eq by discriminate|].
    split; [now rewrite lookup_insert_eq|].
    intros k Hk1 Hk2 Hk3. rewrite !lookup_insert_ne by congruence. now apply Hother.
Qed.

Lemma X26_witness :
  exists item : obj,
    fst (ScheduleManager.addEvent utc_host imported_shift "lsn1x2k1def" 1707868800001
           (snd (ScheduleManager.addEvent utc_host morning_shift "lsn1x2k0abc"
                   1707868800000 local_world)))
    = Ok (VObj item)
    /\ get item "id" = VStr "lsn1x2k0abc".
Proof.
  destruct (X26_manager_records_keep_given_id utc_host
              (snd (ScheduleManager.addEvent utc_host morning_shift "lsn1x2k0abc"
                      1707868800000 local_world))
              imported_shift "lsn1x2k1def" 1707868800001)
    as [(item & Hitem & Hid & _) _]; [reflexivity|].
  exists item. split; [exact Hitem|]. rewrite Hid. reflexivity.
Defined.

(** X27: [trackOutreach] returns a record with the generated id, the given
    contact and the status ['contacted'], and appends it to the tracked
    volunteers; [getByStatus('contacted')] then lists it after the earlier
    records of that status, and [getByStatus] of any other status lists what
    it listed before. *)
Theorem X27_trackOutreach_then_getByStatus (w : World) (vs : list obj) (contact : value)
    (gid : string) (now : Z) :
  volunteers (appState w) = VObj <$> vs ->
  exists record : obj,
    let w' := snd (VolunteerManager.trackOutreach contact gid now w) in
    fst (VolunteerManager.trackOutreach contact gid now w) = Ok (VObj record)
    /\ get record "id" = VStr gid
    /\ get record "contact" = contact
    /\ get record "status" = VStr "contacted"
    /\ VolunteerManager.getAll w' = VolunteerManager.getAll w ++ [VObj record]
    /\ VolunteerManager.getByStatus "contacted" w'
       = Ok (VObj <$> (List.filter (has_status "contacted") vs ++ [record]))
    /\ (forall s, s <> "contacted" ->
          VolunteerManager.getByStatus s w' = VolunteerManager.getByStatus s w).
Proof.
  intros Hvs. eexists. cbn zeta. unfold VolunteerManager.trackOutreach. cbn [fst snd].
  split; [reflexivity|].
  split; [reflexivity|]. split; [unfold get; now rewrite !lookup_insert_ne, lookup_insert_eq by discriminate|].
  split; [reflexivity|]. split; [reflexivity|].
  assert (Hby : forall s (l : list obj),
            filter_rows (fun v => st ← prop v "status"; Ok (strict_eq st (VStr s))) (VObj <$> l)
            = Ok (VObj <$> List.filter (has_status s) l)).
  { intros s l. now apply filter_rows_objs. }
  unfold VolunteerManager.getByStatus, saveAppState, setItem, set_localStorage, set_app,
    set_volunteers. cbn [appState volunteers]. rewrite Hvs.
  change [VObj ?r] with (VObj <$> [r]). rewrite <- !fmap_app, !Hby.
  split.
  - now rewrite List.filter_app.
  - intros s Hs. rewrite !Hby, List.filter_app. cbn [List.filter].
    unfold has_status at 2, get. rewrite !lookup_insert_ne, lookup_insert_eq by discriminate.
    change (strict_eq (default VUndef (Some (VStr "contacted"))) (VStr s))
      with (String.eqb "contacted" s).
    rewrite (proj2 (String.eqb_neq "contacted" s)) by congruence.
    now rewrite app_nil_r.
Qed.

Lemma X27_witness :
  exists record : obj,
    fst (VolunteerManager.trackOutreach (VStr "sam@example.org") "lsn1x2k0abc"
           1707868800000 local_world) = Ok (VObj record)
    /\ VolunteerManager.getByStatus "contacted"
         (snd (VolunteerManager.trackOutreach (VStr "sam@example.org") "lsn1x2k0abc"
                 1707868800000 local_world))
       = Ok [VObj record].
Proof.
  destruct (X27_trackOutreach_then_getByStatus local_world [] (VStr "sam@example.org")
              "lsn1x2k0abc" 1707868800000 eq_refl)
    as (record & Hret & _ & _ & _ & _ & Hby & _).
  exists record. split; [exact Hret | exact Hby].
Defined.

(** ** The shipped configuration *)

Lemma local_insert_offline key row t_id t_created w :
  offline (local_insert key row t_id t_created) w.
Proof. unfold offline, local_insert. now destruct (as_array _). Qed.

Lemma local_delete_offline key id w : offline (local_delete key id) w.
Proof.
  unfold offline, local_delete.
  now destruct (as_array (stored key (VArr []) w) ≫= _).
Qed.

(** Without a backend, no operation of the data layer but the opportunities
    listing sends anything. *)
Lemma local_mode_offline h w (x row filters : obj) (id : value) (now t_id t_created : Z) :
  isDatabaseAvailable w = false ->
  offline dbGetCurrentUser w /\ offline dbGetProfile w
  /\ offline (dbUpdateProfile x now) w /\ offline dbIsProfileComplete w
  /\ offline (dbGetHoursLog h filters) w /\ offline (dbAddHoursEntry row t_id t_created) w
  /\ offline (dbDeleteHoursEntry id) w
  /\ offline (dbGetEvents h filters now) w /\ offline (dbAddEvent row t_id t_created) w
  /\ offline (dbDeleteEvent id) w
  /\ offline (dbGetLetters filters) w /\ offline (dbSaveLetter row t_id t_created) w
  /\ offline dbSignInWithGoogle w /\ offline dbSignOut w
  /\ offline (dbExportAllUserData h now) w.
Proof.
  intros Ha. pose proof (remote_unavailable w Ha) as Hr.
  assert (Hprofile : dbGetProfile w = (Ok (stored "volunteerProfile" VNull w), w))
    by now apply local_get_profile.
  repeat split.
  - unfold offline, dbGetCurrentUser. now rewrite Hr.
  - unfold offline. now rewrite Hprofile.
  - unfold offline, dbUpdateProfile. now rewrite Hr.
  - unfold offline, dbIsProfileComplete, bind. now rewrite Hprofile.
  - unfold offline, dbGetHoursLog. now rewrite Hr.
  - unfold dbAddHoursEntry, offline. rewrite Hr. apply local_insert_offline.
  - unfold dbDeleteHoursEntry, offline. rewrite Hr. apply local_delete_offline.
  - unfold offline, dbGetEvents. now rewrite Hr.
  - unfold dbAddEvent, offline. rewrite Hr. apply local_insert_offline.
  - unfold dbDeleteEvent, offline. rewrite Hr. apply local_delete_offline.
  - unfold offline, dbGetLetters. now rewrite Hr.
  - unfold dbSaveLetter, offline. rewrite Hr. apply local_insert_offline.
  - unfold offline, dbSignInWithGoogle. now rewrite Hr.
  - unfold offline, dbSignOut. rewrite Hr. cbn [snd].
    now destruct (handleAuthStateChange_effect VNull
                    (removeItem "volunteerProfile" (removeItem "volunteerConnectUser" w)))
      as (_ & _ & _ & _ & _ & _ & -> & _).
  - unfold offline, dbExportAllUserData, bind.
    now rewrite Hprofile, (getHoursLog_unfiltered h w Ha),
      (local_events_unfiltered h now w Ha), (local_letters ∅ w Ha).
Qed.

(** X28: with a configuration constant left at its placeholder, as the
    repository ships them, [initDatabase] leaves the page without a backend
    whatever library is loaded, and from then on no operation of the data
    layer sends anything, except [dbGetOpportunities], which fetches the
    bundled opportunities file and nothing else. *)
Theorem X28_placeholder_configuration_stays_offline (d : Deployment) (h : Host) (w : World)
    (x row filters : obj) (id : value) (now t_id t_created : Z) :
  SUPABASE_URL d = "YOUR_SUPABASE_URL" \/ SUPABASE_ANON_KEY d = "YOUR_SUPABASE_ANON_KEY" ->
  let page := snd (initDatabase d w) in
  fst (initDatabase d w) = false
  /\ isDatabaseAvailable page = false
  /\ (offline dbGetCurrentUser page /\ offline dbGetProfile page
      /\ offline (dbUpdateProfile x now) page /\ offline dbIsProfileComplete page
      /\ offline (dbGetHoursLog h filters) page
      /\ offline (dbAddHoursEntry row t_id t_created) page
      /\ offline (dbDeleteHoursEntry id) page
      /\ offline (dbGetEvents h filters now) page
      /\ offline (dbAddEvent row t_id t_created) page
      /\ offline (dbDeleteEvent id) page
      /\ offline (dbGetLetters filters) page
      /\ offline (dbSaveLetter row t_id t_created) page
      /\ offline dbSignInWithGoogle page /\ offline dbSignOut page
      /\ offline (dbExportAllUserData h now) page)
  /\ network (snd (dbGetOpportunities filters page))
     = network page ++ [Fetch opportunities_url].
Proof.
  intros Hplace page.
  assert (Hinit : initDatabase d w = (false, set_dbInitialized false w)).
  { unfold initDatabase. destruct Hplace as [-> | ->]; [reflexivity|].
    now rewrite orb_true_r. }
  assert (Ha : isDatabaseAvailable page = false) by (unfold page; now rewrite Hinit).
  split; [now rewrite Hinit|]. split; [exact Ha|].
  split; [now apply local_mode_offline|].
  unfold dbGetOpportunities. now rewrite (remote_unavailable page Ha).
Qed.

Lemma X28_witness :
  isDatabaseAvailable (snd (initDatabase (shipped working_library) local_world)) = false
  /\ offline (dbAddHoursEntry food_bank 1707955200000 1707955200001)
       (snd (initDatabase (shipped working_library) local_world)).
Proof.
  destruct (X28_placeholder_configuration_stays_offline (shipped working_library) utc_host
              local_world ∅ food_bank ∅ VNull 0 1707955200000 1707955200001)
    as (_ & Ha & Hops & _); [left; reflexivity|].
  split; [exact Ha|].
  destruct Hops as (_ & _ & _ & _ & _ & Hadd & _). exact Hadd.
Defined.
